(** * vs-frameblender: a shallow embedding of main.cpp and its verification

    The development follows the source file function by function:
    [getPlanesArg], [frameBlendCreate], [frameBlend<T>], [frameBlendGetFrame]
    and [VapourSynthPluginInit].

    - C [int] is a 32-bit two's complement integer, kept in [Z] with its
      wrap-around written out ([wrap_int]); [unsigned] likewise ([wrap_uint]).
    - C [float] and [double] are IEEE 754 binary32 and binary64, modelled with
      the parameterised operations of [SpecFloat] (round to nearest even).
    - Behaviour that C++ leaves undefined is an explicit [Undef] outcome,
      and so is the end of the process when the host aborts on a fatal
      message.
    - The host (VapourSynth API 3) is modelled only at the calls the filter
      makes: a store of plane buffers, the frames of the input clip, the
      request list, the message log and the list of released frames. *)

From Stdlib Require Import ZArith Bool Lia Ascii SpecFloat.
From stdpp Require Import base option list gmap strings.

Open Scope Z_scope.

(** ** Machine integers *)

Definition INT_MAX : Z := 2147483647.
Definition INT_MIN : Z := -2147483648.

Definition wrap_int (z : Z) : Z := (z + 2 ^ 31) mod 2 ^ 32 - 2 ^ 31.
Definition wrap_uint (z : Z) : Z := z mod 2 ^ 32.

(** VSHelper.h: saturating conversion of an [int64_t] property to [int]. *)
Definition int64ToIntS (i : Z) : Z :=
  if i >? INT_MAX then INT_MAX
  else if i <? INT_MIN then INT_MIN
  else i.

(** [std::clamp(v, lo, hi)]. *)
Definition clamp (v lo hi : Z) : Z :=
  if v <? lo then lo else if hi <? v then hi else v.

(** ** Floating point: binary32 ([float]) and binary64 ([double]) *)

Module F32.
Definition prec : Z := 24.
Definition emax : Z := 128.
Definition zero : spec_float := S754_zero false.
Definition add : spec_float -> spec_float -> spec_float := SFadd prec emax.
Definition mul : spec_float -> spec_float -> spec_float := SFmul prec emax.
Definition div : spec_float -> spec_float -> spec_float := SFdiv prec emax.
(** Conversion of an integer to [float]. *)
Definition of_int (z : Z) : spec_float := binary_normalize prec emax z 0 false.
(** Conversion of a [double] to [float] (rounds to nearest even). *)
Definition of_double (x : spec_float) : spec_float :=
  match x with
  | S754_finite s m e => binary_round prec emax s m e
  | _ => x
  end.
End F32.

Module F64.
Definition prec : Z := 53.
Definition emax : Z := 1024.
Definition add : spec_float -> spec_float -> spec_float := SFadd prec emax.
Definition div : spec_float -> spec_float -> spec_float := SFdiv prec emax.
Definition of_int (z : Z) : spec_float := binary_normalize prec emax z 0 false.
(** Conversion of a [float] to [double] (exact). *)
Definition of_float (x : spec_float) : spec_float :=
  match x with
  | S754_finite s m e => binary_round prec emax s m e
  | _ => x
  end.
End F64.

#[global] Instance spec_float_inhabited : Inhabited spec_float :=
  populate S754_nan.

(** The integer part of a finite float, fraction discarded. *)
Definition trunc_toward_zero (x : spec_float) : option Z :=
  match x with
  | S754_zero _ => Some 0
  | S754_finite s m e =>
      let a := if 0 <=? e then Z.pos m * 2 ^ e else Z.pos m / 2 ^ (- e) in
      Some (if s then - a else a)
  | S754_infinity _ | S754_nan => None
  end.

(** [int(x)] for a [float] x: the truncated value when [int] can hold it;
    undefined otherwise. *)
Definition int_of_float (x : spec_float) : option Z :=
  match trunc_toward_zero x with
  | Some z => if (INT_MIN <=? z) && (z <=? INT_MAX) then Some z else None
  | None => None
  end.

(** ** Outcomes of C++ evaluation *)

Inductive VSMessageType := mtDebug | mtWarning | mtCritical | mtFatal.

(** The ways a call ends without returning to its caller: the undefined
    behaviours of C++ the code can run into and, last, the host ending the
    process, which it does after it has delivered an [mtFatal] message
    (VapourSynth API 3, [logMessage]); the constructor carries the message
    log as it stands at that point. *)
Inductive undefined : Set :=
  | NullFormat          (* d->vi.format is a null pointer *)
  | NullNode            (* the clip handle is a null pointer *)
  | SrcppOverflow       (* srcpp[i] with i outside the 128 entries *)
  | UninitialisedRead   (* an entry of srcpp read before it was written *)
  | BadFrameArray       (* srcs[i] or frames[i] outside the array *)
  | BadPlane            (* a plane the frame does not have *)
  | ReadOutOfBounds     (* a sample read outside a source plane *)
  | WriteOutOfBounds    (* a sample written outside the destination plane *)
  | FloatToInt          (* int(acc) not representable *)
  | ShiftCount          (* 1U << n with n negative or at least 32 *)
  | HostAbort (log : list (VSMessageType * string)).

Inductive outcome (A : Type) : Type :=
  | Ret (a : A)
  | Undef (u : undefined).
Arguments Ret {A} a.
Arguments Undef {A} u.

#[global] Instance outcome_ret : MRet outcome := fun A a => Ret a.
#[global] Instance outcome_bind : MBind outcome := fun A B k m =>
  match m with
  | Ret a => k a
  | Undef u => Undef u
  end.

Definition of_option {A} (u : undefined) (o : option A) : outcome A :=
  match o with
  | Some a => Ret a
  | None => Undef u
  end.

(** [for (i = i0; i < i0 + n; ++i) body]. *)
Fixpoint for_loop {S : Type} (n : nat) (i0 : nat)
    (body : nat -> S -> outcome S) (s : S) : outcome S :=
  match n with
  | O => Ret s
  | Datatypes.S n' => s' ← body i0 s ; for_loop n' (Datatypes.S i0) body s'
  end.

(** ** Host data *)

Record VSFormat := {
  bitsPerSample : Z;
  bytesPerSample : Z;
  numPlanes : Z
}.

(** One plane of a frame: the buffer it refers to in the store, its stride
    in bytes and its dimensions in samples. *)
Record PlaneRef := {
  pl_buf : nat;
  pl_stride : Z;
  pl_width : Z;
  pl_height : Z
}.

Record VSFrameRef := {
  f_format : VSFormat;
  f_planes : list PlaneRef
}.

Record VSVideoInfo := {
  format : option VSFormat;   (* null for a clip of variable format *)
  numFrames : Z
}.

Record VSNodeRef := {
  node_vi : VSVideoInfo;
  node_frame : Z -> VSFrameRef
}.

(** The arguments of a call, as a VSMap. A key that is absent is [None]. *)
Record VSMap := {
  arg_clip : option VSNodeRef;
  arg_weights : option (list spec_float);   (* doubles *)
  arg_planes : option (list Z)              (* int64 *)
}.

(** [propNumElements]: the number of elements of a key, -1 when absent. *)
Definition propNumElements {A} (v : option (list A)) : Z :=
  match v with
  | Some l => Z.of_nat (length l)
  | None => -1
  end.

Definition elements {A} (v : option (list A)) : list A := default [] v.

(** ** getPlanesArg *)

Inductive runtime_error := RuntimeError (what : string).

Fixpoint getPlanesArg_loop (rest : list Z) (process : list bool)
    : runtime_error + list bool :=
  match rest with
  | [] => inr process
  | x :: rest' =>
      let o := int64ToIntS x in
      if (o <? 0) || (o >=? 3) then
        inl (RuntimeError "plane index out of range")
      else if (process !!! Z.to_nat o : bool) then
        inl (RuntimeError "plane specified twice")
      else getPlanesArg_loop rest' (<[Z.to_nat o := true]> process)
  end.

Definition getPlanesArg (planes : option (list Z)) : runtime_error + list bool :=
  let m := propNumElements planes in
  getPlanesArg_loop (elements planes) (replicate 3 (m <=? 0)).

(** ** frameBlendCreate *)

Record FrameBlendData := {
  node : VSNodeRef;
  vi : VSVideoInfo;
  weightPercents : list spec_float;   (* floats *)
  process : list bool                 (* bool process[3] *)
}.

(** [totalWeights += propGetFloat(...)]: the sum is formed in [double] and
    stored back into the [float] accumulator. *)
Definition totalWeights (ws : list spec_float) : spec_float :=
  fold_left (fun t w => F32.of_double (F64.add (F64.of_float t) w)) ws F32.zero.

(** [weightPercents.push_back(propGetFloat(in, "weights", i, 0) / totalWeights)]
    for i = 0 .. numWeights - 1. *)
Fixpoint scaleWeights (ws : list spec_float) (n i : nat) (total : spec_float)
    (acc : list spec_float) : list spec_float :=
  match n with
  | O => acc
  | S n' =>
      let w : spec_float := ws !!! i in
      scaleWeights ws n' (S i) total
        (acc ++ [F32.of_double (F64.div w (F64.of_float total))])
  end.

(** What a call of the filter's create function leaves behind: an error set
    on the out map, or a filter instance handed to [createFilter]. *)
Inductive created :=
  | SetError (msg : string)
  | CreateFilter (name : string) (d : FrameBlendData).

(** The body of the try block. The mtDebug line that prints the scaled
    weights has no effect on the result and is left out. *)
Definition frameBlendCreate_try (numWeights : Z) (inm : VSMap)
    : outcome (runtime_error + FrameBlendData) :=
  if negb (Z.rem numWeights 2 =? 1) then
    Ret (inl (RuntimeError "Number of weights must be odd"))
  else
    nd ← of_option NullNode (arg_clip inm) ;
    let ws := elements (arg_weights inm) in
    let total := totalWeights ws in
    let percents := scaleWeights ws (Z.to_nat numWeights) 0 total [] in
    match getPlanesArg (arg_planes inm) with
    | inl e => Ret (inl e)
    | inr p =>
        Ret (inr {| node := nd; vi := node_vi nd;
                    weightPercents := percents; process := p |})
    end.

Definition frameBlendCreate (inm : VSMap) : outcome created :=
  let numWeights := propNumElements (arg_weights inm) in
  r ← frameBlendCreate_try numWeights inm ;
  match r with
  | inl (RuntimeError what) => Ret (SetError ("FrameBlend: " +:+ what))
  | inr d => Ret (CreateFilter "FrameBlend" d)
  end.

(** ** frameBlend<T> *)

(** The two instantiations of the template parameter T. *)
Inductive SampleT := U8 | U16.

Definition sizeof (T : SampleT) : Z :=
  match T with
  | U8 => 1
  | U16 => 2
  end.

(** [static_cast<T>(v)] for an [int] v. *)
Definition static_cast (T : SampleT) (v : Z) : Z := v mod 2 ^ (8 * sizeof T).

(** The store of plane buffers. A buffer holds the samples of one plane, row
    after row, each row [stride] samples long; a buffer is named by its
    position in the store. The byte layout of a sample is not modelled. *)
Abbreviation store := (list (list Z)).

(** A [const T*] into a source plane: the plane's samples and an offset.
    [dstp] is VS_RESTRICT, so no source plane changes during a blend. *)
Record ptr := {
  p_buf : list Z;
  p_off : Z
}.

Definition ptr_add (p : ptr) (k : Z) : ptr :=
  {| p_buf := p_buf p; p_off := p_off p + k |}.

(** [p[w]]. *)
Definition deref (p : ptr) (w : Z) : outcome Z :=
  let j := p_off p + w in
  if j <? 0 then Undef ReadOutOfBounds
  else of_option ReadOutOfBounds (p_buf p !! Z.to_nat j).

(** [dstp[w] = v], with [dstp] an offset into the destination buffer. *)
Definition store_sample (buf : list Z) (j : Z) (v : Z) : outcome (list Z) :=
  if (j <? 0) || (Z.of_nat (length buf) <=? j) then Undef WriteOutOfBounds
  else Ret (<[Z.to_nat j := v]> buf).

(** [const T* srcpp[128]]. *)
Definition srcpp_capacity : nat := 128.

Definition srcpp_new : list (option ptr) := replicate srcpp_capacity None.

Definition srcpp_set (arr : list (option ptr)) (i : nat) (p : ptr)
    : outcome (list (option ptr)) :=
  if decide (i < length arr)%nat then Ret (<[i := Some p]> arr)
  else Undef SrcppOverflow.

Definition srcpp_get (arr : list (option ptr)) (i : nat) : outcome ptr :=
  match arr !! i with
  | None => Undef SrcppOverflow
  | Some None => Undef UninitialisedRead
  | Some (Some p) => Ret p
  end.

Definition getReadPtr (σ : store) (f : VSFrameRef) (plane : nat) : outcome ptr :=
  pr ← of_option BadPlane (f_planes f !! plane) ;
  buf ← of_option BadPlane (σ !! pl_buf pr) ;
  Ret {| p_buf := buf; p_off := 0 |}.

(** [1U << n] on a 32-bit [unsigned] is undefined unless [0 <= n < 32]. *)
Definition shl_defined (n : Z) : bool := (0 <=? n) && (n <? 32).

(** [unsigned maxVal = (1U << bitsPerSample) - 1], in 32-bit unsigned
    arithmetic: its value when the shift is defined. *)
Definition maxVal (fmt : VSFormat) : Z :=
  wrap_uint (wrap_uint (Z.shiftl 1 (bitsPerSample fmt)) - 1).

(** The innermost loop: [acc += val * d->weightPercents[i]]. *)
Definition accumulate (ws : list spec_float) (srcpp : list (option ptr))
    (w : Z) : outcome spec_float :=
  for_loop (length ws) 0
    (fun i acc =>
       p ← srcpp_get srcpp i ;
       val ← deref p w ;
       Ret (F32.add acc (F32.mul (F32.of_int val) (ws !!! i))))
    F32.zero.

(** [static_cast<T>(std::clamp(int(acc), 0, int(maxVal)))]; [None] when
    [int(acc)] is undefined. *)
Definition convertSample (T : SampleT) (mv : Z) (acc : spec_float) : option Z :=
  a ← int_of_float acc ;
  let actualAcc := clamp a 0 (wrap_int mv) in
  Some (static_cast T actualAcc).

(** One pixel: accumulate, convert, clamp, store. *)
Definition blendPixel (T : SampleT) (ws : list spec_float) (mv : Z)
    (srcpp : list (option ptr)) (dstp : Z) (w : nat) (dstbuf : list Z)
    : outcome (list Z) :=
  acc ← accumulate ws srcpp (Z.of_nat w) ;
  v ← of_option FloatToInt (convertSample T mv acc) ;
  store_sample dstbuf (dstp + Z.of_nat w) v.

(** [std::transform(srcpp, srcpp + numSrcs, srcpp, ptr + stride)]. *)
Definition advance (numSrcs : nat) (stride : Z) (srcpp : list (option ptr))
    : outcome (list (option ptr)) :=
  for_loop numSrcs 0
    (fun i arr => p ← srcpp_get arr i ; srcpp_set arr i (ptr_add p stride))
    srcpp.

(** One row of the plane. The state is (srcpp, destination buffer, dstp). *)
Definition blendRow (T : SampleT) (ws : list spec_float) (mv stride : Z)
    (width : nat) (st : list (option ptr) * list Z * Z)
    : outcome (list (option ptr) * list Z * Z) :=
  let '(srcpp, dstbuf, dstp) := st in
  dstbuf' ← for_loop width 0 (blendPixel T ws mv srcpp dstp) dstbuf ;
  srcpp' ← advance (length ws) stride srcpp ;
  Ret (srcpp', dstbuf', dstp + stride).

(** [std::transform(srcs, srcs + numSrcs, srcpp, getReadPtr(f, plane))]. *)
Definition fill (σ : store) (srcs : list VSFrameRef) (plane numSrcs : nat)
    : outcome (list (option ptr)) :=
  for_loop numSrcs 0
    (fun i arr =>
       f ← of_option BadFrameArray (srcs !! i) ;
       p ← getReadPtr σ f plane ;
       srcpp_set arr i p)
    srcpp_new.

(** The blend of one plane. [getStride] is in bytes, so the stride in
    samples is its quotient by [sizeof(T)]. The steps are in the order of
    the source: geometry of the destination plane, fill of srcpp, write
    pointer, [maxVal] (which dereferences [d->vi.format] and shifts by its
    [bitsPerSample]), then the rows. *)
Definition frameBlend (T : SampleT) (d : FrameBlendData)
    (srcs : list VSFrameRef) (dst : VSFrameRef) (plane : nat) (σ : store)
    : outcome store :=
  dpl ← of_option BadPlane (f_planes dst !! plane) ;
  let stride := Z.quot (pl_stride dpl) (sizeof T) in
  let width := pl_width dpl in
  let height := pl_height dpl in
  let numSrcs := length (weightPercents d) in
  srcpp ← fill σ srcs plane numSrcs ;
  dstbuf ← of_option BadPlane (σ !! pl_buf dpl) ;
  fmt ← of_option NullFormat (format (vi d)) ;
  mv ← (if shl_defined (bitsPerSample fmt) then Ret (maxVal fmt)
        else Undef ShiftCount) ;
  st ← for_loop (Z.to_nat height) 0
         (fun _ => blendRow T (weightPercents d) mv stride (Z.to_nat width))
         (srcpp, dstbuf, 0) ;
  Ret (<[pl_buf dpl := st.1.2]> σ).

(** ** frameBlendGetFrame *)

Inductive VSActivationReason :=
  | arInitial
  | arFrameReady
  | arAllFramesReady
  | arError.

(** What the filter's calls leave in the host. [blended] is a trace of the
    invocations of [frameBlend<T>] (plane and sample type), kept to state
    which planes go through the per-pixel computation. *)
Record host := {
  buffers : store;
  requested : list Z;                        (* requestFrameFilter *)
  messages : list (VSMessageType * string);  (* logMessage *)
  released : list VSFrameRef;                (* freeFrame *)
  blended : list (nat * SampleT)
}.

Definition requestFrames (l : list Z) (h : host) : host :=
  {| buffers := buffers h; requested := requested h ++ l;
     messages := messages h; released := released h; blended := blended h |}.

(** [logMessage(msgType, msg)] (API 3): the message is delivered to the log;
    after an [mtFatal] message the host aborts the process, so the call does
    not return. *)
Definition logMessage (ty : VSMessageType) (msg : string) (h : host)
    : outcome host :=
  let log := messages h ++ [(ty, msg)] in
  match ty with
  | mtFatal => Undef (HostAbort log)
  | _ =>
      Ret {| buffers := buffers h; requested := requested h;
             messages := log; released := released h; blended := blended h |}
  end.

Definition freeFrames (l : list VSFrameRef) (h : host) : host :=
  {| buffers := buffers h; requested := requested h;
     messages := messages h; released := released h ++ l;
     blended := blended h |}.

Definition with_buffers (σ : store) (h : host) : host :=
  {| buffers := σ; requested := requested h;
     messages := messages h; released := released h; blended := blended h |}.

Definition traceBlend (plane : nat) (T : SampleT) (h : host) : host :=
  {| buffers := buffers h; requested := requested h;
     messages := messages h; released := released h;
     blended := blended h ++ [(plane, T)] |}.

(** [newVideoFrame2(fi, width, height, fr, pl, center, core)] (API 3): plane p
    of the new frame is plane [pl[p]] of [fr[p]] when [fr[p]] is not null,
    the very same buffer; otherwise it is newly allocated. The dimensions
    passed are those of [center], whose format is [fi], so a new plane has
    the stride and dimensions of the same plane of [center]; its contents,
    uninitialised in the host, are zeros here. *)
Fixpoint newPlanes (n p : nat) (fr : list (option VSFrameRef)) (pl : list nat)
    (center : VSFrameRef) (σ : store) : outcome (list PlaneRef * store) :=
  match n with
  | O => Ret ([], σ)
  | S n' =>
      src ← of_option BadPlane (fr !! p) ;
      r ← match src with
          | Some f =>
              q ← of_option BadPlane (pl !! p) ;
              pr ← of_option BadPlane (f_planes f !! q) ;
              Ret (pr, σ)
          | None =>
              g ← of_option BadPlane (f_planes center !! p) ;
              old ← of_option BadPlane (σ !! pl_buf g) ;
              Ret ({| pl_buf := length σ; pl_stride := pl_stride g;
                      pl_width := pl_width g; pl_height := pl_height g |},
                   σ ++ [replicate (length old) 0])
          end ;
      rest ← newPlanes n' (S p) fr pl center r.2 ;
      Ret (r.1 :: rest.1, rest.2)
  end.

Definition newVideoFrame2 (fi : VSFormat) (fr : list (option VSFrameRef))
    (pl : list nat) (center : VSFrameRef) (σ : store)
    : outcome (VSFrameRef * store) :=
  r ← newPlanes (Z.to_nat (numPlanes fi)) 0 fr pl center σ ;
  Ret ({| f_format := fi; f_planes := r.1 |}, r.2).

(** The fetch loop: the indices passed to [getFrameFilter], in order. *)
Fixpoint fetchIndices (k : nat) (fn : Z) : list Z :=
  match k with
  | O => []
  | S k' =>
      Z.max 0 fn ::
      fetchIndices k' (if fn <? INT_MAX - 1 then wrap_int (fn + 1) else fn)
  end.

Definition half (d : FrameBlendData) : Z :=
  wrap_int (Z.of_nat (length (weightPercents d)) / 2).

Definition fetchWindow (n : Z) (d : FrameBlendData) : list Z :=
  fetchIndices (length (weightPercents d)) (wrap_int (n - half d)).

(** The request loop: [for (i = max(0, n - half); i <= lastframe; i++)]. *)
Definition requestWindow (n : Z) (d : FrameBlendData) : list Z :=
  let clamp := n >? wrap_int (INT_MAX - 1 - half d) in
  let lastframe := if clamp then INT_MAX - 1 else wrap_int (n + half d) in
  let first := Z.max 0 (wrap_int (n - half d)) in
  (fun i => first + Z.of_nat i) <$> seq 0 (Z.to_nat (lastframe - first + 1)).

Definition fatalText : string := "msg tekno and tell him to fix :alien:".

(** The loop over the planes. The result is [false] when the loop was left
    by [return nullptr], the statement after the fatal message. *)
Fixpoint planeLoop (count plane : nat) (d : FrameBlendData) (fi : VSFormat)
    (frames : list VSFrameRef) (dst : VSFrameRef) (h : host)
    : outcome (bool * host) :=
  match count with
  | O => Ret (true, h)
  | S count' =>
      sel ← of_option BadPlane (process d !! plane) ;
      if sel : bool then
        if bytesPerSample fi =? 1 then
          σ ← frameBlend U8 d frames dst plane (buffers h) ;
          planeLoop count' (S plane) d fi frames dst
            (traceBlend plane U8 (with_buffers σ h))
        else if bytesPerSample fi =? 2 then
          σ ← frameBlend U16 d frames dst plane (buffers h) ;
          planeLoop count' (S plane) d fi frames dst
            (traceBlend plane U16 (with_buffers σ h))
        else
          h' ← logMessage mtFatal fatalText h ;
          Ret (false, h')
      else planeLoop count' (S plane) d fi frames dst h
  end.

Definition frameBlendGetFrame (n : Z) (activationReason : VSActivationReason)
    (d : FrameBlendData) (h : host) : outcome (option VSFrameRef * host) :=
  match activationReason with
  | arInitial => Ret (None, requestFrames (requestWindow n d) h)
  | arAllFramesReady =>
      let frames := node_frame (node d) <$> fetchWindow n d in
      center ← of_option BadFrameArray (frames !! (length frames / 2)%nat) ;
      let fi := f_format center in
      let pl := [0; 1; 2]%nat in
      let fr := (fun p => if (process d !!! p : bool) then None else Some center)
                  <$> pl in
      r ← newVideoFrame2 fi fr pl center (buffers h) ;
      let dst := r.1 in
      r' ← planeLoop (Z.to_nat (numPlanes fi)) 0 d fi frames dst
             (with_buffers r.2 h) ;
      if r'.1 : bool then Ret (Some dst, freeFrames frames r'.2)
      else Ret (None, r'.2)
  | _ => Ret (None, h)
  end.

(** ** VapourSynthPluginInit *)

Definition registeredName : string := "FrameBlend".
Definition registeredArgs : string := "clip:clip;weights:float[]".

(** The host reads a signature as a list of [name:type[:opt]] entries
    separated by semicolons. *)
Fixpoint splitOn (c : ascii) (s : string) (cur : string) : list string :=
  match s with
  | EmptyString => [cur]
  | String a s' =>
      if Ascii.eqb a c then cur :: splitOn c s' EmptyString
      else splitOn c s' (cur +:+ String a EmptyString)
  end.

Definition argNames (sig : string) : list string :=
  (fun entry => default EmptyString (head (splitOn ":"%char entry EmptyString)))
    <$> splitOn ";"%char sig EmptyString.

(** The keys a call supplies. *)
Definition suppliedKeys (inm : VSMap) : list string :=
  (if arg_clip inm is Some _ then ["clip"] else []) ++
  (if arg_weights inm is Some _ then ["weights"] else []) ++
  (if arg_planes inm is Some _ then ["planes"] else []).

(** A call through the registered function: the host refuses a call that
    names an argument the signature does not declare, and otherwise runs
    the create function on the arguments. *)
Definition invoke (inm : VSMap) : list string + outcome created :=
  let unknown :=
    filter (fun k => k ∉ argNames registeredArgs) (suppliedKeys inm) in
  match unknown with
  | [] => inr (frameBlendCreate inm)
  | _ => inl unknown
  end.

(** ** The blend as the specification words it

    The samples of the sources at one position, their weighted sum
    accumulated in [float] from zero in source order, and the output sample:
    the sum truncated toward zero and clamped to [0, 2^b - 1]. *)

Definition samplesAt (bufs : list (list Z)) (j : nat) : list Z :=
  (fun b : list Z => b !!! j) <$> bufs.

Definition weightedSum (samples : list Z) (ws : list spec_float) : spec_float :=
  fold_left (fun acc vw => F32.add acc (F32.mul (F32.of_int vw.1) vw.2))
    (zip samples ws) F32.zero.

Definition blendSample (b : Z) (samples : list Z) (ws : list spec_float)
    : option Z :=
  t ← trunc_toward_zero (weightedSum samples ws) ;
  Some (clamp t 0 (2 ^ b - 1)).

(** srcpp holds, for each source buffer, a pointer into it at offset [off]. *)
Definition srcpp_at (arr : list (option ptr)) (bufs : list (list Z))
    (off : nat → Z) : Prop :=
  length arr = srcpp_capacity ∧
  ∀ i buf, bufs !! i = Some buf →
    arr !! i = Some (Some {| p_buf := buf; p_off := off i |}).

(** Undefined behaviour other than a bad access to srcpp. *)
Definition srcpp_fine (u : undefined) : Prop :=
  u ≠ SrcppOverflow ∧ u ≠ UninitialisedRead.

(** [Q] holds of the result, and srcpp was not accessed badly on the way. *)
Definition post {A : Type} (Q : A → Prop) (o : outcome A) : Prop :=
  match o with
  | Ret a => Q a
  | Undef u => srcpp_fine u
  end.

(** srcpp has its 128 entries, the first n of them written. *)
Definition filled (n : nat) (arr : list (option ptr)) : Prop :=
  length arr = srcpp_capacity ∧
  ∀ i, (i < n)%nat → ∃ p, arr !! i = Some (Some p).

(** The samples of one plane of a frame, as the store has them. *)
Definition planeData (σ : store) (plane : nat) (f : VSFrameRef)
    : option (list Z) :=
  pr ← f_planes f !! plane ; σ !! pl_buf pr.

(** The sample the code computes for position j of a plane. *)
Definition pixelOf (T : SampleT) (mv : Z) (bufs : list (list Z))
    (ws : list spec_float) (j : nat) : option Z :=
  convertSample T mv (weightedSum (samplesAt bufs j) ws).

(** Position of column c of row r in a buffer of the given stride. *)
Definition pos (stride : Z) (r c : nat) : nat :=
  Z.to_nat (Z.of_nat r * stride + Z.of_nat c).

(** The sample type the plane loop instantiates for a delivered format. *)
Definition dispatch (fi : VSFormat) : option SampleT :=
  if bytesPerSample fi =? 1 then Some U8
  else if bytesPerSample fi =? 2 then Some U16
  else None.

(** ** A sample clip

    Three 8-bit frames of constant value 10, 20 and 30, each with a luma
    plane of 3 x 2 samples (stride 4) and two chroma planes of 2 x 1
    samples, and a filter over it with weights 1, 2, 1. *)

Definition sampleFormat : VSFormat :=
  {| bitsPerSample := 8; bytesPerSample := 1; numPlanes := 3 |}.

Definition sampleFrame (b : nat) : VSFrameRef :=
  {| f_format := sampleFormat;
     f_planes :=
       [{| pl_buf := b; pl_stride := 4; pl_width := 3; pl_height := 2 |};
        {| pl_buf := b + 1; pl_stride := 2; pl_width := 2; pl_height := 1 |};
        {| pl_buf := b + 2; pl_stride := 2; pl_width := 2; pl_height := 1 |}] |}.

Definition sampleInfo : VSVideoInfo :=
  {| format := Some sampleFormat; numFrames := 3 |}.

Definition sampleNode : VSNodeRef :=
  {| node_vi := sampleInfo;
     node_frame := fun i => sampleFrame (3 * Z.to_nat (Z.min i 2)) |}.

Definition sampleStore : store :=
  [replicate 8 10; [1; 2]; [3; 4];
   replicate 8 20; [5; 6]; [7; 8];
   replicate 8 30; [9; 10]; [11; 12]].

Definition sampleHost : host :=
  {| buffers := sampleStore; requested := []; messages := [];
     released := []; blended := [] |}.

Definition sampleWeights : list spec_float :=
  [F64.of_int 1; F64.of_int 2; F64.of_int 1].

Definition sampleData (p : list bool) : FrameBlendData :=
  {| node := sampleNode; vi := sampleInfo;
     weightPercents := scaleWeights sampleWeights 3 0
                         (totalWeights sampleWeights) [];
     process := p |}.

(** The frame [newVideoFrame2] makes on the sample store when every plane
    is to be blended, and the store with its three new planes. *)
Definition sampleDst : VSFrameRef := sampleFrame 9.

Definition sampleStore' : store :=
  sampleStore ++ [replicate 8 0; [0; 0]; [0; 0]].



Definition unitWeight : list spec_float := [F32.of_int 1].

(** A frame as the host delivers it: at most three planes, as many as its
    format says, each with its buffer in the store. *)
Definition wellFormedFrame (σ : store) (f : VSFrameRef) : Prop :=
  numPlanes (f_format f) ≤ 3 ∧
  length (f_planes f) = Z.to_nat (numPlanes (f_format f)) ∧
  Forall (fun pr => (pl_buf pr < length σ)%nat) (f_planes f).

(** Plane q can be blended from the given source frames: the stored depth
    is a shift count of [maxVal], the center frame has the plane, every
    source frame has it in the store, rows fit in the stride and the buffers
    hold all the rows, and every conversion to [int] is defined. *)
Definition planeReady (T : SampleT) (fmt : VSFormat) (ws : list spec_float)
    (frames : list VSFrameRef) (c : VSFrameRef) (σ : store) (q : nat) : Prop :=
  ∃ g old bufs,
    0 ≤ bitsPerSample fmt < 32 ∧
    f_planes c !! q = Some g ∧
    σ !! pl_buf g = Some old ∧
    Forall2 (fun f buf => planeData σ q f = Some buf) frames bufs ∧
    let stride := Z.quot (pl_stride g) (sizeof T) in
    let W := Z.to_nat (pl_width g) in
    let H := Z.to_nat (pl_height g) in
    Z.of_nat W ≤ stride ∧
    Z.of_nat H * stride ≤ Z.of_nat (length old) ∧
    Forall (fun buf : list Z => Z.of_nat H * stride ≤ Z.of_nat (length buf))
      bufs ∧
    ∀ r c, (r < H)%nat → (c < W)%nat →
      is_Some (pixelOf T (maxVal fmt) bufs ws (pos stride r c)).

(** A clip of 32-bit samples over the buffers of the sample store. *)
Definition floatFormat : VSFormat :=
  {| bitsPerSample := 32; bytesPerSample := 4; numPlanes := 3 |}.

Definition floatFrame : VSFrameRef :=
  {| f_format := floatFormat; f_planes := f_planes (sampleFrame 0) |}.

Definition floatData : FrameBlendData :=
  {| node := {| node_vi := {| format := Some floatFormat; numFrames := 3 |};
                node_frame := fun _ => floatFrame |};
     vi := {| format := Some floatFormat; numFrames := 3 |};
     weightPercents := unitWeight;
     process := [false; true; false] |}.

(** ** frameBlendInit *)

(** [setVideoInfo(&d->vi, 1, node)]: the video info of the filter's outputs,
    one output. *)
Definition frameBlendInit (d : FrameBlendData) : list VSVideoInfo := [vi d].

(** ** Notions used in further statements *)

(** An infinity or a NaN. *)
Definition nonfinite (x : spec_float) : bool :=
  match x with
  | S754_infinity _ | S754_nan => true
  | _ => false
  end.

(** Position j of a buffer lies inside the picture of a plane. *)
Definition inPicture (stride : Z) (W H : nat) (j : nat) : Prop :=
  ∃ r c, (r < H)%nat ∧ (c < W)%nat ∧ j = pos stride r c.

(** [1.0f]. *)
Definition f32_one : spec_float := F32.of_int 1.

(** A filter over the sample clip with the single weight 1.0. *)
Definition unitData : FrameBlendData :=
  {| node := sampleNode; vi := sampleInfo;
     weightPercents := [f32_one]; process := [true; true; true] |}.

(** A filter over the sample clip with 129 weights. *)
Definition manyData : FrameBlendData :=
  {| node := sampleNode; vi := sampleInfo;
     weightPercents := replicate 129 f32_one; process := [true; true; true] |}.

(** Whether a unit weight reproduces the sample v. *)
Definition unitPreserves (v : Z) : bool :=
  match int_of_float (F32.add F32.zero (F32.mul (F32.of_int v) f32_one)) with
  | Some a => a =? v
  | None => false
  end.

(** [P] on every integer from [base * 2^bits] to [(base + 1) * 2^bits - 1]. *)
Fixpoint allBelow (bits : nat) (base : Z) (P : Z → bool) : bool :=
  match bits with
  | O => P base
  | S b => allBelow b (2 * base) P && allBelow b (2 * base + 1) P
  end.

(** ** Notions used in the statements on the total of the weights *)

(** Structural equality of floats. *)
Definition sf_eqb (x y : spec_float) : bool :=
  match x, y with
  | S754_zero a, S754_zero b => Bool.eqb a b
  | S754_infinity a, S754_infinity b => Bool.eqb a b
  | S754_nan, S754_nan => true
  | S754_finite a m e, S754_finite b m' e' =>
      Bool.eqb a b && (m =? m')%positive && (e =? e')
  | _, _ => false
  end.

(** Modelled from the spec: the total of integer weights, exactly. *)
Definition exactTotal (zs : list Z) : Z := foldr Z.add 0 zs.

(** Whether adding the integer b to the running total a, as the loop of
    [totalWeights] does, gives the float that is exactly a + b, for a + b
    from -256 to 255. *)
Definition sumExact (a b : Z) : bool :=
  if (-256 <=? a + b) && (a + b <? 256)
  then sf_eqb (F32.of_double (F64.add (F64.of_float (F32.of_int a))
                                (F64.of_int b)))
         (F32.of_int (a + b))
       && match trunc_toward_zero (F32.of_int (a + b)) with
          | Some z => z =? a + b
          | None => false
          end
  else true.

(** Raw weights whose exact total is 1 and whose accumulated total is 0. *)
Definition absorbedWeights : list Z := [16777216; 1; -16777216].

(** ** A blend whose sum leaves the range of int

    The raw weights 1e7, 1, -1e7 (total 1, so stored as they are), over a
    store whose first source frame is white and whose other two are black. *)




(** * Verification *)

(** ** Plane selection *)

Lemma int64ToIntS_range (x : Z) :
  (int64ToIntS x <? 0) || (int64ToIntS x >=? 3) = true ↔ x < 0 ∨ 3 ≤ x.
Proof.
  unfold int64ToIntS, INT_MAX, INT_MIN.
  repeat case_match; rewrite orb_true_iff; lia.
Qed.

Lemma int64ToIntS_id (x : Z) : 0 ≤ x < 3 → int64ToIntS x = x.
Proof.
  intros Hx. unfold int64ToIntS, INT_MAX, INT_MIN. repeat case_match; lia.
Qed.

(** What the loop of [getPlanesArg] does from any state of the mask. *)
Lemma getPlanesArg_loop_spec (l : list Z) (P : list bool) :
  length P = 3%nat →
  match getPlanesArg_loop l P with
  | inl _ =>
      (∃ x, x ∈ l ∧ (x < 0 ∨ 3 ≤ x)) ∨ ¬ NoDup l ∨
      (∃ x, x ∈ l ∧ P !! Z.to_nat x = Some true)
  | inr P' =>
      (∀ x, x ∈ l → 0 ≤ x < 3) ∧ NoDup l ∧
      (∀ x, x ∈ l → P !! Z.to_nat x = Some false) ∧
      length P' = 3%nat ∧
      ∀ p, (p < 3)%nat →
        P' !! p = Some (bool_decide (Z.of_nat p ∈ l) || (P !!! p))
  end.
Proof.
  revert P. induction l as [|x l IH]; intros P HP; simpl.
  - split_and!; try (intros ? Hin; by apply elem_of_nil in Hin).
    + constructor.
    + done.
    + intros p Hp. apply list_lookup_lookup_total_lt. lia.
  - destruct ((int64ToIntS x <? 0) || (int64ToIntS x >=? 3)) eqn:Hr.
    { left. exists x. split; [left|]. by apply int64ToIntS_range. }
    assert (0 ≤ x < 3) as Hx.
    { destruct (decide (x < 0 ∨ 3 ≤ x)) as [Hb|Hb]; [|lia].
      apply int64ToIntS_range in Hb. congruence. }
    rewrite int64ToIntS_id by done.
    assert (Z.to_nat x < length P)%nat as Hlt by lia.
    destruct (P !!! Z.to_nat x) eqn:Hsel.
    { right; right. exists x. split; [left|].
      rewrite <- Hsel. by apply list_lookup_lookup_total_lt. }
    specialize (IH (<[Z.to_nat x := true]> P)).
    rewrite length_insert in IH. specialize (IH HP).
    destruct (getPlanesArg_loop l (<[Z.to_nat x := true]> P)) as [e|P'].
    + destruct IH as [(y & Hy & Hbad)|[Hdup|(y & Hy & Hset)]].
      * left. exists y. split; [by right|done].
      * right; left. intros Hnd. apply Hdup. by inversion Hnd.
      * destruct (decide (x = y)) as [->|Hne].
        -- right; left. intros Hnd. by inversion Hnd.
        -- destruct (decide (y < 0)) as [Hneg|Hpos].
           { left. exists y. split; [by right|lia]. }
           right; right. exists y. split; [by right|].
           rewrite list_lookup_insert_ne in Hset; [done|lia].
    + destruct IH as (Hrange & Hnd & Hfalse & Hlen & Hmask).
      assert (x ∉ l) as Hnotin.
      { intros Hin. specialize (Hfalse x Hin).
        rewrite list_lookup_insert_eq in Hfalse by done. congruence. }
      split_and!.
      * intros y [->|Hy]%elem_of_cons; [lia|]. by apply Hrange.
      * by constructor.
      * intros y [->|Hy]%elem_of_cons.
        -- rewrite <- Hsel. by apply list_lookup_lookup_total_lt.
        -- specialize (Hfalse y Hy).
           destruct (decide (Z.to_nat x = Z.to_nat y)) as [Heq|Hne].
           ++ rewrite Heq, list_lookup_insert_eq in Hfalse; [congruence|].
              by rewrite <- Heq.
           ++ by rewrite list_lookup_insert_ne in Hfalse.
      * done.
      * intros p Hp. rewrite Hmask by done. f_equal.
        destruct (decide (Z.to_nat x = p)) as [<-|Hne].
        -- rewrite list_lookup_total_insert_eq by done.
           rewrite orb_true_r. symmetry. rewrite orb_true_iff. left.
           apply bool_decide_eq_true. rewrite Z2Nat.id by lia. left.
        -- rewrite list_lookup_total_insert_ne by done. f_equal.
           apply bool_decide_ext. rewrite elem_of_cons.
           split; [tauto|]. intros [Heq|Hin]; [|done]. lia.
Qed.

(** C5. The plane selector on a sequence of plane indices (three planes):
    the empty sequence selects every plane; a sequence with an index outside
    [0,3) fails; a sequence with a repeated index fails; any other sequence
    gives the mask that is true exactly at the indices it names. *)
Theorem getPlanesArg_mask (indices : list Z) :
  (indices = [] → getPlanesArg (Some indices) = inr [true; true; true]) ∧
  ((∃ x, x ∈ indices ∧ (x < 0 ∨ 3 ≤ x)) →
     ∃ e, getPlanesArg (Some indices) = inl e) ∧
  (¬ NoDup indices → ∃ e, getPlanesArg (Some indices) = inl e) ∧
  (indices ≠ [] → (∀ x, x ∈ indices → 0 ≤ x < 3) → NoDup indices →
     ∃ mask, getPlanesArg (Some indices) = inr mask ∧ length mask = 3%nat ∧
       ∀ p, (p < 3)%nat →
         mask !! p = Some (bool_decide (Z.of_nat p ∈ indices))).
Proof.
  split; [by intros ->|].
  assert (indices ≠ [] → (propNumElements (Some indices) <=? 0) = false) as Hm.
  { destruct indices; [done|]. intros _. apply Z.leb_gt.
    unfold propNumElements. simpl length. lia. }
  pose proof (getPlanesArg_loop_spec indices (replicate 3 false) eq_refl) as H.
  assert (∀ x, x ∈ indices → indices ≠ []) as Hne.
  { intros x Hx ->. by apply elem_of_nil in Hx. }
  split_and!.
  - intros (x & Hx & Hbad). unfold getPlanesArg. rewrite (Hm (Hne _ Hx)). simpl.
    destruct (getPlanesArg_loop indices _) as [e|P']; [by exists e|].
    destruct H as (Hrange & _). specialize (Hrange x Hx). lia.
  - intros Hdup. unfold getPlanesArg.
    rewrite Hm by (intros ->; apply Hdup; constructor). simpl.
    destruct (getPlanesArg_loop indices _) as [e|P']; [by exists e|].
    by destruct H as (_ & Hnd & _).
  - intros Hnil Hrange Hnd. unfold getPlanesArg. rewrite (Hm Hnil). simpl.
    destruct (getPlanesArg_loop indices _) as [e|P'].
    + destruct H as [(x & Hx & Hbad)|[Hdup|(x & Hx & Hset)]].
      * specialize (Hrange x Hx). lia.
      * done.
      * specialize (Hrange x Hx).
        assert (Z.to_nat x < 3)%nat as Hlt by lia.
        destruct (Z.to_nat x) as [|[|[|?]]]; simpl in Hset; (done || lia).
    + destruct H as (_ & _ & _ & Hlen & Hmask).
      exists P'. split_and!; [done..|].
      intros p Hp. rewrite Hmask by done. f_equal.
      destruct p as [|[|[|?]]]; simpl; (by rewrite orb_false_r) || lia.
Qed.

Lemma getPlanesArg_mask_witness :
  ∃ mask, getPlanesArg (Some [1]) = inr mask ∧ length mask = 3%nat ∧
    ∀ p, (p < 3)%nat → mask !! p = Some (bool_decide (Z.of_nat p ∈ [1])).
Proof.
  apply (proj2 (proj2 (proj2 (getPlanesArg_mask [1])))).
  - discriminate.
  - intros x Hx. apply list_elem_of_singleton in Hx. lia.
  - apply NoDup_singleton.
Defined.

(** ** Construction *)

Lemma scaleWeights_spec (ws : list spec_float) (total : spec_float)
    (n i : nat) (acc : list spec_float) :
  (i + n ≤ length ws)%nat →
  scaleWeights ws n i total acc =
  acc ++ ((fun w => F32.of_double (F64.div w (F64.of_float total)))
            <$> take n (drop i ws)).
Proof.
  revert i acc. induction n as [|n IH]; intros i acc Hle; simpl.
  - by rewrite app_nil_r.
  - rewrite IH by lia.
    destruct (lookup_lt_is_Some_2 ws i ltac:(lia)) as [w Hw].
    rewrite (list_lookup_total_correct _ _ _ Hw).
    rewrite (drop_S _ _ _ Hw). simpl. by rewrite <- app_assoc.
Qed.

Lemma rem2_of_nat (n : nat) :
  (Z.rem (Z.of_nat n) 2 =? 1) = Nat.odd n.
Proof.
  rewrite Z.rem_mod_nonneg by lia.
  destruct (Nat.odd n) eqn:E.
  - apply Nat.odd_spec in E as [k ->]. apply Z.eqb_eq.
    replace (Z.of_nat (2 * k + 1)) with (1 + Z.of_nat k * 2) by lia.
    by rewrite Z_mod_plus_full.
  - rewrite <- Nat.negb_even in E. apply negb_false_iff in E.
    apply Nat.even_spec in E as [k ->]. apply Z.eqb_neq.
    replace (Z.of_nat (2 * k)) with (0 + Z.of_nat k * 2) by lia.
    by rewrite Z_mod_plus_full.
Qed.

(** C4. A weight list of even length (0 and 2 included) makes construction
    fail: the out map gets an error, whose text starts with the filter's
    name, and no filter is created. *)
Theorem frameBlendCreate_even_rejected (inm : VSMap) (ws : list spec_float) :
  arg_weights inm = Some ws →
  Nat.even (length ws) = true →
  frameBlendCreate inm =
    Ret (SetError (registeredName +:+ ": Number of weights must be odd")).
Proof.
  intros Hws Hev. unfold frameBlendCreate, frameBlendCreate_try.
  rewrite Hws. simpl propNumElements. rewrite rem2_of_nat.
  rewrite <- Nat.negb_even, Hev. reflexivity.
Qed.

Lemma frameBlendCreate_even_rejected_witness :
  frameBlendCreate {| arg_clip := None;
                      arg_weights := Some [F64.of_int 1; F64.of_int 1];
                      arg_planes := None |} =
    Ret (SetError (registeredName +:+ ": Number of weights must be odd")).
Proof.
  apply (frameBlendCreate_even_rejected _ [F64.of_int 1; F64.of_int 1]);
    reflexivity.
Defined.

(** Checking a predicate on a range of integers by enumeration. *)
Lemma allBelow_spec (bits : nat) (base : Z) (P : Z → bool) (v : Z) :
  allBelow bits base P = true →
  base * 2 ^ Z.of_nat bits ≤ v < (base + 1) * 2 ^ Z.of_nat bits →
  P v = true.
Proof.
  revert base. induction bits as [|b IH]; intros base Hall Hv.
  - simpl in *. assert (v = base) as -> by lia. done.
  - simpl in Hall. apply andb_true_iff in Hall as [Hl Hr].
    rewrite Nat2Z.inj_succ, Z.pow_succ_r in Hv by lia.
    destruct (decide (v < (2 * base + 1) * 2 ^ Z.of_nat b)).
    + apply (IH (2 * base)); [done|lia].
    + apply (IH (2 * base + 1)); [done|lia].
Qed.

Lemma sf_eqb_eq (x y : spec_float) : sf_eqb x y = true → x = y.
Proof.
  destruct x as [a|a| |a m e], y as [b|b| |b m' e']; simpl; try done.
  - by intros ->%Bool.eqb_prop.
  - by intros ->%Bool.eqb_prop.
  - intros [[->%Bool.eqb_prop ->%Pos.eqb_eq]%andb_true_iff ->%Z.eqb_eq]%andb_true_iff.
    done.
Qed.

Lemma sumExact_all :
  allBelow 9 0 (fun u => allBelow 9 0 (fun v => sumExact (u - 256) (v - 256)))
  = true.
Proof. vm_compute. reflexivity. Qed.

Lemma sumExact_spec (a b : Z) :
  -256 ≤ a < 256 → -256 ≤ b < 256 → -256 ≤ a + b < 256 →
  F32.of_double (F64.add (F64.of_float (F32.of_int a)) (F64.of_int b)) =
    F32.of_int (a + b) ∧
  trunc_toward_zero (F32.of_int (a + b)) = Some (a + b).
Proof.
  intros Ha Hb Hab.
  pose proof (allBelow_spec 9 0 _ (a + 256) sumExact_all
                ltac:(change (2 ^ Z.of_nat 9) with 512; lia)) as H1.
  cbv beta in H1.
  pose proof (allBelow_spec 9 0 _ (b + 256) H1
                ltac:(change (2 ^ Z.of_nat 9) with 512; lia)) as H2.
  cbv beta in H2. replace (a + 256 - 256) with a in H2 by lia.
  replace (b + 256 - 256) with b in H2 by lia.
  unfold sumExact in H2.
  replace ((-256 <=? a + b) && (a + b <? 256)) with true in H2 by lia.
  apply andb_true_iff in H2 as [He Ht]. split; [by apply sf_eqb_eq|].
  destruct (trunc_toward_zero _) as [z|]; [|done].
  apply Z.eqb_eq in Ht. by subst.
Qed.

Lemma totalWeights_snoc (ws : list spec_float) (w : spec_float) :
  totalWeights (ws ++ [w]) =
  F32.of_double (F64.add (F64.of_float (totalWeights ws)) w).
Proof. unfold totalWeights. by rewrite fold_left_app. Qed.

Lemma exactTotal_snoc (zs : list Z) (z : Z) :
  exactTotal (zs ++ [z]) = exactTotal zs + z.
Proof.
  unfold exactTotal. induction zs as [|x zs IH]; simpl; [lia|]. rewrite IH. lia.
Qed.

Lemma totalWeights_exact (zs : list Z) :
  Forall (fun z => -256 ≤ z < 256) zs →
  (∀ j, -256 ≤ exactTotal (take j zs) < 256) →
  totalWeights (F64.of_int <$> zs) = F32.of_int (exactTotal zs) ∧
  trunc_toward_zero (totalWeights (F64.of_int <$> zs)) = Some (exactTotal zs).
Proof.
  induction zs as [|z zs IH] using rev_ind; intros Hall Hpre.
  - by vm_compute.
  - apply Forall_app in Hall as [Hall Hz].
    apply Forall_cons in Hz as [Hz _].
    destruct IH as [IH _]; [done| |].
    { intros j. destruct (decide (j ≤ length zs)%nat).
      - specialize (Hpre j). by rewrite take_app_le in Hpre.
      - specialize (Hpre (length zs)). rewrite take_app_le, firstn_all in Hpre by lia.
        rewrite take_ge by lia. done. }
    pose proof (Hpre (length zs)) as Ha.
    rewrite take_app_le, firstn_all in Ha by lia.
    pose proof (Hpre (length (zs ++ [z]))) as Hab.
    rewrite firstn_all, exactTotal_snoc in Hab.
    rewrite fmap_app. simpl. rewrite totalWeights_snoc, IH, exactTotal_snoc.
    destruct (sumExact_spec (exactTotal zs) z Ha Hz Hab) as [He Ht].
    by rewrite He.
Qed.

(** C3, as the code has it. For raw weights of odd length, construction
    stores one weight per raw weight, in the same order: the i-th is the
    i-th raw weight divided by the total (a division of doubles, stored as
    a float). The total is the code's own accumulator: it starts at 0.0f
    and takes each raw weight in turn, the addition done in double and the
    result rounded to float. For integer weights from -256 to 255 whose
    running sums stay in that range, it is exactly their sum. *)
Theorem frameBlendCreate_normalizes :
  (∀ (inm : VSMap) (nd : VSNodeRef) (ws : list spec_float) (p : list bool),
     arg_clip inm = Some nd →
     arg_weights inm = Some ws →
     Nat.odd (length ws) = true →
     getPlanesArg (arg_planes inm) = inr p →
     ∃ d, frameBlendCreate inm = Ret (CreateFilter registeredName d) ∧
          length (weightPercents d) = length ws ∧
          ∀ i w, ws !! i = Some w →
            weightPercents d !! i =
            Some (F32.of_double
                    (F64.div w (F64.of_float (totalWeights ws))))) ∧
  totalWeights [] = F32.zero ∧
  (∀ ws w, totalWeights (ws ++ [w]) =
           F32.of_double (F64.add (F64.of_float (totalWeights ws)) w)) ∧
  (∀ zs, Forall (fun z => -256 ≤ z < 256) zs →
         (∀ j, -256 ≤ exactTotal (take j zs) < 256) →
         totalWeights (F64.of_int <$> zs) = F32.of_int (exactTotal zs) ∧
         trunc_toward_zero (totalWeights (F64.of_int <$> zs))
           = Some (exactTotal zs)).
Proof.
  split_and!.
  - intros inm nd ws p Hclip Hws Hodd Hp.
    unfold frameBlendCreate, frameBlendCreate_try.
    rewrite Hws, Hclip, Hp. simpl propNumElements. rewrite rem2_of_nat, Hodd.
    simpl. eexists. split; [reflexivity|]. simpl.
    rewrite Nat2Z.id, scaleWeights_spec by (simpl; lia).
    rewrite drop_0, firstn_all. simpl. split.
    + by rewrite length_fmap.
    + intros i w Hw. by rewrite list_lookup_fmap, Hw.
  - reflexivity.
  - apply totalWeights_snoc.
  - apply totalWeights_exact.
Qed.

Lemma frameBlendCreate_normalizes_witness :
  ∃ d, frameBlendCreate {| arg_clip := Some sampleNode;
                           arg_weights := Some sampleWeights;
                           arg_planes := None |}
       = Ret (CreateFilter registeredName d) ∧
       weightPercents d !! 1%nat = Some (S754_finite false 8388608 (-24)) ∧
       totalWeights (F64.of_int <$> [1; 2; 1]) = F32.of_int 4.
Proof.
  destruct (proj1 frameBlendCreate_normalizes
              {| arg_clip := Some sampleNode;
                 arg_weights := Some sampleWeights;
                 arg_planes := None |}
              sampleNode sampleWeights [true; true; true]
              eq_refl eq_refl eq_refl eq_refl)
    as (d & Hd & _ & Hi).
  exists d. split; [exact Hd|]. split.
  - exact (Hi 1%nat (F64.of_int 2) eq_refl).
  - refine (proj1 (proj2 (proj2 (proj2 frameBlendCreate_normalizes))
                     [1; 2; 1] _ _)).
    + repeat constructor; lia.
    + intros j. destruct j as [|[|[|[|j]]]]; unfold exactTotal; simpl; lia.
Defined.

(** C3, as stated, fails where the accumulator departs from the sum. The
    raw weights 2^24, 1, -2^24 (exactly these integers as doubles) are odd in
    number and sum to 1, yet the total accumulated is 0 (2^24 + 1 rounds
    back to 2^24 in a float), and the weights stored are +inf, +inf, -inf,
    not the raw weights divided by 1. *)
Lemma accumulated_total_differs :
  Nat.odd (length (F64.of_int <$> absorbedWeights)) = true ∧
  trunc_toward_zero <$> (F64.of_int <$> absorbedWeights)
    = Some <$> absorbedWeights ∧
  exactTotal absorbedWeights = 1 ∧
  totalWeights (F64.of_int <$> absorbedWeights) = F32.zero ∧
  ∃ d, frameBlendCreate
         {| arg_clip := Some sampleNode;
            arg_weights := Some (F64.of_int <$> absorbedWeights);
            arg_planes := None |}
       = Ret (CreateFilter registeredName d) ∧
       weightPercents d =
         [S754_infinity false; S754_infinity false; S754_infinity true] ∧
       weightPercents d ≠
         (fun w => F32.of_double
                     (F64.div w (F64.of_int (exactTotal absorbedWeights))))
           <$> (F64.of_int <$> absorbedWeights).
Proof.
  split_and!; [reflexivity..|].
  eexists. split; [vm_compute; reflexivity|]. split; [reflexivity|].
  vm_compute. discriminate.
Qed.

(** ** The window of source frames *)

Lemma wrap_int_id (z : Z) : INT_MIN ≤ z ≤ INT_MAX → wrap_int z = z.
Proof.
  unfold wrap_int, INT_MIN, INT_MAX. intros Hz.
  rewrite Z.mod_small; lia.
Qed.

(** The fetch loop from a start that is a representable index below the
    sentinel: position i holds [fn + i], raised to 0 and capped. *)
Lemma fetchIndices_spec (k : nat) (fn : Z) :
  INT_MIN ≤ fn ≤ INT_MAX - 1 →
  fetchIndices k fn =
  (fun i => Z.max 0 (Z.min (fn + Z.of_nat i) (INT_MAX - 1))) <$> seq 0 k.
Proof.
  revert fn. induction k as [|k IH]; intros fn Hfn; [done|].
  simpl fetchIndices. rewrite <- cons_seq, fmap_cons, <- fmap_S_seq.
  rewrite <- list_fmap_compose. f_equal.
  - f_equal. lia.
  - destruct (fn <? INT_MAX - 1) eqn:Hlt.
    + apply Z.ltb_lt in Hlt.
      rewrite wrap_int_id by (unfold INT_MIN, INT_MAX in *; lia).
      rewrite IH by lia. apply list_fmap_ext. intros _ i _. simpl.
      f_equal. f_equal. lia.
    + apply Z.ltb_ge in Hlt.
      rewrite IH by lia. apply list_fmap_ext. intros _ i _. simpl. lia.
Qed.

(** The indices of the fetch loop in closed form, for an output index n that
    is a frame index of the host (so below INT_MAX) and k weights with
    center = k / 2: k indices, the i-th being n - center + i raised to 0 and
    capped at INT_MAX - 1. *)
Lemma fetchWindow_closed_form (n : Z) (d : FrameBlendData) :
  0 ≤ n < INT_MAX →
  Z.of_nat (length (weightPercents d)) ≤ INT_MAX →
  let k := length (weightPercents d) in
  let center := Z.of_nat k / 2 in
  fetchWindow n d =
    (fun i => Z.max 0 (Z.min (n - center + Z.of_nat i) (INT_MAX - 1)))
      <$> seq 0 k ∧
  length (fetchWindow n d) = k ∧
  (∀ j, j ∈ fetchWindow n d → 0 ≤ j ≤ INT_MAX - 1) ∧
  (k = 3%nat → n = 5 → fetchWindow n d = [4; 5; 6]) ∧
  (k = 3%nat → n = 0 → fetchWindow n d = [0; 0; 1]).
Proof.
  intros Hn Hk k center.
  assert (0 ≤ center ≤ INT_MAX) as Hc.
  { subst center. split; [apply Z.div_pos; lia|].
    transitivity (Z.of_nat k); [|done]. apply Z.div_le_upper_bound; lia. }
  assert (fetchWindow n d =
    (fun i => Z.max 0 (Z.min (n - center + Z.of_nat i) (INT_MAX - 1)))
      <$> seq 0 k) as Heq.
  { unfold fetchWindow, half. fold k. fold center.
    rewrite (wrap_int_id center) by (unfold INT_MIN; lia).
    rewrite wrap_int_id by (unfold INT_MIN, INT_MAX in *; lia).
    apply fetchIndices_spec. unfold INT_MIN, INT_MAX in *. lia. }
  split_and!.
  - exact Heq.
  - by rewrite Heq, length_fmap, length_seq.
  - intros j. rewrite Heq. intros (i & -> & _)%list_elem_of_fmap.
    unfold INT_MAX. lia.
  - intros Hk3 ->. rewrite Heq. subst center. rewrite Hk3. reflexivity.
  - intros Hk3 ->. rewrite Heq. subst center. rewrite Hk3. reflexivity.
Qed.

(** The bound on n is needed: with a single weight and n = INT_MAX the index
    INT_MAX itself is fetched, one above the cap. *)
Remark fetchIndices_at_INT_MAX : fetchIndices 1 INT_MAX = [INT_MAX].
Proof. reflexivity. Qed.

(** ** The registered signature *)

(** C8. The signature registered for FrameBlend declares [clip] and
    [weights] and no [planes]: a call that supplies plane indices is refused
    by the host before the create function runs, and every filter created
    through the registered function blends all three planes. *)
Theorem planes_not_registered :
  argNames registeredArgs = ["clip"; "weights"] ∧
  (∀ inm l, arg_planes inm = Some l → invoke inm = inl ["planes"]) ∧
  (∀ inm name d, invoke inm = inr (Ret (CreateFilter name d)) →
     arg_planes inm = None ∧ process d = [true; true; true]).
Proof.
  split_and!.
  - reflexivity.
  - intros [c w p] l Hp. simpl in Hp. subst p.
    destruct c, w; reflexivity.
  - intros [c w p] name d. destruct p as [l|].
    + destruct c, w; discriminate.
    + intros Hinv. split; [done|].
      assert (invoke {| arg_clip := c; arg_weights := w; arg_planes := None |}
              = inr (frameBlendCreate {| arg_clip := c; arg_weights := w;
                                         arg_planes := None |})) as Hacc.
      { destruct c, w; reflexivity. }
      rewrite Hacc in Hinv. injection Hinv as Hc.
      unfold frameBlendCreate, frameBlendCreate_try in Hc.
      simpl arg_planes in Hc. simpl arg_clip in Hc.
      destruct (negb _); [discriminate|].
      destruct c; [|discriminate]. simpl in Hc. by inversion Hc.
Qed.

(** ** The per-plane blend *)

(** An invariant rule for [for_loop]: [I] holds of the state before
    iteration i, [E] of any undefined behaviour met on the way. *)
Lemma for_loop_wp {S : Type} (I : nat → S → Prop) (E : undefined → Prop)
    (n i0 : nat) (body : nat → S → outcome S) (s : S) :
  I i0 s →
  (∀ i s, (i0 ≤ i < i0 + n)%nat → I i s →
     match body i s with Ret s' => I (Datatypes.S i) s' | Undef u => E u end) →
  match for_loop n i0 body s with
  | Ret s' => I (i0 + n)%nat s'
  | Undef u => E u
  end.
Proof.
  revert i0 s. induction n as [|n IH]; intros i0 s HI Hbody; simpl.
  - by rewrite Nat.add_0_r.
  - pose proof (Hbody i0 s ltac:(lia) HI) as Hb.
    destruct (body i0 s) as [s'|u]; simpl; [|done].
    replace (i0 + Datatypes.S n)%nat with (Datatypes.S i0 + n)%nat by lia.
    apply IH; [done|]. intros i s0 Hi. apply Hbody. lia.
Qed.

(** The same rule when no iteration can go wrong. *)
Lemma for_loop_total {S : Type} (I : nat → S → Prop)
    (n i0 : nat) (body : nat → S → outcome S) (s : S) :
  I i0 s →
  (∀ i s, (i0 ≤ i < i0 + n)%nat → I i s →
     ∃ s', body i s = Ret s' ∧ I (Datatypes.S i) s') →
  ∃ s', for_loop n i0 body s = Ret s' ∧ I (i0 + n)%nat s'.
Proof.
  intros HI Hbody.
  pose proof (for_loop_wp I (fun _ => False) n i0 body s HI) as H.
  destruct (for_loop n i0 body s) as [s'|u].
  - exists s'. split; [done|]. apply H. intros i s0 Hi Hs0.
    destruct (Hbody i s0 Hi Hs0) as (s1 & -> & H1). done.
  - exfalso. apply H. intros i s0 Hi Hs0.
    destruct (Hbody i s0 Hi Hs0) as (s1 & -> & H1). done.
Qed.

Lemma for_loop_app {S : Type} (a b i0 : nat) (body : nat → S → outcome S)
    (s : S) :
  for_loop (a + b) i0 body s =
  s' ← for_loop a i0 body s ; for_loop b (i0 + a) body s'.
Proof.
  revert i0 s. induction a as [|a IH]; intros i0 s; simpl.
  - by rewrite Nat.add_0_r.
  - destruct (body i0 s) as [s'|u]; simpl; [|done].
    rewrite IH. by replace (Datatypes.S i0 + a)%nat with (i0 + Datatypes.S a)%nat by lia.
Qed.

Lemma srcpp_set_ok (arr : list (option ptr)) (i : nat) (p : ptr) :
  (i < length arr)%nat → srcpp_set arr i p = Ret (<[i := Some p]> arr).
Proof. intros Hi. unfold srcpp_set. by rewrite decide_True. Qed.

Lemma srcpp_get_ok (arr : list (option ptr)) (i : nat) (p : ptr) :
  arr !! i = Some (Some p) → srcpp_get arr i = Ret p.
Proof. intros Hi. unfold srcpp_get. by rewrite Hi. Qed.

Section blend.
Context (σ : store) (plane : nat).
Context (srcs : list VSFrameRef) (bufs : list (list Z)).
Context (ws : list spec_float).

Hypothesis Hsrcs :
  Forall2 (fun f buf => getReadPtr σ f plane = Ret {| p_buf := buf; p_off := 0 |})
    srcs bufs.
Hypothesis Hlen : length srcs = length ws.
Hypothesis Hcap : (length ws ≤ srcpp_capacity)%nat.

Lemma bufs_length : length bufs = length ws.
Proof. by rewrite <- (Forall2_length _ _ _ Hsrcs). Qed.

Lemma fill_ok :
  ∃ arr, fill σ srcs plane (length ws) = Ret arr ∧
         srcpp_at arr bufs (fun _ => 0).
Proof.
  unfold fill.
  destruct (for_loop_total
    (fun i arr => length arr = srcpp_capacity ∧
       ∀ j buf, (j < i)%nat → bufs !! j = Some buf →
         arr !! j = Some (Some {| p_buf := buf; p_off := 0 |}))
    (length ws) 0
    (fun i arr =>
       f ← of_option BadFrameArray (srcs !! i) ;
       p ← getReadPtr σ f plane ;
       srcpp_set arr i p) srcpp_new) as (arr & Harr & Hl & Hin).
  - split; [done|]. intros; lia.
  - intros i arr Hi (Hl & Hin).
    destruct (lookup_lt_is_Some_2 srcs i ltac:(lia)) as [f Hf].
    destruct (Forall2_lookup_l _ _ _ _ _ Hsrcs Hf) as (buf & Hbuf & Hptr).
    rewrite Hf. simpl. rewrite Hptr. simpl.
    rewrite srcpp_set_ok by (unfold srcpp_capacity in *; lia).
    eexists. split; [done|]. split; [by rewrite length_insert|].
    intros j buf' Hj Hbuf'.
    destruct (decide (j = i)) as [->|Hne].
    + rewrite list_lookup_insert_eq by (unfold srcpp_capacity in *; lia).
      congruence.
    + rewrite list_lookup_insert_ne by done. apply Hin; [lia|done].
  - exists arr. split; [done|]. split; [done|].
    intros i buf Hbuf. apply Hin; [|done].
    apply lookup_lt_Some in Hbuf. rewrite bufs_length in Hbuf. simpl. lia.
Qed.

Lemma advance_ok (arr : list (option ptr)) (off : nat → Z) (stride : Z) :
  srcpp_at arr bufs off →
  ∃ arr', advance (length ws) stride arr = Ret arr' ∧
          srcpp_at arr' bufs (fun i => off i + stride).
Proof.
  intros (Hl & Hin). unfold advance.
  destruct (for_loop_total
    (fun i a => length a = srcpp_capacity ∧
       ∀ j buf, bufs !! j = Some buf →
         a !! j = Some (Some {| p_buf := buf;
                                p_off := if decide (j < i)%nat
                                         then off j + stride else off j |}))
    (length ws) 0
    (fun i a => p ← srcpp_get a i ; srcpp_set a i (ptr_add p stride)) arr)
    as (arr' & Harr & Hl' & Hin').
  - split; [done|]. intros j buf Hbuf. rewrite decide_False by lia. by apply Hin.
  - intros i a Hi (Hla & Hina).
    destruct (lookup_lt_is_Some_2 bufs i) as [buf Hbuf];
      [rewrite bufs_length; lia|].
    rewrite (srcpp_get_ok _ _ _ (Hina i buf Hbuf)). simpl.
    rewrite srcpp_set_ok by (unfold srcpp_capacity in *; lia).
    eexists. split; [done|]. split; [by rewrite length_insert|].
    intros j buf' Hbuf'.
    destruct (decide (j = i)) as [->|Hne].
    + rewrite list_lookup_insert_eq by (unfold srcpp_capacity in *; lia).
      rewrite decide_False by lia. rewrite decide_True by lia.
      unfold ptr_add. simpl. congruence.
    + rewrite list_lookup_insert_ne by done. rewrite (Hina j buf' Hbuf').
      repeat case_decide; (done || lia).
  - exists arr'. split; [done|]. split; [done|].
    intros j buf Hbuf. rewrite (Hin' j buf Hbuf).
    apply lookup_lt_Some in Hbuf. rewrite bufs_length in Hbuf.
    rewrite decide_True by (simpl; lia). done.
Qed.

Lemma accumulate_ok (arr : list (option ptr)) (base : Z) (w : Z) :
  srcpp_at arr bufs (fun _ => base) →
  0 ≤ base + w →
  Forall (fun buf : list Z => base + w < Z.of_nat (length buf)) bufs →
  accumulate ws arr w =
  Ret (weightedSum (samplesAt bufs (Z.to_nat (base + w))) ws).
Proof.
  intros (Hl & Hin) Hpos Hfit. unfold accumulate, weightedSum.
  set (step := fun (acc : spec_float) (vw : Z * spec_float) =>
                 F32.add acc (F32.mul (F32.of_int vw.1) vw.2)).
  set (l := zip (samplesAt bufs (Z.to_nat (base + w))) ws).
  assert (length l = length ws) as Hll.
  { subst l. rewrite length_zip_with. unfold samplesAt.
    rewrite length_fmap, bufs_length. lia. }
  destruct (for_loop_total
    (fun i acc => acc = fold_left step (take i l) F32.zero)
    (length ws) 0
    (fun i acc =>
       p ← srcpp_get arr i ;
       val ← deref p w ;
       Ret (F32.add acc (F32.mul (F32.of_int val) (ws !!! i))))
    F32.zero) as (acc & Hacc & Hfin).
  - done.
  - intros i acc Hi ->.
    destruct (lookup_lt_is_Some_2 bufs i) as [buf Hbuf];
      [rewrite bufs_length; lia|].
    destruct (lookup_lt_is_Some_2 ws i ltac:(lia)) as [wi Hwi].
    rewrite (srcpp_get_ok _ _ _ (Hin i buf Hbuf)). simpl.
    pose proof (Forall_lookup_1 _ _ _ _ Hfit Hbuf) as Hb. simpl in Hb.
    destruct (lookup_lt_is_Some_2 buf (Z.to_nat (base + w)) ltac:(lia))
      as [v Hv].
    unfold deref. simpl. rewrite (proj2 (Z.ltb_ge _ _)) by lia.
    rewrite Hv. simpl. eexists. split; [done|].
    assert (l !! i = Some (v, wi)) as Hli.
    { subst l. apply lookup_zip_with_Some. exists v, wi.
      split; [done|]. split; [|done].
      unfold samplesAt. rewrite list_lookup_fmap, Hbuf. simpl.
      by rewrite (list_lookup_total_correct _ _ _ Hv). }
    rewrite (take_S_r _ _ _ Hli), fold_left_app. simpl.
    by rewrite (list_lookup_total_correct _ _ _ Hwi).
  - rewrite Hacc, Hfin. f_equal. simpl. by rewrite take_ge by lia.
Qed.
End blend.

Lemma srcpp_at_ext (arr : list (option ptr)) (bufs : list (list Z))
    (off off' : nat → Z) :
  (∀ i, off i = off' i) → srcpp_at arr bufs off → srcpp_at arr bufs off'.
Proof.
  intros Heq (Hl & Hin). split; [done|].
  intros i buf Hbuf. rewrite <- Heq. by apply Hin.
Qed.

Lemma store_sample_ok (buf : list Z) (j v : Z) :
  0 ≤ j < Z.of_nat (length buf) →
  store_sample buf j v = Ret (<[Z.to_nat j := v]> buf).
Proof.
  intros Hj. unfold store_sample.
  rewrite (proj2 (Z.ltb_ge _ _)), (proj2 (Z.leb_gt _ _)) by lia. done.
Qed.

Section rows.
Context (σ : store) (plane : nat).
Context (srcs : list VSFrameRef) (bufs : list (list Z)).
Context (ws : list spec_float).
Context (T : SampleT) (mv stride : Z) (W H : nat).

Hypothesis Hsrcs :
  Forall2 (fun f buf => getReadPtr σ f plane = Ret {| p_buf := buf; p_off := 0 |})
    srcs bufs.
Hypothesis Hlen : length srcs = length ws.
Hypothesis Hcap : (length ws ≤ srcpp_capacity)%nat.
Hypothesis Hstride : Z.of_nat W ≤ stride.
Hypothesis Hbufs :
  Forall (fun buf : list Z => Z.of_nat H * stride ≤ Z.of_nat (length buf)) bufs.

Local Abbreviation pixelOf := (pixelOf T mv bufs ws).
Local Abbreviation pos := (pos stride).

Hypothesis Hdefined :
  ∀ r c, (r < H)%nat → (c < W)%nat → is_Some (pixelOf (pos r c)).

Lemma row_fits (r : nat) (n : Z) :
  (r < H)%nat → Z.of_nat H * stride ≤ n →
  Z.of_nat r * stride + Z.of_nat W ≤ n.
Proof. intros Hr Hn. nia. Qed.

Lemma blendRow_ok (r : nat) (arr : list (option ptr)) (D : list Z) :
  (r < H)%nat →
  srcpp_at arr bufs (fun _ => Z.of_nat r * stride) →
  Z.of_nat H * stride ≤ Z.of_nat (length D) →
  ∃ arr' D',
    blendRow T ws mv stride W (arr, D, Z.of_nat r * stride) =
      Ret (arr', D', Z.of_nat (S r) * stride) ∧
    srcpp_at arr' bufs (fun _ => Z.of_nat (S r) * stride) ∧
    length D' = length D ∧
    (∀ c, (c < W)%nat → D' !! pos r c = pixelOf (pos r c)) ∧
    (∀ j, (j < pos r 0 ∨ pos r W ≤ j)%nat → D' !! j = D !! j).
Proof.
  intros Hr Harr HD. unfold blendRow.
  assert (0 ≤ stride) as Hs0 by lia.
  pose proof (row_fits r _ Hr HD) as HfitD.
  destruct (for_loop_total
    (fun c D' => length D' = length D ∧
       (∀ c', (c' < c)%nat → D' !! pos r c' = pixelOf (pos r c')) ∧
       (∀ j, (j < pos r 0 ∨ pos r c ≤ j)%nat → D' !! j = D !! j))
    W 0 (blendPixel T ws mv arr (Z.of_nat r * stride)) D)
    as (D' & HD' & Hl' & Hpix & Hrest).
  - split; [done|]. split; [intros; lia|done].
  - intros c D1 Hc (Hl1 & Hpix1 & Hrest1). unfold blendPixel.
    rewrite (accumulate_ok σ plane srcs bufs ws Hsrcs Hlen Hcap arr
               (Z.of_nat r * stride) (Z.of_nat c)); [|done|nia|].
    2:{ eapply Forall_impl; [exact Hbufs|]. intros buf Hb. simpl in *.
        pose proof (row_fits r _ Hr Hb). lia. }
    simpl. destruct (Hdefined r c Hr ltac:(lia)) as [v Hv].
    unfold pixelOf, pos in Hv. rewrite Hv. simpl.
    rewrite store_sample_ok by nia.
    eexists. split; [done|]. split; [by rewrite length_insert|]. split.
    + intros c' Hc'. destruct (decide (c' = c)) as [->|Hne].
      * unfold pos. rewrite list_lookup_insert_eq by nia. by rewrite <- Hv.
      * rewrite list_lookup_insert_ne by (unfold pos; nia).
        apply Hpix1. lia.
    + intros j Hj. rewrite list_lookup_insert_ne by (unfold pos in *; nia).
      apply Hrest1. unfold pos in *. nia.
  - rewrite HD'. simpl.
    destruct (advance_ok σ plane srcs bufs ws Hsrcs Hlen Hcap arr
                (fun _ => Z.of_nat r * stride) stride Harr)
      as (arr' & Harr' & Hat').
    rewrite Harr'. simpl. exists arr', D'. split_and!.
    + do 2 f_equal. lia.
    + eapply srcpp_at_ext; [|exact Hat']. intros i. simpl. lia.
    + done.
    + intros c Hc. apply Hpix. simpl. lia.
    + intros j Hj. apply Hrest. simpl. done.
Qed.

Lemma blendRows_ok (arr : list (option ptr)) (D : list Z) :
  srcpp_at arr bufs (fun _ => 0) →
  Z.of_nat H * stride ≤ Z.of_nat (length D) →
  ∃ arr' D' dstp,
    for_loop H 0 (fun _ => blendRow T ws mv stride W) (arr, D, 0) =
      Ret (arr', D', dstp) ∧
    length D' = length D ∧
    ∀ r c, (r < H)%nat → (c < W)%nat → D' !! pos r c = pixelOf (pos r c).
Proof.
  intros Harr HD.
  destruct (for_loop_total
    (fun r (st : list (option ptr) * list Z * Z) =>
       srcpp_at st.1.1 bufs (fun _ => Z.of_nat r * stride) ∧
       st.2 = Z.of_nat r * stride ∧
       length st.1.2 = length D ∧
       ∀ r' c, (r' < r)%nat → (c < W)%nat →
         st.1.2 !! pos r' c = pixelOf (pos r' c))
    H 0 (fun _ => blendRow T ws mv stride W) (arr, D, 0))
    as ([[arr' D'] dstp] & Hrun & _ & _ & Hl' & Hpix).
  - simpl. split_and!; [done|done|done|intros; lia].
  - intros r [[arr1 D1] dstp1] Hr (Hat & Hd & Hl1 & Hpix1). simpl in *.
    subst dstp1.
    destruct (blendRow_ok r arr1 D1 ltac:(lia) Hat ltac:(lia))
      as (arr2 & D2 & Hrow & Hat2 & Hl2 & Hnew & Hold).
    exists (arr2, D2, Z.of_nat (S r) * stride). simpl.
    split_and!; [done|done|done|lia|].
    intros r' c Hr' Hc. destruct (decide (r' = r)) as [->|Hne].
    + by apply Hnew.
    + rewrite Hold; [apply Hpix1; lia|]. left. unfold pos. nia.
  - exists arr', D', dstp. simpl in *. split_and!; [done|done|].
    intros r c Hr Hc. by apply Hpix.
Qed.
End rows.

Lemma getReadPtr_planeData (σ : store) (plane : nat) (f : VSFrameRef)
    (buf : list Z) :
  planeData σ plane f = Some buf →
  getReadPtr σ f plane = Ret {| p_buf := buf; p_off := 0 |}.
Proof.
  unfold planeData, getReadPtr. intros Hp.
  destruct (f_planes f !! plane) as [pr|]; [|done]. simpl in *.
  destruct (σ !! pl_buf pr) as [b|]; [|done]. simpl. congruence.
Qed.

Lemma shl_defined_true (n : Z) : 0 ≤ n < 32 → shl_defined n = true.
Proof. unfold shl_defined. lia. Qed.

(** The whole plane: every sample inside the picture is the one [pixelOf]
    names, provided the stored depth is a shift count, the frames are laid
    out as the host lays them out and every conversion to [int] is
    defined. *)
Lemma frameBlend_correct (T : SampleT) (d : FrameBlendData)
    (srcs : list VSFrameRef) (dst : VSFrameRef) (plane : nat) (σ : store)
    (dpl : PlaneRef) (fmt : VSFormat) (bufs : list (list Z))
    (dstbuf : list Z) :
  let ws := weightPercents d in
  let stride := Z.quot (pl_stride dpl) (sizeof T) in
  let W := Z.to_nat (pl_width dpl) in
  let H := Z.to_nat (pl_height dpl) in
  f_planes dst !! plane = Some dpl →
  σ !! pl_buf dpl = Some dstbuf →
  format (vi d) = Some fmt →
  0 ≤ bitsPerSample fmt < 32 →
  Forall2 (fun f buf => planeData σ plane f = Some buf) srcs bufs →
  length srcs = length ws →
  (length ws ≤ srcpp_capacity)%nat →
  Z.of_nat W ≤ stride →
  Z.of_nat H * stride ≤ Z.of_nat (length dstbuf) →
  Forall (fun buf : list Z => Z.of_nat H * stride ≤ Z.of_nat (length buf)) bufs →
  (∀ r c, (r < H)%nat → (c < W)%nat →
     is_Some (pixelOf T (maxVal fmt) bufs ws (pos stride r c))) →
  ∃ out, frameBlend T d srcs dst plane σ = Ret (<[pl_buf dpl := out]> σ) ∧
         length out = length dstbuf ∧
         ∀ r c, (r < H)%nat → (c < W)%nat →
           out !! pos stride r c = pixelOf T (maxVal fmt) bufs ws (pos stride r c).
Proof.
  intros ws stride W H Hdpl Hdst Hfmt Hbits Hsrcs Hlen Hcap Hstride HD Hbufs
    Hdef.
  assert (Forall2 (fun f buf =>
            getReadPtr σ f plane = Ret {| p_buf := buf; p_off := 0 |})
            srcs bufs) as Hptrs.
  { eapply Forall2_impl; [exact Hsrcs|]. intros f buf.
    apply getReadPtr_planeData. }
  unfold frameBlend. rewrite Hdpl. simpl.
  destruct (fill_ok σ plane srcs bufs ws Hptrs Hlen Hcap) as (arr & Hfill & Hat).
  fold ws. rewrite Hfill. simpl. rewrite Hdst. simpl. rewrite Hfmt. simpl.
  rewrite (shl_defined_true _ Hbits). simpl.
  destruct (blendRows_ok σ plane srcs bufs ws T (maxVal fmt) stride W H
              Hptrs Hlen Hcap Hstride Hbufs Hdef arr dstbuf Hat HD)
    as (arr' & D' & dstp & Hrun & Hl' & Hpix).
  fold stride W H. rewrite Hrun. simpl.
  exists D'. done.
Qed.

(** ** Truncation and the clamp ceiling *)

Lemma int_of_float_trunc (acc : spec_float) (a : Z) :
  int_of_float acc = Some a → trunc_toward_zero acc = Some a.
Proof.
  unfold int_of_float. destruct (trunc_toward_zero acc) as [z|]; [|done].
  case_match; congruence.
Qed.

Lemma maxVal_pow (fmt : VSFormat) :
  0 ≤ bitsPerSample fmt ≤ 16 →
  wrap_int (maxVal fmt) = 2 ^ bitsPerSample fmt - 1.
Proof.
  intros Hb. unfold maxVal, wrap_uint.
  rewrite Z.shiftl_1_l.
  assert (1 ≤ 2 ^ bitsPerSample fmt ≤ 2 ^ 16) as Hp.
  { split; [apply (Z.pow_le_mono_r 2 0); lia|apply Z.pow_le_mono_r; lia]. }
  change (2 ^ 16) with 65536 in Hp.
  rewrite (Z.mod_small (2 ^ bitsPerSample fmt)) by (change (2 ^ 32) with 4294967296; lia).
  rewrite Z.mod_small by (change (2 ^ 32) with 4294967296; lia).
  apply wrap_int_id. unfold INT_MIN, INT_MAX. lia.
Qed.

Lemma clamp_range (v lo hi : Z) : lo ≤ hi → lo ≤ clamp v lo hi ≤ hi.
Proof. intros Hle. unfold clamp. repeat case_match; lia. Qed.

(** With a ceiling of at most the width of T, the cast to T changes
    nothing: the stored sample is the truncated sum, clamped. *)
Lemma convertSample_clamp (T : SampleT) (fmt : VSFormat) (acc : spec_float) :
  0 ≤ bitsPerSample fmt ≤ 8 * sizeof T →
  is_Some (int_of_float acc) →
  convertSample T (maxVal fmt) acc =
  (t ← trunc_toward_zero acc ; Some (clamp t 0 (2 ^ bitsPerSample fmt - 1))).
Proof.
  intros Hb [a Ha]. unfold convertSample.
  rewrite Ha, (int_of_float_trunc _ _ Ha). simpl. f_equal.
  assert (8 * sizeof T ≤ 16) as HT by (destruct T; simpl; lia).
  rewrite maxVal_pow by lia.
  assert (1 ≤ 2 ^ bitsPerSample fmt ≤ 2 ^ (8 * sizeof T)) as Hp.
  { split; [apply (Z.pow_le_mono_r 2 0); lia|apply Z.pow_le_mono_r; lia]. }
  pose proof (clamp_range a 0 (2 ^ bitsPerSample fmt - 1) ltac:(lia)) as Hc.
  unfold static_cast. apply Z.mod_small. lia.
Qed.




(** ** The source-pointer array *)

Lemma post_bind {A B : Type} (Q : B → Prop) (m : outcome A)
    (k : A → outcome B) :
  post (fun a => post Q (k a)) m → post Q (m ≫= k).
Proof. by destruct m. Qed.

Lemma post_of_option {A : Type} (Q : A → Prop) (u : undefined) (o : option A) :
  srcpp_fine u → (∀ a, o = Some a → Q a) → post Q (of_option u o).
Proof. intros Hu HQ. destruct o; simpl; auto. Qed.

Lemma post_for_loop {S : Type} (I : nat → S → Prop) (n i0 : nat)
    (body : nat → S → outcome S) (s : S) :
  I i0 s →
  (∀ i s, (i0 ≤ i < i0 + n)%nat → I i s → post (I (Datatypes.S i)) (body i s)) →
  post (I (i0 + n)%nat) (for_loop n i0 body s).
Proof. intros HI Hbody. by apply (for_loop_wp I srcpp_fine). Qed.

Lemma post_mono {A : Type} (Q Q' : A → Prop) (o : outcome A) :
  (∀ a, Q a → Q' a) → post Q o → post Q' o.
Proof. intros HQ. destruct o; simpl; auto. Qed.

#[local] Hint Extern 1 (srcpp_fine _) => (split; discriminate) : core.

Section srcpp.
Context (n : nat) (Hn : (n ≤ srcpp_capacity)%nat).

Lemma filled_get (arr : list (option ptr)) (i : nat) (Q : ptr → Prop) :
  filled n arr → (i < n)%nat → (∀ p, Q p) → post Q (srcpp_get arr i).
Proof.
  intros (Hl & Hin) Hi HQ. destruct (Hin i Hi) as [p Hp].
  rewrite (srcpp_get_ok _ _ _ Hp). apply HQ.
Qed.

Lemma filled_set (m : nat) (arr : list (option ptr)) (i : nat) (p : ptr) :
  filled m arr → (i < n)%nat →
  post (fun arr' => filled m arr' ∧ ∃ q, arr' !! i = Some (Some q))
    (srcpp_set arr i p).
Proof.
  intros (Hl & Hin) Hi. rewrite srcpp_set_ok by lia. simpl.
  split; [split|].
  - by rewrite length_insert.
  - intros j Hj. destruct (decide (j = i)) as [->|Hne].
    + rewrite list_lookup_insert_eq by lia. eauto.
    + rewrite list_lookup_insert_ne by done. by apply Hin.
  - rewrite list_lookup_insert_eq by lia. eauto.
Qed.

Lemma fill_safe (σ : store) (srcs : list VSFrameRef) (plane : nat) :
  post (filled n) (fill σ srcs plane n).
Proof.
  unfold fill.
  eapply post_mono; [|apply (post_for_loop (fun i arr => filled i arr))].
  - done.
  - split; [reflexivity|]. intros; lia.
  - intros i arr Hi Harr.
    apply post_bind, post_of_option; [auto|]. intros f _.
    apply post_bind. unfold getReadPtr.
    apply post_bind, post_of_option; [auto|]. intros pr _.
    apply post_bind, post_of_option; [auto|]. intros buf _. simpl.
    eapply post_mono; [|apply (filled_set i); [done|lia]].
    intros arr' ((Hl & Hin) & Hi'). split; [done|].
    intros j Hj. destruct (decide (j = i)) as [->|Hne]; [done|].
    apply Hin. lia.
Qed.

Lemma accumulate_safe (ws : list spec_float) (arr : list (option ptr))
    (w : Z) :
  length ws = n → filled n arr →
  post (fun _ => True) (accumulate ws arr w).
Proof.
  intros Hws Harr. unfold accumulate.
  eapply post_mono; [|apply (post_for_loop (fun _ _ => True))]; [done..|].
  intros i acc Hi _.
  apply post_bind, filled_get; [done|lia|]. intros p.
  apply post_bind. unfold deref. case_match; simpl; [auto|].
  apply post_of_option; [auto|done].
Qed.

Lemma advance_safe (stride : Z) (arr : list (option ptr)) :
  filled n arr → post (filled n) (advance n stride arr).
Proof.
  intros Harr. unfold advance.
  eapply post_mono; [|apply (post_for_loop (fun _ a => filled n a))];
    [done..|].
  intros i a Hi Ha.
  apply post_bind, filled_get; [done|lia|]. intros p.
  eapply post_mono; [|apply (filled_set n); [done|lia]]. by intros a' [? _].
Qed.

Lemma blendRow_safe (T : SampleT) (ws : list spec_float) (mv stride : Z)
    (W : nat) (st : list (option ptr) * list Z * Z) :
  length ws = n → filled n st.1.1 →
  post (fun st' => filled n st'.1.1) (blendRow T ws mv stride W st).
Proof.
  intros Hws Harr. destruct st as [[arr D] dstp]. simpl in Harr.
  unfold blendRow. apply post_bind.
  eapply post_mono; [|apply (post_for_loop (fun _ _ => True))]; [|done|].
  - intros D' _. apply post_bind. rewrite Hws.
    eapply post_mono; [|by apply advance_safe]. by intros arr' Harr'.
  - intros c D1 _ _. unfold blendPixel.
    apply post_bind.
    eapply post_mono; [|by apply accumulate_safe]. intros acc _.
    apply post_bind, post_of_option; [auto|]. intros v _.
    unfold store_sample. by case_match; simpl; auto.
Qed.

Lemma frameBlend_safe (T : SampleT) (d : FrameBlendData)
    (srcs : list VSFrameRef) (dst : VSFrameRef) (plane : nat) (σ : store) :
  length (weightPercents d) = n →
  post (fun _ => True) (frameBlend T d srcs dst plane σ).
Proof.
  intros Hws. unfold frameBlend.
  apply post_bind, post_of_option; [auto|]. intros dpl _.
  apply post_bind. rewrite Hws.
  eapply post_mono; [|apply fill_safe]. intros arr Harr.
  apply post_bind, post_of_option; [auto|]. intros dstbuf _.
  apply post_bind, post_of_option; [auto|]. intros fmt _.
  apply post_bind.
  destruct (shl_defined (bitsPerSample fmt)); [|by split].
  apply post_bind.
  eapply post_mono;
    [|apply (post_for_loop (fun _ st => filled n st.1.1))]; [done|done|].
  intros r st _ Hst. by apply blendRow_safe.
Qed.
End srcpp.

(** With more weights than entries, the initial fill writes past the end. *)
Lemma fill_overflow (σ : store) (srcs : list VSFrameRef) (plane : nat)
    (bufs : list (list Z)) :
  Forall2 (fun f buf => planeData σ plane f = Some buf) srcs bufs →
  (srcpp_capacity < length srcs)%nat →
  fill σ srcs plane (length srcs) = Undef SrcppOverflow.
Proof.
  intros Hsrcs Hgt. unfold fill.
  replace (length srcs) with (srcpp_capacity + (length srcs - srcpp_capacity))%nat
    at 1 by lia.
  rewrite for_loop_app.
  destruct (for_loop_total (fun _ arr => length arr = srcpp_capacity)
    srcpp_capacity 0
    (fun i arr =>
       f ← of_option BadFrameArray (srcs !! i) ;
       p ← getReadPtr σ f plane ;
       srcpp_set arr i p) srcpp_new) as (arr & Harr & Hl).
  - reflexivity.
  - intros i arr Hi Hl.
    destruct (lookup_lt_is_Some_2 srcs i ltac:(lia)) as [f Hf].
    destruct (Forall2_lookup_l _ _ _ _ _ Hsrcs Hf) as (buf & _ & Hptr).
    rewrite Hf. simpl. rewrite (getReadPtr_planeData _ _ _ _ Hptr). simpl.
    rewrite srcpp_set_ok by lia. eexists. split; [done|].
    by rewrite length_insert.
  - rewrite Harr. simpl.
    destruct (length srcs - srcpp_capacity)%nat as [|m] eqn:Hm; [lia|].
    simpl.
    destruct (lookup_lt_is_Some_2 srcs srcpp_capacity ltac:(lia)) as [f Hf].
    destruct (Forall2_lookup_l _ _ _ _ _ Hsrcs Hf) as (buf & _ & Hptr).
    rewrite Hf. simpl. rewrite (getReadPtr_planeData _ _ _ _ Hptr). simpl.
    unfold srcpp_set. rewrite decide_False by lia. done.
Qed.

(** C9. srcpp has 128 entries and gets one pointer per weight. With at most
    128 weights no access to srcpp, in the fill, the pixel loop or the
    per-row advance, is outside the array or reads an unwritten entry; with
    more than 128 weights the fill writes outside it. So for frames the host
    delivers the accesses are all in bounds exactly when there are at most
    128 weights. *)
Theorem srcpp_in_bounds (T : SampleT) (d : FrameBlendData)
    (srcs : list VSFrameRef) (dst : VSFrameRef) (plane : nat) (σ : store) :
  ((length (weightPercents d) ≤ srcpp_capacity)%nat →
     frameBlend T d srcs dst plane σ ≠ Undef SrcppOverflow ∧
     frameBlend T d srcs dst plane σ ≠ Undef UninitialisedRead) ∧
  (∀ bufs,
     is_Some (f_planes dst !! plane) →
     Forall2 (fun f buf => planeData σ plane f = Some buf) srcs bufs →
     length srcs = length (weightPercents d) →
     (frameBlend T d srcs dst plane σ ≠ Undef SrcppOverflow ↔
      (length (weightPercents d) ≤ srcpp_capacity)%nat)).
Proof.
  assert ((length (weightPercents d) ≤ srcpp_capacity)%nat →
     frameBlend T d srcs dst plane σ ≠ Undef SrcppOverflow ∧
     frameBlend T d srcs dst plane σ ≠ Undef UninitialisedRead) as Hsafe.
  { intros Hle.
    pose proof (frameBlend_safe _ Hle T d srcs dst plane σ eq_refl) as Hp.
    destruct (frameBlend T d srcs dst plane σ) as [σ'|u]; [done|].
    destruct Hp as [H1 H2]. split; congruence. }
  split; [exact Hsafe|].
  intros bufs [dpl Hdpl] Hsrcs Hlen. split.
  - intros Hno.
    destruct (decide (length (weightPercents d) ≤ srcpp_capacity)%nat)
      as [Hle|Hgt]; [done|].
    exfalso. apply Hno. unfold frameBlend. rewrite Hdpl. simpl.
    rewrite <- Hlen. rewrite (fill_overflow _ _ _ bufs Hsrcs) by lia. done.
  - intros Hle. by apply Hsafe.
Qed.

Lemma srcpp_in_bounds_witness :
  frameBlend U8 (sampleData [true; true; true])
    [sampleFrame 0; sampleFrame 3; sampleFrame 6] sampleDst 0 sampleStore'
  ≠ Undef SrcppOverflow.
Proof.
  apply (proj1 (srcpp_in_bounds U8 (sampleData [true; true; true])
                  [sampleFrame 0; sampleFrame 3; sampleFrame 6] sampleDst
                  0%nat sampleStore')).
  vm_compute. lia.
Defined.

(** ** The two sources of the bit depth *)

Lemma dispatch_sizeof (fi : VSFormat) (T : SampleT) :
  dispatch fi = Some T → bytesPerSample fi = sizeof T.
Proof.
  unfold dispatch. destruct (bytesPerSample fi =? 1) eqn:H1.
  - intros [= <-]. by apply Z.eqb_eq in H1.
  - destruct (bytesPerSample fi =? 2) eqn:H2; [|done].
    intros [= <-]. by apply Z.eqb_eq in H2.
Qed.



(** ** Frames: pass-through planes and unsupported depths *)

(** A blend changes one buffer of the store: that of the destination plane. *)
Lemma frameBlend_effect (T : SampleT) (d : FrameBlendData)
    (srcs : list VSFrameRef) (dst : VSFrameRef) (plane : nat) (σ σ' : store) :
  frameBlend T d srcs dst plane σ = Ret σ' →
  ∃ dpl out, f_planes dst !! plane = Some dpl ∧ σ' = <[pl_buf dpl := out]> σ.
Proof.
  unfold frameBlend. intros Hrun.
  destruct (f_planes dst !! plane) as [dpl|]; simpl in Hrun; [|done].
  destruct (fill _ _ _ _); simpl in Hrun; [|done].
  destruct (σ !! _); simpl in Hrun; [|done].
  destruct (format _); simpl in Hrun; [|done].
  destruct (shl_defined _); simpl in Hrun; [|done].
  destruct (for_loop _ _ _ _) as [st|]; simpl in Hrun; [|done].
  injection Hrun as <-. eauto.
Qed.

(** The planes [newVideoFrame2] gives the new frame: a plane taken from a
    frame is that frame's plane; a new plane has a buffer that was not in
    the store before; the buffers of the store stay as they are. *)
Lemma newPlanes_spec (n p : nat) (fr : list (option VSFrameRef))
    (pl : list nat) (center : VSFrameRef) (σ σ' : store)
    (planes : list PlaneRef) :
  newPlanes n p fr pl center σ = Ret (planes, σ') →
  (∃ ext, σ' = σ ++ ext) ∧ length planes = n ∧
  ∀ i, (i < n)%nat →
    match fr !! (p + i)%nat with
    | Some (Some f) =>
        ∃ q pr, pl !! (p + i)%nat = Some q ∧ f_planes f !! q = Some pr ∧
                planes !! i = Some pr
    | Some None =>
        ∃ pr, planes !! i = Some pr ∧ (length σ ≤ pl_buf pr)%nat
    | None => False
    end.
Proof.
  revert p σ σ' planes. induction n as [|n IH]; intros p σ σ' planes Hrun.
  - simpl in Hrun. injection Hrun as <- <-. split_and!; [|done|intros; lia].
    exists []. by rewrite app_nil_r.
  - simpl in Hrun.
    destruct (fr !! p) as [src|] eqn:Hfr; simpl in Hrun; [|done].
    assert (∃ pr σ1, (∃ ext, σ1 = σ ++ ext) ∧
              newPlanes n (S p) fr pl center σ1 ≫=
                (fun rest => Ret (pr :: rest.1, rest.2)) = Ret (planes, σ') ∧
              match src with
              | Some f => ∃ q, pl !! p = Some q ∧ f_planes f !! q = Some pr
              | None => (length σ ≤ pl_buf pr)%nat
              end) as (pr & σ1 & Hext & Hrest & Hhead).
    { destruct src as [f|].
      - destruct (pl !! p) as [q|] eqn:Hq; simpl in Hrun; [|done].
        destruct (f_planes f !! q) as [pr|] eqn:Hpr; simpl in Hrun; [|done].
        exists pr, σ. split_and!; [exists []; by rewrite app_nil_r|done|eauto].
      - destruct (f_planes center !! p) as [g|]; simpl in Hrun; [|done].
        destruct (σ !! pl_buf g) as [old|]; simpl in Hrun; [|done].
        eexists _, _. split_and!; [eauto|exact Hrun|simpl; lia]. }
    destruct (newPlanes n (S p) fr pl center σ1) as [[rest σ2]|] eqn:Hn;
      simpl in Hrest; [|done].
    injection Hrest as <- <-.
    destruct (IH _ _ _ _ Hn) as ((ext2 & ->) & Hlen & Hi).
    destruct Hext as (ext1 & ->). split_and!.
    { exists (ext1 ++ ext2). by rewrite app_assoc. }
    { simpl. by rewrite Hlen. }
    intros [|i] Hlt.
    + rewrite Nat.add_0_r, Hfr. destruct src as [f|]; simpl.
      * destruct Hhead as (q & Hq & Hpr). eauto.
      * eauto.
    + specialize (Hi i ltac:(lia)).
      replace (p + S i)%nat with (S p + i)%nat by lia.
      destruct (fr !! (S p + i)%nat) as [[f|]|]; simpl; [done| |done].
      destruct Hi as (pr' & Hpr' & Hge). exists pr'. split; [done|].
      rewrite length_app in Hge. lia.
Qed.

(** The plane loop touches only the buffers of the selected planes of the
    destination and blends only selected planes. *)
Lemma planeLoop_frame (L : nat) (count plane : nat) (d : FrameBlendData)
    (fi : VSFormat) (frames : list VSFrameRef) (dst : VSFrameRef)
    (h h' : host) (b : bool) :
  planeLoop count plane d fi frames dst h = Ret (b, h') →
  (∀ q pr, process d !! q = Some true → f_planes dst !! q = Some pr →
     (L ≤ pl_buf pr)%nat) →
  (∀ i, (i < L)%nat → buffers h' !! i = buffers h !! i) ∧
  (∀ q T, (q, T) ∈ blended h' →
     (q, T) ∈ blended h ∨ process d !! q = Some true).
Proof.
  revert plane h. induction count as [|count IH]; intros plane h Hrun Hfresh.
  - simpl in Hrun. injection Hrun as <- <-. split; [done|]. intros; by left.
  - simpl in Hrun.
    destruct (process d !! plane) as [sel|] eqn:Hsel; simpl in Hrun; [|done].
    destruct sel; [|by apply (IH _ _ Hrun)].
    assert (∀ T σ1, frameBlend T d frames dst plane (buffers h) = Ret σ1 →
              planeLoop count (S plane) d fi frames dst
                (traceBlend plane T (with_buffers σ1 h)) = Ret (b, h') →
              (∀ i, (i < L)%nat → buffers h' !! i = buffers h !! i) ∧
              (∀ q T, (q, T) ∈ blended h' →
                 (q, T) ∈ blended h ∨ process d !! q = Some true)) as Hstep.
    { intros T σ1 Hblend Hloop.
      destruct (frameBlend_effect _ _ _ _ _ _ _ Hblend)
        as (dpl & out & Hdpl & ->).
      destruct (IH _ _ Hloop Hfresh) as (Hbuf & Htrace). simpl in *. split.
      - intros i Hi. rewrite Hbuf by done.
        apply list_lookup_insert_ne.
        pose proof (Hfresh _ _ Hsel Hdpl). lia.
      - intros q T' Hin. destruct (Htrace q T' Hin) as [Hold|Hq]; [|by right].
        apply elem_of_app in Hold as [Hold|Hnew]; [by left|].
        apply list_elem_of_singleton in Hnew. injection Hnew as -> ->.
        by right. }
    destruct (bytesPerSample fi =? 1).
    { destruct (frameBlend U8 _ _ _ _ _) as [σ1|] eqn:Hb; simpl in Hrun;
        [|done]. by apply (Hstep U8 σ1). }
    destruct (bytesPerSample fi =? 2).
    { destruct (frameBlend U16 _ _ _ _ _) as [σ1|] eqn:Hb; simpl in Hrun;
        [|done]. by apply (Hstep U16 σ1). }
    done.
Qed.

Lemma bind_Ret_inv {A B : Type} (m : outcome A) (k : A → outcome B) (b : B) :
  m ≫= k = Ret b → ∃ a, m = Ret a ∧ k a = Ret b.
Proof. destruct m as [a|u]; [eauto|done]. Qed.

(** The planes handed to [newVideoFrame2] by [frameBlendGetFrame]. *)
Lemma reuse_map_lookup (d : FrameBlendData) (center : VSFrameRef) (q : nat) :
  ((fun p => if (process d !!! p : bool) then None else Some center)
     <$> [0; 1; 2]%nat) !! q =
  if decide (q < 3)%nat
  then Some (if (process d !!! q : bool) then None else Some center)
  else None.
Proof. by destruct q as [|[|[|q]]]. Qed.

Lemma plane_map_lookup (q : nat) :
  (q < 3)%nat → [0; 1; 2]%nat !! q = Some q.
Proof. destruct q as [|[|[|q]]]; (done || lia). Qed.

(** In any request that returns, an unselected plane has not gone through
    [frameBlend], and the output frame holds the center frame's plane. *)
Lemma passthrough_of_return (n : Z) (d : FrameBlendData) (h h' : host)
    (r : option VSFrameRef) (c : VSFrameRef) (p : nat) (pr : PlaneRef) :
  let frames := node_frame (node d) <$> fetchWindow n d in
  frameBlendGetFrame n arAllFramesReady d h = Ret (r, h') →
  frames !! (length frames / 2)%nat = Some c →
  process d !! p = Some false →
  Z.of_nat p < numPlanes (f_format c) →
  f_planes c !! p = Some pr →
  is_Some (buffers h !! pl_buf pr) →
  (∀ T, (p, T) ∈ blended h' → (p, T) ∈ blended h) ∧
  buffers h' !! pl_buf pr = buffers h !! pl_buf pr ∧
  ∀ dst, r = Some dst → f_planes dst !! p = Some pr.
Proof.
  intros frames Hrun Hcenter Hsel Hp Hpr Halloc.
  unfold frameBlendGetFrame in Hrun. fold frames in Hrun.
  rewrite Hcenter in Hrun.
  apply bind_Ret_inv in Hrun as (c' & [= <-] & Hrun).
  apply bind_Ret_inv in Hrun as ([dst σ1] & Hnew & Hrun).
  apply bind_Ret_inv in Hrun as ([b h1] & Hloop & Hrun).
  unfold newVideoFrame2 in Hnew.
  apply bind_Ret_inv in Hnew as ([planes σ2] & Hnew & [= <- <-]).
  destruct (newPlanes_spec _ _ _ _ _ _ _ _ Hnew) as ((ext & ->) & Hlen & Hplanes).
  assert (planes !! p = Some pr) as Hdst.
  { specialize (Hplanes p ltac:(lia)). rewrite reuse_map_lookup in Hplanes.
    case_decide; [|done].
    rewrite (list_lookup_total_correct _ _ _ Hsel) in Hplanes.
    destruct Hplanes as (q & pr' & Hq & Hpr' & Hpl).
    rewrite plane_map_lookup in Hq by done. simpl in Hq. congruence. }
  destruct (planeLoop_frame (length (buffers h)) _ _ _ _ _ _ _ _ _ Hloop)
    as (Hbuf & Htrace).
  { intros q pr' Hq Hpr'. simpl in Hpr'.
    assert (q < Z.to_nat (numPlanes (f_format c)))%nat as Hlt.
    { apply lookup_lt_Some in Hpr'. lia. }
    specialize (Hplanes q Hlt). rewrite reuse_map_lookup in Hplanes.
    case_decide; [|done].
    rewrite (list_lookup_total_correct _ _ _ Hq) in Hplanes.
    destruct Hplanes as (pr2 & Hpr2 & Hge). congruence. }
  simpl in Hbuf, Htrace.
  pose proof (lookup_lt_is_Some_1 _ _ Halloc) as Hlt.
  assert (buffers h1 !! pl_buf pr = buffers h !! pl_buf pr) as Hsame.
  { rewrite Hbuf by done. by apply lookup_app_l. }
  assert (∀ T, (p, T) ∈ blended h1 → (p, T) ∈ blended h) as Hnot.
  { intros T Hin. destruct (Htrace p T Hin) as [Hold|Hq]; [done|congruence]. }
  simpl in Hrun.
  destruct b; injection Hrun as <- <-; simpl; split_and!; try done.
  intros dst [= <-]. done.
Qed.

(** Run the binds whose first computation has returned. *)
Ltac run := cbn [of_option mbind outcome_bind fst snd].

Lemma newPlanes_S (n p : nat) (fr : list (option VSFrameRef)) (pl : list nat)
    (center : VSFrameRef) (σ : store) :
  newPlanes (S n) p fr pl center σ =
  src ← of_option BadPlane (fr !! p) ;
  r ← match src with
      | Some f =>
          q ← of_option BadPlane (pl !! p) ;
          pr ← of_option BadPlane (f_planes f !! q) ;
          Ret (pr, σ)
      | None =>
          g ← of_option BadPlane (f_planes center !! p) ;
          old ← of_option BadPlane (σ !! pl_buf g) ;
          Ret ({| pl_buf := length σ; pl_stride := pl_stride g;
                  pl_width := pl_width g; pl_height := pl_height g |},
               σ ++ [replicate (length old) 0])
      end ;
  rest ← newPlanes n (S p) fr pl center r.2 ;
  Ret (r.1 :: rest.1, rest.2).
Proof. reflexivity. Qed.

(** [newVideoFrame2] succeeds on a well-formed center frame. *)
Lemma newPlanes_total (d : FrameBlendData) (center : VSFrameRef)
    (n p : nat) (σ : store) :
  (p + n ≤ 3)%nat →
  (p + n ≤ length (f_planes center))%nat →
  Forall (fun pr => (pl_buf pr < length σ)%nat) (f_planes center) →
  ∃ planes σ',
    newPlanes n p
      ((fun p => if (process d !!! p : bool) then None else Some center)
         <$> [0; 1; 2]%nat)
      [0; 1; 2]%nat center σ = Ret (planes, σ').
Proof.
  revert p σ. induction n as [|n IH]; intros p σ H3 Hlen Halloc.
  - simpl. eauto.
  - rewrite newPlanes_S, reuse_map_lookup, decide_True by lia. run.
    destruct (lookup_lt_is_Some_2 (f_planes center) p ltac:(lia)) as [g Hg].
    destruct (process d !!! p); run.
    + rewrite Hg. run.
      pose proof (Forall_lookup_1 _ _ _ _ Halloc Hg) as Hlt. simpl in Hlt.
      destruct (lookup_lt_is_Some_2 σ (pl_buf g) Hlt) as [old Hold].
      rewrite Hold. run.
      destruct (IH (S p) (σ ++ [replicate (length old) 0]))
        as (planes & σ' & Hrest); [lia|lia| |].
      { eapply Forall_impl; [exact Halloc|]. intros pr Hpr. simpl in *.
        rewrite length_app. lia. }
      rewrite Hrest. run. eauto.
    + rewrite plane_map_lookup by lia. run. rewrite Hg. run.
      destruct (IH (S p) σ) as (planes & σ' & Hrest); [lia|lia|done|].
      rewrite Hrest. run. eauto.
Qed.

(** With a sample width other than 1 or 2 bytes, the plane loop stops at
    the first selected plane: it logs the fatal message, on which the host
    ends the process. *)
Lemma planeLoop_fatal (count plane : nat) (d : FrameBlendData)
    (fi : VSFormat) (frames : list VSFrameRef) (dst : VSFrameRef) (h : host)
    (q : nat) :
  bytesPerSample fi ≠ 1 → bytesPerSample fi ≠ 2 →
  (plane + count ≤ length (process d))%nat →
  (plane ≤ q < plane + count)%nat →
  process d !! q = Some true →
  planeLoop count plane d fi frames dst h =
    Undef (HostAbort (messages h ++ [(mtFatal, fatalText)])).
Proof.
  intros H1 H2. revert plane.
  induction count as [|count IH]; intros plane Hlen Hq Hsel; [lia|].
  simpl.
  destruct (lookup_lt_is_Some_2 (process d) plane ltac:(lia)) as [sel Hs].
  rewrite Hs. simpl. destruct sel.
  - rewrite (proj2 (Z.eqb_neq _ _) H1), (proj2 (Z.eqb_neq _ _) H2). done.
  - apply IH; [lia| |done].
    destruct (decide (q = plane)) as [->|Hne]; [congruence|lia].
Qed.

(** C7, as the code has it. When the delivered frame has a sample width
    other than 1 or 2 bytes and one of its planes is selected, the request
    delivers exactly one message, the fatal diagnostic, and on it the host
    ends the process: the request does not return, neither with a frame nor
    with a failure signal, and it ends in no other way (no blend has run
    into undefined behaviour before). *)
Theorem unsupported_depth_fatal (n : Z) (d : FrameBlendData) (h : host)
    (c : VSFrameRef) (q : nat) :
  let frames := node_frame (node d) <$> fetchWindow n d in
  frames !! (length frames / 2)%nat = Some c →
  bytesPerSample (f_format c) ≠ 1 →
  bytesPerSample (f_format c) ≠ 2 →
  Z.of_nat q < numPlanes (f_format c) →
  process d !! q = Some true →
  length (process d) = 3%nat →
  wellFormedFrame (buffers h) c →
  frameBlendGetFrame n arAllFramesReady d h =
    Undef (HostAbort (messages h ++ [(mtFatal, fatalText)])).
Proof.
  intros frames Hcenter H1 H2 Hq Hsel Hproc (H3 & Hlen & Halloc).
  unfold frameBlendGetFrame. fold frames. rewrite Hcenter.
  unfold newVideoFrame2.
  destruct (newPlanes_total d c (Z.to_nat (numPlanes (f_format c))) 0
              (buffers h)) as (planes & σ' & Hnew); [lia|lia|done|].
  run. rewrite Hnew. run.
  rewrite (planeLoop_fatal _ _ d (f_format c) frames _ _ q H1 H2);
    [|lia|lia|done].
  done.
Qed.

Lemma unsupported_depth_fatal_witness :
  frameBlendGetFrame 0 arAllFramesReady floatData sampleHost =
    Undef (HostAbort [(mtFatal, fatalText)]).
Proof.
  apply (unsupported_depth_fatal 0 floatData sampleHost floatFrame 1%nat).
  - reflexivity.
  - vm_compute. discriminate.
  - vm_compute. discriminate.
  - vm_compute. reflexivity.
  - reflexivity.
  - reflexivity.
  - split; [vm_compute; discriminate|]. split; [reflexivity|].
    repeat constructor.
Defined.

(** C7, as stated, fails. On a clip of 32-bit samples (4 bytes wide) with
    plane 1 selected, the first request returns nothing to its caller,
    neither a frame nor a failure signal: its fatal message ends the host
    process. *)
Lemma unsupported_depth_crashes :
  bytesPerSample floatFormat = 4 ∧
  process floatData !! 1%nat = Some true ∧
  (∀ r h', frameBlendGetFrame 0 arAllFramesReady floatData sampleHost
           ≠ Ret (r, h')) ∧
  frameBlendGetFrame 0 arAllFramesReady floatData sampleHost =
    Undef (HostAbort [(mtFatal, fatalText)]).
Proof.
  split; [reflexivity|]. split; [reflexivity|].
  split; [intros r h'; vm_compute; discriminate|reflexivity].
Qed.

(** ** A request on well-formed frames returns a frame *)

Lemma fetchIndices_length (k : nat) (fn : Z) : length (fetchIndices k fn) = k.
Proof. revert fn. induction k as [|k IH]; intros fn; simpl; [done|]. by rewrite IH. Qed.

(** The new planes of the destination: each has the layout of the center
    frame's plane, a buffer of the same length that was not in the store
    before, and a buffer of its own. *)
Lemma newPlanes_fresh (n p : nat) (fr : list (option VSFrameRef))
    (pl : list nat) (center : VSFrameRef) (σ σ' : store)
    (planes : list PlaneRef) :
  newPlanes n p fr pl center σ = Ret (planes, σ') →
  ∀ i, (i < n)%nat → fr !! (p + i)%nat = Some None →
    ∃ pr g, planes !! i = Some pr ∧ f_planes center !! (p + i)%nat = Some g ∧
      pl_stride pr = pl_stride g ∧ pl_width pr = pl_width g ∧
      pl_height pr = pl_height g ∧ (length σ ≤ pl_buf pr)%nat ∧
      (∀ old, σ !! pl_buf g = Some old →
         σ' !! pl_buf pr = Some (replicate (length old) 0)) ∧
      (∀ j pr', (i < j < n)%nat → fr !! (p + j)%nat = Some None →
         planes !! j = Some pr' → (pl_buf pr < pl_buf pr')%nat).
Proof.
  revert p σ σ' planes. induction n as [|n IH]; intros p σ σ' planes Hrun;
    [intros; lia|].
  rewrite newPlanes_S in Hrun.
  apply bind_Ret_inv in Hrun as (src & Hsrc & Hrun).
  apply bind_Ret_inv in Hrun as ([pr0 σ1] & Hhead & Hrun).
  apply bind_Ret_inv in Hrun as ([rest σ2] & Hrest & [= <- <-]).
  simpl in Hrest.
  assert (∃ ext, σ1 = σ ++ ext) as (ext1 & Hσ1).
  { destruct src as [f|].
    - apply bind_Ret_inv in Hhead as (q & _ & Hhead).
      apply bind_Ret_inv in Hhead as (pr & _ & [= _ <-]).
      exists []. by rewrite app_nil_r.
    - apply bind_Ret_inv in Hhead as (g & _ & Hhead).
      apply bind_Ret_inv in Hhead as (old & _ & [= _ <-]). eauto. }
  destruct (newPlanes_spec _ _ _ _ _ _ _ _ Hrest) as ((ext2 & Hσ2) & _ & _).
  intros [|i] Hi Hfr.
  - rewrite Nat.add_0_r in Hfr. rewrite Hfr in Hsrc. injection Hsrc as <-.
    apply bind_Ret_inv in Hhead as (g & Hg & Hhead).
    apply bind_Ret_inv in Hhead as (old0 & Hold0 & [= <- <-]).
    destruct (f_planes center !! p) as [g'|] eqn:Hg'; [|done].
    injection Hg as ->.
    destruct (σ !! pl_buf g) as [old0'|] eqn:Hold0'; [|done].
    injection Hold0 as ->.
    eexists _, g. rewrite Nat.add_0_r. split_and!; try done.
    + intros old Hold. rewrite Hold0' in Hold. injection Hold as <-.
      simpl. rewrite Hσ2.
      rewrite lookup_app_l by (rewrite length_app; simpl; lia).
      by rewrite list_lookup_middle.
    + intros [|j] pr' Hj Hfrj Hpr'; [lia|]. simpl in Hpr'.
      replace (p + S j)%nat with (S p + j)%nat in Hfrj by lia.
      destruct (IH _ _ _ _ Hrest j ltac:(lia) Hfrj)
        as (pr2 & g2 & Hpr2 & _ & _ & _ & _ & Hge & _).
      simpl. rewrite length_app in Hge. simpl in Hge.
      assert (pr' = pr2) as -> by congruence. lia.
  - replace (p + S i)%nat with (S p + i)%nat in * by lia.
    destruct (IH _ _ _ _ Hrest i ltac:(lia) Hfr)
      as (pr & g & Hpr & Hg & Hs & Hw & Hh & Hge & Hcontent & Hmono).
    exists pr, g. split_and!; try done.
    + rewrite Hσ1, length_app in Hge. lia.
    + intros old Hold. apply Hcontent. rewrite Hσ1.
      by apply lookup_app_l_Some.
    + intros [|j] pr' Hj Hfrj Hpr'; [lia|]. simpl in Hpr'.
      replace (p + S j)%nat with (S p + j)%nat in Hfrj by lia.
      apply (Hmono j pr'); [lia|done|done].
Qed.

Lemma planeData_agree (σ σ' : store) (q : nat) (f : VSFrameRef) (buf : list Z) :
  (∀ i, (i < length σ)%nat → σ' !! i = σ !! i) →
  planeData σ q f = Some buf → planeData σ' q f = Some buf.
Proof.
  unfold planeData. intros Hagree Hp.
  destruct (f_planes f !! q) as [pr|]; [|done]. simpl in *.
  rewrite Hagree; [done|]. by apply lookup_lt_Some in Hp.
Qed.

Lemma planeLoop_selected (T : SampleT) (count plane : nat)
    (d : FrameBlendData) (fi : VSFormat) (frames : list VSFrameRef)
    (dst : VSFrameRef) (h : host) :
  dispatch fi = Some T →
  process d !! plane = Some true →
  planeLoop (S count) plane d fi frames dst h =
  σ ← frameBlend T d frames dst plane (buffers h) ;
  planeLoop count (S plane) d fi frames dst
    (traceBlend plane T (with_buffers σ h)).
Proof.
  intros Hdisp Hsel. simpl. rewrite Hsel. run. unfold dispatch in Hdisp.
  destruct (bytesPerSample fi =? 1); [by injection Hdisp as <-|].
  destruct (bytesPerSample fi =? 2); [by injection Hdisp as <-|done].
Qed.

(** The plane loop runs to its end when every selected plane is ready and
    the destination's selected planes are the new planes. *)
Lemma planeLoop_returns (T : SampleT) (fmt : VSFormat) (d : FrameBlendData)
    (fi : VSFormat) (frames : list VSFrameRef) (c dst : VSFrameRef)
    (σ0 : store) (count plane : nat) (h : host) :
  format (vi d) = Some fmt →
  dispatch fi = Some T →
  length frames = length (weightPercents d) →
  (length (weightPercents d) ≤ srcpp_capacity)%nat →
  (plane + count ≤ length (process d))%nat →
  (∀ i, (i < length σ0)%nat → buffers h !! i = σ0 !! i) →
  (∀ q, (plane ≤ q < plane + count)%nat → process d !! q = Some true →
     planeReady T fmt (weightPercents d) frames c σ0 q ∧
     ∃ pr, f_planes dst !! q = Some pr ∧ (length σ0 ≤ pl_buf pr)%nat ∧
       (∀ g, f_planes c !! q = Some g →
          pl_stride pr = pl_stride g ∧ pl_width pr = pl_width g ∧
          pl_height pr = pl_height g ∧
          ∀ old, σ0 !! pl_buf g = Some old →
            buffers h !! pl_buf pr = Some (replicate (length old) 0)) ∧
       (∀ q' pr', (q < q' < plane + count)%nat →
          process d !! q' = Some true → f_planes dst !! q' = Some pr' →
          (pl_buf pr < pl_buf pr')%nat)) →
  ∃ h', planeLoop count plane d fi frames dst h = Ret (true, h').
Proof.
  intros Hfmt Hdisp Hlen Hcap. revert plane h.
  induction count as [|count IH]; intros plane h Hproc Hagree Hplanes.
  - simpl. eauto.
  - destruct (lookup_lt_is_Some_2 (process d) plane ltac:(lia)) as [sel Hsel].
    destruct sel.
    + rewrite (planeLoop_selected T) by done.
      destruct (Hplanes plane ltac:(lia) Hsel)
        as ((g & old & bufs & Hshl & Hg & Hold & Hsrcs & Hst & HH & Hbufs
             & Hdef)
            & pr & Hpr & Hfresh & Hgeo & Hmono).
      destruct (Hgeo g Hg) as (Hs & Hw & Hh & Hzero).
      specialize (Hzero old Hold).
      destruct (frameBlend_correct T d frames dst plane (buffers h) pr fmt
                  bufs (replicate (length old) 0)) as (out & Hrun & _).
      { done. } { done. } { done. } { done. }
      { eapply Forall2_impl; [exact Hsrcs|]. intros f buf.
        by apply planeData_agree. }
      { done. } { done. }
      { by rewrite Hs, Hw. }
      { by rewrite length_replicate, Hs, Hh. }
      { by rewrite Hs, Hh. }
      { by rewrite Hs, Hw, Hh. }
      rewrite Hrun. run. apply IH; [lia| |].
      * intros i Hi. simpl. rewrite list_lookup_insert_ne by lia.
        by apply Hagree.
      * intros q Hq Hselq.
        destruct (Hplanes q ltac:(lia) Hselq)
          as (Hready & prq & Hprq & Hfreshq & Hgeoq & Hmonoq).
        split; [done|]. exists prq. split_and!; [done|done| |].
        -- intros gq Hgq.
           destruct (Hgeoq gq Hgq) as (Hsq & Hwq & Hhq & Hzq).
           split_and!; [done..|]. intros oldq Holdq. simpl.
           rewrite list_lookup_insert_ne; [by apply Hzq|].
           pose proof (Hmono q prq ltac:(lia) Hselq Hprq). lia.
        -- intros q' pr' Hq'. apply Hmonoq. lia.
    + simpl. rewrite Hsel. run. apply IH; [lia|done|].
      intros q Hq Hselq.
      destruct (decide (q = plane)) as [->|Hne]; [congruence|].
      destruct (Hplanes q ltac:(lia) Hselq)
        as (Hready & prq & Hprq & Hfreshq & Hgeoq & Hmonoq).
      split; [done|]. exists prq. split_and!; [done..|].
      intros q' pr' Hq'. apply Hmonoq. lia.
Qed.

(** A plane loop that returns has run to its end: it has released nothing
    and logged nothing. Its early [return nullptr] is never reached, the
    fatal message before it ending the process. *)
Lemma planeLoop_log (count plane : nat) (d : FrameBlendData) (fi : VSFormat)
    (frames : list VSFrameRef) (dst : VSFrameRef) (h h' : host) (b : bool) :
  planeLoop count plane d fi frames dst h = Ret (b, h') →
  released h' = released h ∧ messages h' = messages h ∧ b = true.
Proof.
  revert plane h. induction count as [|count IH]; intros plane h Hloop.
  - simpl in Hloop. by injection Hloop as <- <-.
  - simpl in Hloop. apply bind_Ret_inv in Hloop as (sel & _ & Hloop).
    destruct sel; [|by apply IH in Hloop].
    destruct (bytesPerSample fi =? 1).
    { apply bind_Ret_inv in Hloop as (σ' & _ & Hloop). by apply IH in Hloop. }
    destruct (bytesPerSample fi =? 2).
    { apply bind_Ret_inv in Hloop as (σ' & _ & Hloop). by apply IH in Hloop. }
    done.
Qed.

(** A request on well-formed frames of 1 or 2 bytes per sample, with every
    selected plane ready, returns a frame and releases the source frames. *)
Lemma frameBlendGetFrame_returns (n : Z) (d : FrameBlendData) (h : host)
    (c : VSFrameRef) (fmt : VSFormat) (T : SampleT) :
  let frames := node_frame (node d) <$> fetchWindow n d in
  frames !! (length frames / 2)%nat = Some c →
  length (process d) = 3%nat →
  wellFormedFrame (buffers h) c →
  format (vi d) = Some fmt →
  dispatch (f_format c) = Some T →
  (length (weightPercents d) ≤ srcpp_capacity)%nat →
  (∀ q, Z.of_nat q < numPlanes (f_format c) → process d !! q = Some true →
     planeReady T fmt (weightPercents d) frames c (buffers h) q) →
  ∃ dst h', frameBlendGetFrame n arAllFramesReady d h = Ret (Some dst, h') ∧
            released h' = released h ++ frames ∧
            messages h' = messages h.
Proof.
  intros frames Hcenter Hproc (H3 & Hlen & Halloc) Hfmt Hdisp Hcap Hready.
  unfold frameBlendGetFrame. fold frames. rewrite Hcenter.
  unfold newVideoFrame2.
  set (np := Z.to_nat (numPlanes (f_format c))).
  destruct (newPlanes_total d c np 0 (buffers h)) as (planes & σ1 & Hnew);
    [lia|lia|done|].
  run. fold np. rewrite Hnew. run.
  destruct (newPlanes_spec _ _ _ _ _ _ _ _ Hnew) as ((ext & ->) & Hpl & _).
  pose proof (newPlanes_fresh _ _ _ _ _ _ _ _ Hnew) as Hfresh.
  assert (∀ q, process d !! q = Some true → (q < np)%nat →
            ((fun p => if (process d !!! p : bool) then None else Some c)
               <$> [0; 1; 2]%nat) !! (0 + q)%nat = Some None) as Hnone.
  { intros q Hq Hlt. rewrite reuse_map_lookup, decide_True by (simpl; lia).
    simpl. by rewrite (list_lookup_total_correct _ _ _ Hq). }
  destruct (planeLoop_returns T fmt d (f_format c) frames c
              {| f_format := f_format c; f_planes := planes |}
              (buffers h) np 0
              (with_buffers (buffers h ++ ext) h))
    as (h1 & Hloop); try done.
  { unfold frames, fetchWindow.
    by rewrite length_fmap, fetchIndices_length. }
  { lia. }
  { intros i Hi. simpl. by apply lookup_app_l. }
  { intros q Hq Hsel. split; [apply Hready; [lia|done]|].
    destruct (Hfresh q ltac:(lia) (Hnone q Hsel ltac:(lia)))
      as (pr & g & Hpr & Hg & Hs & Hw & Hh & Hge & Hcontent & Hmono).
    exists pr. simpl. split_and!; [done|done| |].
    - intros g' Hg'. simpl in Hg. assert (g' = g) as -> by congruence.
      repeat (split; [assumption|]). exact Hcontent.
    - intros q' pr' Hq' Hsel' Hpr'.
      apply (Hmono q' pr'); [lia|by apply Hnone; [|lia]|done]. }
  simpl. rewrite Hloop. run. simpl. eexists _, _. split; [reflexivity|].
  destruct (planeLoop_log _ _ _ _ _ _ _ _ _ Hloop) as (Hrel & Hmsg & _).
  simpl in *. by rewrite Hrel, Hmsg.
Qed.

(** ** The frames of a request *)

(** The frames the fetch loop has retrieved are those the request releases
    before it returns; it returns with a frame or not at all. *)
Lemma frameBlendGetFrame_released (n : Z) (d : FrameBlendData) (h h' : host)
    (r : option VSFrameRef) :
  frameBlendGetFrame n arAllFramesReady d h = Ret (r, h') →
  ∃ dst, r = Some dst ∧
    released h' = released h ++ (node_frame (node d) <$> fetchWindow n d).
Proof.
  intros Hrun. unfold frameBlendGetFrame in Hrun.
  apply bind_Ret_inv in Hrun as (c & Hc & Hrun).
  apply bind_Ret_inv in Hrun as ([dst σ1] & Hnew & Hrun).
  apply bind_Ret_inv in Hrun as ([b h1] & Hloop & Hrun).
  destruct (planeLoop_log _ _ _ _ _ _ _ _ _ Hloop) as (Hrel & _ & ->).
  simpl in Hrun, Hrel. injection Hrun as <- <-. simpl.
  exists dst. by rewrite Hrel.
Qed.

(** C2. For an output index n (a frame index of the host, so below INT_MAX)
    and k weights with center = k / 2, a request in the fetch phase
    retrieves exactly k source frames, in order, the i-th at index
    n - center + i raised to 0 and capped at INT_MAX - 1: these are the
    frames of the node it holds (and, having blended from them, releases)
    whenever it returns, and on frames that are ready it does return. With
    n = 5 and k = 3 the indices are 4, 5, 6; with n = 0 they are 0, 0, 1. *)
Theorem fetch_phase_window (n : Z) (d : FrameBlendData) (h : host) :
  0 ≤ n < INT_MAX →
  Z.of_nat (length (weightPercents d)) ≤ INT_MAX →
  let k := length (weightPercents d) in
  let center := Z.of_nat k / 2 in
  let window :=
    (fun i => Z.max 0 (Z.min (n - center + Z.of_nat i) (INT_MAX - 1)))
      <$> seq 0 k in
  let frames := node_frame (node d) <$> window in
  (∀ r h', frameBlendGetFrame n arAllFramesReady d h = Ret (r, h') →
     ∃ dst, r = Some dst ∧ released h' = released h ++ frames) ∧
  (∀ c fmt T,
     frames !! (k / 2)%nat = Some c →
     length (process d) = 3%nat →
     wellFormedFrame (buffers h) c →
     format (vi d) = Some fmt →
     dispatch (f_format c) = Some T →
     (k ≤ srcpp_capacity)%nat →
     (∀ q, Z.of_nat q < numPlanes (f_format c) →
        process d !! q = Some true →
        planeReady T fmt (weightPercents d) frames c (buffers h) q) →
     ∃ dst h',
       frameBlendGetFrame n arAllFramesReady d h = Ret (Some dst, h') ∧
       released h' = released h ++ frames) ∧
  fetchWindow n d = window ∧
  length frames = k ∧
  (∀ j, j ∈ window → 0 ≤ j ≤ INT_MAX - 1) ∧
  (k = 3%nat → n = 5 → window = [4; 5; 6]) ∧
  (k = 3%nat → n = 0 → window = [0; 0; 1]).
Proof.
  intros Hn Hk k center window frames.
  destruct (fetchWindow_closed_form n d Hn Hk) as (Heq & Hlen & Hin & H5 & H0).
  fold k center window in Heq. fold k in Hlen, H5, H0.
  assert (node_frame (node d) <$> fetchWindow n d = frames) as Hfr.
  { unfold frames. by rewrite Heq. }
  split_and!.
  - intros r h' Hrun. rewrite <- Hfr.
    by apply frameBlendGetFrame_released.
  - intros c fmt T Hc Hproc Hwf Hfmt Hdisp Hcap Hready.
    assert (length frames = k) as Hlf.
    { unfold frames. by rewrite length_fmap, <- Heq. }
    destruct (frameBlendGetFrame_returns n d h c fmt T)
      as (dst & h' & Hrun & Hrel & _); try done.
    + by rewrite Hfr, Hlf.
    + by rewrite Hfr.
    + exists dst, h'. by rewrite <- Hfr.
  - exact Heq.
  - unfold frames. by rewrite length_fmap, <- Heq.
  - intros j. rewrite <- Heq. apply Hin.
  - intros Hk3 Hn5. rewrite <- Heq. by apply H5.
  - intros Hk3 Hn0. rewrite <- Heq. by apply H0.
Qed.

Lemma fetch_phase_window_witness :
  ∃ dst h',
    frameBlendGetFrame 1 arAllFramesReady (sampleData [true; false; false])
      sampleHost = Ret (Some dst, h') ∧
    released h' = node_frame sampleNode <$> [0; 1; 2].
Proof.
  refine (proj1 (proj2 (fetch_phase_window 1 (sampleData [true; false; false])
                          sampleHost _ _))
            (sampleFrame 3) sampleFormat U8 _ _ _ _ _ _ _).
  - unfold INT_MAX. lia.
  - simpl. unfold INT_MAX. lia.
  - reflexivity.
  - reflexivity.
  - split; [vm_compute; discriminate|]. split; [reflexivity|].
    repeat constructor.
  - reflexivity.
  - reflexivity.
  - vm_compute. lia.
  - intros q Hq Hsel.
    destruct q as [|[|[|q]]]; [|discriminate Hsel..].
    exists {| pl_buf := 3; pl_stride := 4; pl_width := 3; pl_height := 2 |},
      (replicate 8 20), [replicate 8 10; replicate 8 20; replicate 8 30].
    split; [simpl; lia|].
    split; [reflexivity|]. split; [reflexivity|].
    split; [repeat constructor|].
    split; [vm_compute; discriminate|].
    split; [vm_compute; discriminate|].
    split; [repeat constructor; vm_compute; discriminate|].
    intros r c0 Hr Hc.
    destruct r as [|[|r]]; [| |simpl in Hr; lia];
      (destruct c0 as [|[|[|c0]]]; [| | |simpl in Hc; lia]);
      vm_compute; eauto.
Defined.

(** ** Planes that are not selected *)

(** C6. In a frame request, a plane whose selection flag is false never
    goes through [frameBlend], and in the output frame it is the very plane
    of the center source frame: the same buffer, its contents unchanged.
    This holds of every request that returns, and a request on well-formed
    frames whose selected planes are ready does return a frame. *)
Theorem unselected_plane_reused (n : Z) (d : FrameBlendData) (h : host)
    (c : VSFrameRef) (p : nat) (pr : PlaneRef) :
  let frames := node_frame (node d) <$> fetchWindow n d in
  frames !! (length frames / 2)%nat = Some c →
  process d !! p = Some false →
  Z.of_nat p < numPlanes (f_format c) →
  f_planes c !! p = Some pr →
  is_Some (buffers h !! pl_buf pr) →
  (∀ r h', frameBlendGetFrame n arAllFramesReady d h = Ret (r, h') →
     (∀ T, (p, T) ∈ blended h' → (p, T) ∈ blended h) ∧
     buffers h' !! pl_buf pr = buffers h !! pl_buf pr ∧
     ∀ dst, r = Some dst → f_planes dst !! p = Some pr) ∧
  (∀ fmt T,
     length (process d) = 3%nat →
     wellFormedFrame (buffers h) c →
     format (vi d) = Some fmt →
     dispatch (f_format c) = Some T →
     (length (weightPercents d) ≤ srcpp_capacity)%nat →
     (∀ q, Z.of_nat q < numPlanes (f_format c) →
        process d !! q = Some true →
        planeReady T fmt (weightPercents d) frames c (buffers h) q) →
     ∃ dst h',
       frameBlendGetFrame n arAllFramesReady d h = Ret (Some dst, h') ∧
       (∀ T', (p, T') ∈ blended h' → (p, T') ∈ blended h) ∧
       buffers h' !! pl_buf pr = buffers h !! pl_buf pr ∧
       f_planes dst !! p = Some pr).
Proof.
  intros frames Hcenter Hsel Hp Hpr Halloc. split.
  - intros r h' Hrun.
    by apply (passthrough_of_return n d h h' r c p pr).
  - intros fmt T Hproc Hwf Hfmt Hdisp Hcap Hready.
    destruct (frameBlendGetFrame_returns n d h c fmt T Hcenter Hproc Hwf
                Hfmt Hdisp Hcap Hready) as (dst & h' & Hrun & _).
    destruct (passthrough_of_return n d h h' (Some dst) c p pr Hrun Hcenter
                Hsel Hp Hpr Halloc) as (Htrace & Hbuf & Hdst).
    exists dst, h'. split_and!; [done..|]. by apply Hdst.
Qed.

Lemma unselected_plane_reused_witness :
  ∃ dst h',
    frameBlendGetFrame 1 arAllFramesReady (sampleData [true; false; false])
      sampleHost = Ret (Some dst, h') ∧
    (∀ T', (1%nat, T') ∈ blended h' → (1%nat, T') ∈ blended sampleHost) ∧
    buffers h' !! 4%nat = buffers sampleHost !! 4%nat ∧
    f_planes dst !! 1%nat =
      Some {| pl_buf := 4; pl_stride := 2; pl_width := 2; pl_height := 1 |}.
Proof.
  refine (proj2 (unselected_plane_reused 1 (sampleData [true; false; false])
                   sampleHost (sampleFrame 3) 1%nat
                   {| pl_buf := 4; pl_stride := 2; pl_width := 2;
                      pl_height := 1 |} _ _ _ _ _)
            sampleFormat U8 _ _ _ _ _ _).
  - reflexivity.
  - reflexivity.
  - vm_compute. reflexivity.
  - reflexivity.
  - vm_compute. eauto.
  - reflexivity.
  - split; [vm_compute; discriminate|]. split; [reflexivity|].
    repeat constructor.
  - reflexivity.
  - reflexivity.
  - vm_compute. lia.
  - intros q Hq Hsel.
    destruct q as [|[|[|q]]]; [|discriminate Hsel..].
    exists {| pl_buf := 3; pl_stride := 4; pl_width := 3; pl_height := 2 |},
      (replicate 8 20), [replicate 8 10; replicate 8 20; replicate 8 30].
    split; [simpl; lia|].
    split; [reflexivity|]. split; [reflexivity|].
    split; [repeat constructor|].
    split; [vm_compute; discriminate|].
    split; [vm_compute; discriminate|].
    split; [repeat constructor; vm_compute; discriminate|].
    intros r c0 Hr Hc.
    destruct r as [|[|r]]; [| |simpl in Hr; lia];
      (destruct c0 as [|[|[|c0]]]; [| | |simpl in Hc; lia]);
      vm_compute; eauto.
Defined.

(** * Further properties of the code *)

(** ** The request phase *)

Section window.
Context (n : Z) (d : FrameBlendData).
Let k := length (weightPercents d).
Let hf := Z.of_nat k / 2.

Hypothesis Hn : 0 ≤ n < INT_MAX.
Hypothesis Hk : Z.of_nat k ≤ INT_MAX.

Lemma half_range : 0 ≤ hf ≤ INT_MAX ∧ 2 * hf ≤ Z.of_nat k ∧ Z.of_nat k ≤ 2 * hf + 1.
Proof.
  subst hf. pose proof (Z.div_mod (Z.of_nat k) 2 ltac:(lia)) as Hdm.
  pose proof (Z.mod_pos_bound (Z.of_nat k) 2 ltac:(lia)). lia.
Qed.

Lemma half_eq : half d = hf.
Proof.
  unfold half. fold k. fold hf. apply wrap_int_id.
  pose proof half_range. unfold INT_MIN. lia.
Qed.

(** The requested indices are those from max(0, n - half) to
    min(n + half, INT_MAX - 1). *)
Lemma requestWindow_eq :
  requestWindow n d =
  (fun i => Z.max 0 (n - hf) + Z.of_nat i)
    <$> seq 0 (Z.to_nat (Z.min (n + hf) (INT_MAX - 1) - Z.max 0 (n - hf) + 1)).
Proof.
  pose proof half_range as Hh. unfold requestWindow. rewrite half_eq.
  rewrite (wrap_int_id (INT_MAX - 1 - hf)) by (unfold INT_MIN, INT_MAX in *; lia).
  rewrite (wrap_int_id (n - hf)) by (unfold INT_MIN, INT_MAX in *; lia).
  destruct (n >? INT_MAX - 1 - hf) eqn:Hc.
  - apply Z.gtb_lt in Hc. by rewrite Z.min_r by lia.
  - pose proof (Zgt_cases n (INT_MAX - 1 - hf)) as Hle. rewrite Hc in Hle.
    rewrite wrap_int_id by (unfold INT_MIN, INT_MAX in *; lia).
    by rewrite Z.min_l by lia.
Qed.

Lemma requestWindow_elem (j : Z) :
  j ∈ requestWindow n d ↔
  Z.max 0 (n - hf) ≤ j ≤ Z.min (n + hf) (INT_MAX - 1).
Proof.
  rewrite requestWindow_eq, list_elem_of_fmap. split.
  - intros (i & -> & Hi). apply elem_of_seq in Hi. lia.
  - intros Hj. exists (Z.to_nat (j - Z.max 0 (n - hf))). split; [lia|].
    apply elem_of_seq. lia.
Qed.

Lemma fetchWindow_eq :
  fetchWindow n d =
  (fun i => Z.max 0 (Z.min (n - hf + Z.of_nat i) (INT_MAX - 1))) <$> seq 0 k.
Proof.
  pose proof half_range as Hh. unfold fetchWindow. rewrite half_eq.
  rewrite wrap_int_id by (unfold INT_MIN, INT_MAX in *; lia).
  apply fetchIndices_spec. unfold INT_MIN, INT_MAX in *. lia.
Qed.

Lemma fetched_requested (j : Z) :
  j ∈ fetchWindow n d → j ∈ requestWindow n d.
Proof.
  pose proof half_range as Hh.
  rewrite fetchWindow_eq, requestWindow_elem, list_elem_of_fmap.
  intros (i & -> & Hi). apply elem_of_seq in Hi. lia.
Qed.

Lemma requested_fetched (j : Z) :
  Nat.odd k = true → j ∈ requestWindow n d → j ∈ fetchWindow n d.
Proof.
  pose proof half_range as Hh. intros Hodd.
  assert (Z.of_nat k = 2 * hf + 1) as Hk2.
  { apply Nat.odd_spec in Hodd as [m Hm]. subst hf. rewrite Hm.
    replace (Z.of_nat (2 * m + 1)) with (1 + Z.of_nat m * 2) by lia.
    rewrite Z.div_add by lia. change (1 / 2) with 0. lia. }
  rewrite fetchWindow_eq, requestWindow_elem, list_elem_of_fmap.
  intros Hj. exists (Z.to_nat (j - (n - hf))). split; [lia|].
  apply elem_of_seq. lia.
Qed.
End window.

(** X1. Every frame the fetch phase asks for was asked of the supplier in
    the request phase; with an odd number of weights the two phases name the
    same frames. *)
Theorem request_covers_fetch (n : Z) (d : FrameBlendData) :
  0 ≤ n < INT_MAX →
  Z.of_nat (length (weightPercents d)) ≤ INT_MAX →
  (∀ j, j ∈ fetchWindow n d → j ∈ requestWindow n d) ∧
  (Nat.odd (length (weightPercents d)) = true →
     ∀ j, j ∈ requestWindow n d → j ∈ fetchWindow n d).
Proof.
  intros Hn Hk. split.
  - intros j. by apply fetched_requested.
  - intros Hodd j. by apply requested_fetched.
Qed.

Lemma request_covers_fetch_witness :
  1 ∈ requestWindow 0 (sampleData [true; true; true]).
Proof.
  apply (proj1 (request_covers_fetch 0 (sampleData [true; true; true])
                  ltac:(unfold INT_MAX; lia)
                  ltac:(simpl; unfold INT_MAX; lia))).
  change (1 ∈ [0; 0; 1]). set_solver.
Defined.

(** X2. The request phase asks for each frame once, in increasing order of
    consecutive indices within [0, INT_MAX - 1], the frame n among them, at
    most 2 * (k / 2) + 1 frames; it returns no frame and leaves the rest of
    the host as it was. *)
Theorem request_phase (n : Z) (d : FrameBlendData) (h : host) :
  0 ≤ n < INT_MAX →
  Z.of_nat (length (weightPercents d)) ≤ INT_MAX →
  ∃ first count,
    frameBlendGetFrame n arInitial d h =
      Ret (None, requestFrames ((fun i => first + Z.of_nat i) <$> seq 0 count) h) ∧
    requestWindow n d = (fun i => first + Z.of_nat i) <$> seq 0 count ∧
    NoDup (requestWindow n d) ∧
    (∀ j, j ∈ requestWindow n d → 0 ≤ j ≤ INT_MAX - 1) ∧
    n ∈ requestWindow n d ∧
    Z.of_nat count ≤ 2 * (Z.of_nat (length (weightPercents d)) / 2) + 1.
Proof.
  intros Hn Hk. pose proof (half_range n d Hn Hk) as Hh. simpl in Hh.
  pose proof (requestWindow_eq n d Hn Hk) as Heq. simpl in Heq.
  eexists _, _. split_and!.
  - unfold frameBlendGetFrame. by rewrite Heq.
  - exact Heq.
  - rewrite Heq. apply NoDup_fmap_2; [|apply NoDup_seq].
    intros x y Hxy. lia.
  - intros j Hj. apply (requestWindow_elem n d Hn Hk) in Hj.
    unfold INT_MAX in *. lia.
  - apply (requestWindow_elem n d Hn Hk). unfold INT_MAX in *. lia.
  - unfold INT_MAX in *. lia.
Qed.

Lemma request_phase_witness :
  ∃ first count,
    frameBlendGetFrame 1 arInitial (sampleData [true; true; true]) sampleHost =
      Ret (None, requestFrames ((fun i => first + Z.of_nat i) <$> seq 0 count)
                   sampleHost) ∧
    requestWindow 1 (sampleData [true; true; true]) =
      (fun i => first + Z.of_nat i) <$> seq 0 count ∧
    NoDup (requestWindow 1 (sampleData [true; true; true])) ∧
    (∀ j, j ∈ requestWindow 1 (sampleData [true; true; true]) →
       0 ≤ j ≤ INT_MAX - 1) ∧
    1 ∈ requestWindow 1 (sampleData [true; true; true]) ∧
    Z.of_nat count ≤
      2 * (Z.of_nat (length (weightPercents (sampleData [true; true; true]))) / 2) + 1.
Proof.
  apply (request_phase 1 (sampleData [true; true; true]) sampleHost).
  - unfold INT_MAX. lia.
  - simpl. unfold INT_MAX. lia.
Defined.

(** X3. The center frame, from which the output takes its format and its
    unselected planes, is source frame n itself. *)
Theorem center_is_requested_frame (n : Z) (d : FrameBlendData) :
  0 ≤ n < INT_MAX →
  Z.of_nat (length (weightPercents d)) ≤ INT_MAX →
  (0 < length (weightPercents d))%nat →
  let frames := node_frame (node d) <$> fetchWindow n d in
  frames !! (length frames / 2)%nat = Some (node_frame (node d) n).
Proof.
  intros Hn Hk Hpos frames. subst frames.
  pose proof (half_range n d Hn Hk) as Hh. simpl in Hh.
  rewrite length_fmap. unfold fetchWindow at 1. rewrite fetchIndices_length.
  rewrite list_lookup_fmap, (fetchWindow_eq n d Hn Hk), list_lookup_fmap.
  set (k := length (weightPercents d)) in *.
  assert (k / 2 < k)%nat as Hlt by (apply Nat.div_lt; lia).
  rewrite (lookup_seq_lt _ _ _ Hlt). cbn [fmap option_fmap option_map].
  rewrite Nat.add_0_l, Nat2Z.inj_div. change (Z.of_nat 2) with 2.
  do 2 f_equal. unfold INT_MAX in *. lia.
Qed.

Lemma center_is_requested_frame_witness :
  (node_frame sampleNode <$> fetchWindow 0 (sampleData [true; true; true]))
    !! 1%nat = Some (sampleFrame 0).
Proof.
  apply (center_is_requested_frame 0 (sampleData [true; true; true])).
  - unfold INT_MAX. lia.
  - simpl. unfold INT_MAX. lia.
  - simpl. lia.
Defined.

(** ** What a request leaves in the host *)

Ltac run_in H := cbn [of_option mbind outcome_bind fst snd] in H.

(** The plane loop never requests frames. *)
Lemma planeLoop_early (count plane : nat) (d : FrameBlendData) (fi : VSFormat)
    (frames : list VSFrameRef) (dst : VSFrameRef) (h h' : host) (b : bool) :
  planeLoop count plane d fi frames dst h = Ret (b, h') →
  requested h' = requested h.
Proof.
  revert plane h. induction count as [|count IH]; intros plane h Hloop.
  - simpl in Hloop. by injection Hloop as <- <-.
  - simpl in Hloop.
    destruct (process d !! plane) as [sel|] eqn:Hsel; [|done].
    run_in Hloop.
    destruct sel; [|by apply (IH _ _ Hloop)].
    destruct (bytesPerSample fi =? 1) eqn:E1.
    { apply bind_Ret_inv in Hloop as (σ' & _ & Hloop). by apply IH in Hloop. }
    destruct (bytesPerSample fi =? 2) eqn:E2.
    { apply bind_Ret_inv in Hloop as (σ' & _ & Hloop). by apply IH in Hloop. }
    done.
Qed.

(** X4. A request in the fetch phase that returns, returns a frame: it has
    released all the source frames it fetched, in window order, has logged
    nothing and has requested no frame. It never returns the failure signal
    of the unsupported-width branch: the fatal message logged there ends
    the process before [return nullptr]. *)
Theorem request_outcomes (n : Z) (d : FrameBlendData) (h h' : host)
    (r : option VSFrameRef) :
  let frames := node_frame (node d) <$> fetchWindow n d in
  frameBlendGetFrame n arAllFramesReady d h = Ret (r, h') →
  requested h' = requested h ∧
  ∃ dst, r = Some dst ∧
         released h' = released h ++ frames ∧ messages h' = messages h.
Proof.
  intros frames Hrun. unfold frameBlendGetFrame in Hrun. fold frames in Hrun.
  apply bind_Ret_inv in Hrun as (c & Hc & Hrun).
  apply bind_Ret_inv in Hrun as ([dst σ1] & Hnew & Hrun).
  apply bind_Ret_inv in Hrun as ([b h1] & Hloop & Hrun).
  destruct (planeLoop_log _ _ _ _ _ _ _ _ _ Hloop) as (Hrel & Hmsg & ->).
  pose proof (planeLoop_early _ _ _ _ _ _ _ _ _ Hloop) as Hreq.
  simpl in Hrun, Hrel, Hmsg, Hreq.
  injection Hrun as <- <-; simpl.
  split; [done|]. exists dst. by rewrite Hrel, Hmsg.
Qed.

Lemma request_outcomes_witness :
  ∃ dst h',
    frameBlendGetFrame 1 arAllFramesReady (sampleData [true; false; false])
      sampleHost = Ret (Some dst, h') ∧
    requested h' = [] ∧
    released h' = [sampleFrame 0; sampleFrame 3; sampleFrame 6] ∧
    messages h' = [].
Proof.
  eexists _, _. split; [vm_compute; reflexivity|].
  destruct (request_outcomes 1 (sampleData [true; false; false]) sampleHost
              _ _ ltac:(vm_compute; reflexivity))
    as (Hreq & dst & _ & Hrel & Hmsg).
  split; [exact Hreq|]. split; [exact Hrel|exact Hmsg].
Defined.

(** X5. A request never changes a buffer that was in the store before it:
    source planes are only read, and every blended plane is written into a
    buffer allocated by the request. *)
Theorem request_preserves_buffers (n : Z) (ar : VSActivationReason)
    (d : FrameBlendData) (h h' : host) (r : option VSFrameRef) (i : nat) :
  frameBlendGetFrame n ar d h = Ret (r, h') →
  (i < length (buffers h))%nat →
  buffers h' !! i = buffers h !! i.
Proof.
  intros Hrun Hi. unfold frameBlendGetFrame in Hrun.
  destruct ar; try (by injection Hrun as <- <-).
  apply bind_Ret_inv in Hrun as (c & Hc & Hrun).
  apply bind_Ret_inv in Hrun as ([dst σ1] & Hnew & Hrun).
  apply bind_Ret_inv in Hrun as ([b h1] & Hloop & Hrun).
  unfold newVideoFrame2 in Hnew.
  apply bind_Ret_inv in Hnew as ([planes σ2] & Hnew & [= <- <-]).
  destruct (newPlanes_spec _ _ _ _ _ _ _ _ Hnew) as ((ext & ->) & Hlen & Hplanes).
  destruct (planeLoop_frame (length (buffers h)) _ _ _ _ _ _ _ _ _ Hloop)
    as (Hbuf & _).
  { intros q pr' Hq Hpr'. simpl in Hpr'.
    assert (q < Z.to_nat (numPlanes (f_format c)))%nat as Hlt.
    { apply lookup_lt_Some in Hpr'. lia. }
    specialize (Hplanes q Hlt). rewrite reuse_map_lookup in Hplanes.
    case_decide; [|done].
    rewrite (list_lookup_total_correct _ _ _ Hq) in Hplanes.
    destruct Hplanes as (pr2 & Hpr2 & Hge). congruence. }
  simpl in Hbuf, Hrun.
  assert (buffers h1 !! i = buffers h !! i) as Hsame.
  { rewrite Hbuf by done. by apply lookup_app_l. }
  by destruct b; injection Hrun as <- <-.
Qed.

Lemma request_preserves_buffers_witness :
  ∃ dst h',
    frameBlendGetFrame 1 arAllFramesReady (sampleData [true; false; false])
      sampleHost = Ret (Some dst, h') ∧
    buffers h' !! 3%nat = buffers sampleHost !! 3%nat.
Proof.
  eexists _, _. split; [vm_compute; reflexivity|].
  eapply (request_preserves_buffers 1 arAllFramesReady
            (sampleData [true; false; false]) sampleHost _ _ 3%nat).
  - vm_compute. reflexivity.
  - vm_compute. lia.
Defined.

(** X6. The frame a request returns has the format of the center frame and
    as many planes as that format says, and each of its planes has the
    stride, width and height of the same plane of the center frame. *)
Theorem output_layout (n : Z) (d : FrameBlendData) (h h' : host)
    (dst c : VSFrameRef) :
  let frames := node_frame (node d) <$> fetchWindow n d in
  frameBlendGetFrame n arAllFramesReady d h = Ret (Some dst, h') →
  frames !! (length frames / 2)%nat = Some c →
  f_format dst = f_format c ∧
  length (f_planes dst) = Z.to_nat (numPlanes (f_format c)) ∧
  ∀ q pr, f_planes dst !! q = Some pr →
    ∃ g, f_planes c !! q = Some g ∧ pl_stride pr = pl_stride g ∧
         pl_width pr = pl_width g ∧ pl_height pr = pl_height g.
Proof.
  intros frames Hrun Hcenter. unfold frameBlendGetFrame in Hrun.
  fold frames in Hrun. rewrite Hcenter in Hrun.
  apply bind_Ret_inv in Hrun as (c' & [= <-] & Hrun).
  apply bind_Ret_inv in Hrun as ([dst' σ1] & Hnew & Hrun).
  apply bind_Ret_inv in Hrun as ([b h1] & Hloop & Hrun).
  unfold newVideoFrame2 in Hnew.
  apply bind_Ret_inv in Hnew as ([planes σ2] & Hnew & [= <- <-]).
  simpl in Hrun. destruct b; [|done]. injection Hrun as <- <-.
  destruct (newPlanes_spec _ _ _ _ _ _ _ _ Hnew) as (_ & Hlen & Hplanes).
  pose proof (newPlanes_fresh _ _ _ _ _ _ _ _ Hnew) as Hfresh.
  simpl. split_and!; [done..|].
  intros q pr Hpr.
  assert (q < Z.to_nat (numPlanes (f_format c)))%nat as Hlt.
  { apply lookup_lt_Some in Hpr. lia. }
  specialize (Hplanes q Hlt). specialize (Hfresh q Hlt).
  rewrite reuse_map_lookup in Hplanes, Hfresh.
  case_decide; [|done]. destruct (process d !!! (0 + q)%nat).
  - destruct (Hfresh eq_refl) as (pr' & g & Hpr' & Hg & Hs & Hw & Hh & _).
    simpl in Hg. exists g. assert (pr = pr') as -> by congruence. done.
  - destruct Hplanes as (q' & pr' & Hq' & Hpr' & Hpl).
    rewrite plane_map_lookup in Hq' by done. simpl in Hq'.
    injection Hq' as <-. exists pr'. split; [done|]. by assert (pr = pr') as -> by congruence.
Qed.

Lemma output_layout_witness :
  ∃ dst h',
    frameBlendGetFrame 1 arAllFramesReady (sampleData [true; false; false])
      sampleHost = Ret (Some dst, h') ∧
    f_format dst = sampleFormat ∧ length (f_planes dst) = 3%nat.
Proof.
  eexists _, _. split; [vm_compute; reflexivity|].
  destruct (output_layout 1 (sampleData [true; false; false]) sampleHost _ _
              (sampleFrame 3) ltac:(vm_compute; reflexivity) eq_refl)
    as (Hfmt & Hlen & _).
  split; [exact Hfmt|exact Hlen].
Defined.

(** ** Padding *)

Lemma inPicture_row (stride : Z) (W H r j : nat) :
  Z.of_nat W ≤ stride → (r < H)%nat →
  ¬ inPicture stride W H j →
  (j < pos stride r 0 ∨ pos stride r W ≤ j)%nat.
Proof.
  intros Hs Hr Hout.
  destruct (decide (j < pos stride r 0 ∨ pos stride r W ≤ j)%nat) as [|Hin];
    [done|].
  exfalso. apply Hout. exists r, (j - pos stride r 0)%nat.
  unfold pos in *. split_and!; [done|nia|nia].
Qed.

(** The rows loop leaves every position outside the picture as it was. *)
Lemma blendRows_padding (σ : store) (plane : nat) (srcs : list VSFrameRef)
    (bufs : list (list Z)) (ws : list spec_float) (T : SampleT)
    (mv stride : Z) (W H : nat) (arr : list (option ptr)) (D : list Z) :
  Forall2 (fun f buf => getReadPtr σ f plane = Ret {| p_buf := buf; p_off := 0 |})
    srcs bufs →
  length srcs = length ws →
  (length ws ≤ srcpp_capacity)%nat →
  Z.of_nat W ≤ stride →
  Forall (fun buf : list Z => Z.of_nat H * stride ≤ Z.of_nat (length buf)) bufs →
  (∀ r c, (r < H)%nat → (c < W)%nat →
     is_Some (pixelOf T mv bufs ws (pos stride r c))) →
  srcpp_at arr bufs (fun _ => 0) →
  Z.of_nat H * stride ≤ Z.of_nat (length D) →
  ∃ st, for_loop H 0 (fun _ => blendRow T ws mv stride W) (arr, D, 0) = Ret st ∧
        ∀ j, ¬ inPicture stride W H j → st.1.2 !! j = D !! j.
Proof.
  intros Hsrcs Hlen Hcap Hstride Hbufs Hdef Harr HD.
  destruct (for_loop_total
    (fun r (st : list (option ptr) * list Z * Z) =>
       srcpp_at st.1.1 bufs (fun _ => Z.of_nat r * stride) ∧
       st.2 = Z.of_nat r * stride ∧
       length st.1.2 = length D ∧
       ∀ j, ¬ inPicture stride W H j → st.1.2 !! j = D !! j)
    H 0 (fun _ => blendRow T ws mv stride W) (arr, D, 0))
    as (st & Hrun & _ & _ & _ & Hpad).
  - simpl. split_and!; done.
  - intros r [[arr1 D1] dstp1] Hr (Hat & Hd & Hl1 & Hpad1). simpl in *.
    subst dstp1.
    destruct (blendRow_ok σ plane srcs bufs ws T mv stride W H Hsrcs Hlen Hcap
                Hstride Hbufs Hdef r arr1 D1 ltac:(lia) Hat ltac:(lia))
      as (arr2 & D2 & Hrow & Hat2 & Hl2 & Hnew & Hold).
    exists (arr2, D2, Z.of_nat (S r) * stride). simpl.
    split_and!; [done|done|done|lia|].
    intros j Hj. rewrite Hold; [by apply Hpad1|].
    apply (inPicture_row stride W H); [done|lia|done].
  - exists st. split; [done|]. exact Hpad.
Qed.

(** X7. A blend at a stored bit depth from 0 to 31 (where the shift of
    [maxVal] is defined), on frames laid out as the host lays them out, with
    at most 128 weights and every conversion to [int] defined, writes only
    inside the picture: the samples of the destination buffer between the
    width and the stride of a row, and after the last row, keep the contents
    they had, and no other buffer of the store changes. *)
Theorem frameBlend_keeps_padding (T : SampleT) (d : FrameBlendData)
    (srcs : list VSFrameRef) (dst : VSFrameRef) (plane : nat) (σ : store)
    (dpl : PlaneRef) (fmt : VSFormat) (bufs : list (list Z))
    (dstbuf : list Z) :
  let ws := weightPercents d in
  let stride := Z.quot (pl_stride dpl) (sizeof T) in
  let W := Z.to_nat (pl_width dpl) in
  let H := Z.to_nat (pl_height dpl) in
  f_planes dst !! plane = Some dpl →
  σ !! pl_buf dpl = Some dstbuf →
  format (vi d) = Some fmt →
  0 ≤ bitsPerSample fmt < 32 →
  Forall2 (fun f buf => planeData σ plane f = Some buf) srcs bufs →
  length srcs = length ws →
  (length ws ≤ srcpp_capacity)%nat →
  Z.of_nat W ≤ stride →
  Z.of_nat H * stride ≤ Z.of_nat (length dstbuf) →
  Forall (fun buf : list Z => Z.of_nat H * stride ≤ Z.of_nat (length buf)) bufs →
  (∀ r c, (r < H)%nat → (c < W)%nat →
     is_Some (pixelOf T (maxVal fmt) bufs ws (pos stride r c))) →
  ∃ σ' out, frameBlend T d srcs dst plane σ = Ret σ' ∧
    σ' !! pl_buf dpl = Some out ∧
    (∀ j, ¬ inPicture stride W H j → out !! j = dstbuf !! j) ∧
    (∀ i, i ≠ pl_buf dpl → σ' !! i = σ !! i).
Proof.
  intros ws stride W H Hdpl Hdst Hfmt Hshl Hsrcs Hlen Hcap Hstride HD Hbufs
    Hdef.
  assert (Forall2 (fun f buf =>
            getReadPtr σ f plane = Ret {| p_buf := buf; p_off := 0 |})
            srcs bufs) as Hptrs.
  { eapply Forall2_impl; [exact Hsrcs|]. intros f buf.
    apply getReadPtr_planeData. }
  unfold frameBlend. rewrite Hdpl. run.
  destruct (fill_ok σ plane srcs bufs ws Hptrs Hlen Hcap) as (arr & Hfill & Hat).
  fold ws. rewrite Hfill. run. rewrite Hdst. run. rewrite Hfmt. run.
  rewrite (shl_defined_true _ Hshl). run.
  destruct (blendRows_padding σ plane srcs bufs ws T (maxVal fmt) stride W H
              arr dstbuf Hptrs Hlen Hcap Hstride Hbufs Hdef Hat HD)
    as (st & Hrun & Hpad).
  fold stride W H. rewrite Hrun. run.
  eexists _, _. split; [reflexivity|]. split_and!.
  - apply list_lookup_insert_eq. by apply lookup_lt_Some in Hdst.
  - exact Hpad.
  - intros i Hi. by apply list_lookup_insert_ne.
Qed.

Lemma frameBlend_keeps_padding_witness :
  ∃ σ' out, frameBlend U8 (sampleData [true; true; true])
              [sampleFrame 0; sampleFrame 3; sampleFrame 6] sampleDst 0
              sampleStore' = Ret σ' ∧
    σ' !! 9%nat = Some out ∧ out !! 3%nat = Some 0.
Proof.
  destruct (frameBlend_keeps_padding U8 (sampleData [true; true; true])
              [sampleFrame 0; sampleFrame 3; sampleFrame 6] sampleDst 0%nat
              sampleStore'
              {| pl_buf := 9; pl_stride := 4; pl_width := 3; pl_height := 2 |}
              sampleFormat [replicate 8 10; replicate 8 20; replicate 8 30]
              (replicate 8 0))
    as (σ' & out & Hrun & Hout & Hpad & _).
  - reflexivity.
  - reflexivity.
  - reflexivity.
  - simpl. lia.
  - repeat constructor.
  - reflexivity.
  - vm_compute. lia.
  - vm_compute. discriminate.
  - vm_compute. discriminate.
  - repeat constructor; vm_compute; discriminate.
  - intros r c Hr Hc.
    destruct r as [|[|r]]; [| |simpl in Hr; lia];
      (destruct c as [|[|[|c]]]; [| | |simpl in Hc; lia]);
      vm_compute; eauto.
  - exists σ', out. split; [exact Hrun|]. split; [exact Hout|].
    rewrite (Hpad 3%nat); [reflexivity|].
    intros (r & c & Hr & Hc & Hj). unfold pos in Hj. simpl in Hr, Hc.
    change (pl_stride _ `quot` sizeof U8) with 4 in Hj. lia.
Defined.

(** ** A whole request *)

(** The plane loop writes only the buffers of the selected planes of the
    destination that it runs over. *)
Lemma planeLoop_only_writes (count plane : nat) (d : FrameBlendData)
    (fi : VSFormat) (frames : list VSFrameRef) (dst : VSFrameRef)
    (h h' : host) (b : bool) (i : nat) :
  planeLoop count plane d fi frames dst h = Ret (b, h') →
  (∀ q pr, (plane ≤ q < plane + count)%nat → process d !! q = Some true →
     f_planes dst !! q = Some pr → i ≠ pl_buf pr) →
  buffers h' !! i = buffers h !! i.
Proof.
  revert plane h. induction count as [|count IH]; intros plane h Hloop Hother.
  - simpl in Hloop. by injection Hloop as <- <-.
  - simpl in Hloop.
    destruct (process d !! plane) as [sel|] eqn:Hsel; [|done].
    run_in Hloop.
    assert (∀ h1, planeLoop count (S plane) d fi frames dst h1 = Ret (b, h') →
              buffers h' !! i = buffers h1 !! i) as Hnext.
    { intros h1 Hl. apply (IH _ _ Hl). intros q pr Hq. apply Hother. lia. }
    destruct sel; [|by apply Hnext].
    assert (∀ T σ1, frameBlend T d frames dst plane (buffers h) = Ret σ1 →
              σ1 !! i = buffers h !! i) as Hblend.
    { intros T σ1 Hb.
      destruct (frameBlend_effect _ _ _ _ _ _ _ Hb) as (dpl & out & Hdpl & ->).
      apply list_lookup_insert_ne. intros Heq.
      by apply (Hother plane dpl ltac:(lia) Hsel Hdpl). }
    destruct (bytesPerSample fi =? 1).
    { apply bind_Ret_inv in Hloop as (σ' & Hb & Hloop).
      rewrite (Hnext _ Hloop). simpl. by apply (Hblend U8). }
    destruct (bytesPerSample fi =? 2).
    { apply bind_Ret_inv in Hloop as (σ' & Hb & Hloop).
      rewrite (Hnext _ Hloop). simpl. by apply (Hblend U16). }
    done.
Qed.

(** The plane loop, on ready planes, ends with every selected plane of the
    destination holding the blend of the source planes. *)
Lemma planeLoop_blends (T : SampleT) (fmt : VSFormat) (d : FrameBlendData)
    (fi : VSFormat) (frames : list VSFrameRef) (c dst : VSFrameRef)
    (σ0 : store) (count plane : nat) (h : host) :
  format (vi d) = Some fmt →
  dispatch fi = Some T →
  length frames = length (weightPercents d) →
  (length (weightPercents d) ≤ srcpp_capacity)%nat →
  (plane + count ≤ length (process d))%nat →
  (∀ i, (i < length σ0)%nat → buffers h !! i = σ0 !! i) →
  (∀ q, (plane ≤ q < plane + count)%nat → process d !! q = Some true →
     planeReady T fmt (weightPercents d) frames c σ0 q ∧
     ∃ pr, f_planes dst !! q = Some pr ∧ (length σ0 ≤ pl_buf pr)%nat ∧
       (∀ g, f_planes c !! q = Some g →
          pl_stride pr = pl_stride g ∧ pl_width pr = pl_width g ∧
          pl_height pr = pl_height g ∧
          ∀ old, σ0 !! pl_buf g = Some old →
            buffers h !! pl_buf pr = Some (replicate (length old) 0)) ∧
       (∀ q' pr', (q < q' < plane + count)%nat →
          process d !! q' = Some true → f_planes dst !! q' = Some pr' →
          (pl_buf pr < pl_buf pr')%nat)) →
  ∃ h', planeLoop count plane d fi frames dst h = Ret (true, h') ∧
    ∀ q pr, (plane ≤ q < plane + count)%nat → process d !! q = Some true →
      f_planes dst !! q = Some pr →
      ∃ bufs out,
        Forall2 (fun f buf => planeData σ0 q f = Some buf) frames bufs ∧
        buffers h' !! pl_buf pr = Some out ∧
        ∀ r col, (r < Z.to_nat (pl_height pr))%nat →
          (col < Z.to_nat (pl_width pr))%nat →
          out !! pos (Z.quot (pl_stride pr) (sizeof T)) r col =
          pixelOf T (maxVal fmt) bufs (weightPercents d)
            (pos (Z.quot (pl_stride pr) (sizeof T)) r col).
Proof.
  intros Hfmt Hdisp Hlen Hcap. revert plane h.
  induction count as [|count IH]; intros plane h Hproc Hagree Hplanes.
  - simpl. eexists. split; [done|]. intros; lia.
  - destruct (lookup_lt_is_Some_2 (process d) plane ltac:(lia)) as [sel Hsel].
    destruct sel.
    + rewrite (planeLoop_selected T) by done.
      destruct (Hplanes plane ltac:(lia) Hsel)
        as ((g & old & bufs & Hshl & Hg & Hold & Hsrcs & Hst & HH & Hbufs
             & Hdef)
            & pr & Hpr & Hfresh & Hgeo & Hmono).
      destruct (Hgeo g Hg) as (Hs & Hw & Hh & Hzero).
      specialize (Hzero old Hold).
      destruct (frameBlend_correct T d frames dst plane (buffers h) pr fmt
                  bufs (replicate (length old) 0)) as (out & Hrun & _ & Hpix).
      { done. } { done. } { done. } { done. }
      { eapply Forall2_impl; [exact Hsrcs|]. intros f buf.
        by apply planeData_agree. }
      { done. } { done. }
      { by rewrite Hs, Hw. }
      { by rewrite length_replicate, Hs, Hh. }
      { by rewrite Hs, Hh. }
      { by rewrite Hs, Hw, Hh. }
      rewrite Hrun. run.
      destruct (IH (S plane)
                  (traceBlend plane T
                     (with_buffers (<[pl_buf pr := out]> (buffers h)) h)))
        as (h' & Hloop & Hpost); [lia| | |].
      * intros i Hi. simpl. rewrite list_lookup_insert_ne by lia.
        by apply Hagree.
      * intros q Hq Hselq.
        destruct (Hplanes q ltac:(lia) Hselq)
          as (Hready & prq & Hprq & Hfreshq & Hgeoq & Hmonoq).
        split; [done|]. exists prq. split_and!; [done|done| |].
        -- intros gq Hgq.
           destruct (Hgeoq gq Hgq) as (Hsq & Hwq & Hhq & Hzq).
           split_and!; [done..|]. intros oldq Holdq. simpl.
           rewrite list_lookup_insert_ne; [by apply Hzq|].
           pose proof (Hmono q prq ltac:(lia) Hselq Hprq). lia.
        -- intros q' pr' Hq'. apply Hmonoq. lia.
      * exists h'. split; [done|]. intros q prq Hq Hselq Hprq.
        destruct (decide (q = plane)) as [->|Hne];
          [|apply Hpost; [lia|done|done]].
        assert (prq = pr) as -> by congruence.
        exists bufs, out. split_and!; [done| |done].
        rewrite (planeLoop_only_writes _ _ _ _ _ _ _ _ _ (pl_buf pr) Hloop).
        -- simpl. apply list_lookup_insert_eq.
           by apply lookup_lt_Some in Hzero.
        -- intros q' pr' Hq' Hsel' Hpr'.
           pose proof (Hmono q' pr' ltac:(lia) Hsel' Hpr'). lia.
    + simpl. rewrite Hsel. run.
      destruct (IH (S plane) h) as (h' & Hloop & Hpost); [lia|done| |].
      * intros q Hq Hselq.
        destruct (Hplanes q ltac:(lia) Hselq)
          as (Hready & prq & Hprq & Hfreshq & Hgeoq & Hmonoq).
        split; [done|]. exists prq. split_and!; [done..|].
        intros q' pr' Hq'. apply Hmonoq. lia.
      * exists h'. split; [done|]. intros q prq Hq Hselq Hprq.
        destruct (decide (q = plane)) as [->|Hne]; [congruence|].
        apply Hpost; [lia|done|done].
Qed.

Lemma Forall2_fun_unique {A B : Type} (P : A → option B) (l : list A)
    (bs bs' : list B) :
  Forall2 (fun a b => P a = Some b) l bs →
  Forall2 (fun a b => P a = Some b) l bs' →
  bs = bs'.
Proof.
  intros H. revert bs'. induction H as [|a b l bs Hab _ IH]; intros bs' H'.
  - by inversion H'.
  - inversion H' as [|a' b' l' bs2 Hab' Hrest]; subst.
    f_equal; [congruence|by apply IH].
Qed.

Lemma pixelOf_defined (T : SampleT) (mv : Z) (bufs : list (list Z))
    (ws : list spec_float) (j : nat) :
  is_Some (pixelOf T mv bufs ws j) →
  is_Some (int_of_float (weightedSum (samplesAt bufs j) ws)).
Proof.
  unfold pixelOf, convertSample. intros [v Hv].
  destruct (int_of_float _) as [a|]; [eauto|done].
Qed.

(** X8. A request of a filter with at most 128 weights, on well-formed
    frames of 1 or 2 bytes per sample whose stored format has the bit depth
    of the delivered frames (at most 8 bits per byte), every selected plane
    being ready (all fetched frames have it in the store, its rows fit the
    stride and the buffers, and at every position of its picture the
    accumulated sum converts to [int]), returns a frame in which every
    sample inside the picture of every selected plane is the weighted sum
    of the samples of the fetched frames at that position, truncated and
    clamped to the bit depth. Without these conditions nothing is claimed:
    more than 128 weights or a sum outside [int] make the request
    undefined. *)
Theorem request_blends (n : Z) (d : FrameBlendData) (h : host)
    (c : VSFrameRef) (fmt : VSFormat) (T : SampleT) :
  let frames := node_frame (node d) <$> fetchWindow n d in
  let ws := weightPercents d in
  let fi := f_format c in
  frames !! (length frames / 2)%nat = Some c →
  length (process d) = 3%nat →
  wellFormedFrame (buffers h) c →
  format (vi d) = Some fmt →
  dispatch fi = Some T →
  bitsPerSample fmt = bitsPerSample fi →
  0 ≤ bitsPerSample fi ≤ 8 * bytesPerSample fi →
  (length ws ≤ srcpp_capacity)%nat →
  (∀ q, Z.of_nat q < numPlanes fi → process d !! q = Some true →
     planeReady T fmt ws frames c (buffers h) q) →
  ∃ dst h',
    frameBlendGetFrame n arAllFramesReady d h = Ret (Some dst, h') ∧
    ∀ q, Z.of_nat q < numPlanes fi → process d !! q = Some true →
      ∃ pr bufs out,
        f_planes dst !! q = Some pr ∧
        Forall2 (fun f buf => planeData (buffers h) q f = Some buf) frames bufs ∧
        buffers h' !! pl_buf pr = Some out ∧
        ∀ r col, (r < Z.to_nat (pl_height pr))%nat →
          (col < Z.to_nat (pl_width pr))%nat →
          out !! pos (Z.quot (pl_stride pr) (sizeof T)) r col =
          blendSample (bitsPerSample fi)
            (samplesAt bufs (pos (Z.quot (pl_stride pr) (sizeof T)) r col)) ws.
Proof.
  intros frames ws fi Hcenter Hproc (H3 & Hlen & Halloc) Hfmt Hdisp Hbits
    Hrange Hcap Hready.
  unfold frameBlendGetFrame. fold frames. rewrite Hcenter.
  unfold newVideoFrame2.
  set (np := Z.to_nat (numPlanes (f_format c))).
  destruct (newPlanes_total d c np 0 (buffers h)) as (planes & σ1 & Hnew);
    [lia|lia|done|].
  run. fold np. rewrite Hnew. run.
  destruct (newPlanes_spec _ _ _ _ _ _ _ _ Hnew) as ((ext & ->) & Hpl & _).
  pose proof (newPlanes_fresh _ _ _ _ _ _ _ _ Hnew) as Hfresh.
  assert (∀ q, process d !! q = Some true → (q < np)%nat →
            ((fun p => if (process d !!! p : bool) then None else Some c)
               <$> [0; 1; 2]%nat) !! (0 + q)%nat = Some None) as Hnone.
  { intros q Hq Hlt. rewrite reuse_map_lookup, decide_True by (simpl; lia).
    simpl. by rewrite (list_lookup_total_correct _ _ _ Hq). }
  destruct (planeLoop_blends T fmt d (f_format c) frames c
              {| f_format := f_format c; f_planes := planes |}
              (buffers h) np 0
              (with_buffers (buffers h ++ ext) h))
    as (h1 & Hloop & Hpost); try done.
  { unfold frames, fetchWindow.
    by rewrite length_fmap, fetchIndices_length. }
  { lia. }
  { intros i Hi. simpl. by apply lookup_app_l. }
  { intros q Hq Hsel. split; [apply Hready; [unfold fi; lia|done]|].
    destruct (Hfresh q ltac:(lia) (Hnone q Hsel ltac:(lia)))
      as (pr & g & Hpr & Hg & Hs & Hw & Hh & Hge & Hcontent & Hmono).
    exists pr. simpl. split_and!; [done|done| |].
    - intros g' Hg'. simpl in Hg. assert (g' = g) as -> by congruence.
      repeat (split; [assumption|]). exact Hcontent.
    - intros q' pr' Hq' Hsel' Hpr'.
      apply (Hmono q' pr'); [lia|by apply Hnone; [|lia]|done]. }
  simpl. rewrite Hloop. run. simpl. eexists _, _. split; [reflexivity|].
  intros q Hq Hsel. simpl.
  assert (q < np)%nat as Hqn by (unfold np, fi in *; lia).
  destruct (Hfresh q Hqn (Hnone q Hsel Hqn))
    as (pr & g & Hpr & Hg & Hs & Hw & Hh & _).
  simpl in Hg.
  destruct (Hpost q pr ltac:(lia) Hsel Hpr)
    as (bufs & out & Hbufs & Hout & Hpix).
  destruct (Hready q Hq Hsel)
    as (g' & old & bufs' & _ & Hg' & _ & Hbufs' & _ & _ & _ & Hdef).
  assert (g' = g) as -> by congruence.
  assert (bufs' = bufs) as -> by (by eapply Forall2_fun_unique).
  exists pr, bufs, out. split_and!; [done..|].
  intros r col Hr Hcol. rewrite Hpix by done.
  unfold pixelOf, blendSample.
  apply dispatch_sizeof in Hdisp.
  rewrite (convertSample_clamp T fmt); [by rewrite Hbits|unfold fi in *; lia|].
  apply (pixelOf_defined T (maxVal fmt)).
  rewrite Hs. apply Hdef; lia.
Qed.

Lemma request_blends_witness :
  ∃ dst h',
    frameBlendGetFrame 1 arAllFramesReady (sampleData [true; false; false])
      sampleHost = Ret (Some dst, h') ∧
    ∃ pr bufs out,
      f_planes dst !! 0%nat = Some pr ∧
      Forall2 (fun f buf => planeData (buffers sampleHost) 0 f = Some buf)
        (node_frame sampleNode <$>
           fetchWindow 1 (sampleData [true; false; false])) bufs ∧
      buffers h' !! pl_buf pr = Some out ∧
      ∀ r col, (r < Z.to_nat (pl_height pr))%nat →
        (col < Z.to_nat (pl_width pr))%nat →
        out !! pos (Z.quot (pl_stride pr) (sizeof U8)) r col =
        blendSample 8
          (samplesAt bufs (pos (Z.quot (pl_stride pr) (sizeof U8)) r col))
          (weightPercents (sampleData [true; false; false])).
Proof.
  destruct (request_blends 1 (sampleData [true; false; false]) sampleHost
              (sampleFrame 3) sampleFormat U8) as (dst & h' & Hrun & Hpost).
  - reflexivity.
  - reflexivity.
  - split; [vm_compute; discriminate|]. split; [reflexivity|].
    repeat constructor.
  - reflexivity.
  - reflexivity.
  - reflexivity.
  - vm_compute. split; discriminate.
  - vm_compute. lia.
  - intros q Hq Hsel.
    destruct q as [|[|[|q]]]; [|discriminate Hsel..].
    exists {| pl_buf := 3; pl_stride := 4; pl_width := 3; pl_height := 2 |},
      (replicate 8 20), [replicate 8 10; replicate 8 20; replicate 8 30].
    split; [simpl; lia|].
    split; [reflexivity|]. split; [reflexivity|].
    split; [repeat constructor|].
    split; [vm_compute; discriminate|].
    split; [vm_compute; discriminate|].
    split; [repeat constructor; vm_compute; discriminate|].
    intros r c0 Hr Hc.
    destruct r as [|[|r]]; [| |simpl in Hr; lia];
      (destruct c0 as [|[|[|c0]]]; [| | |simpl in Hc; lia]);
      vm_compute; eauto.
  - exists dst, h'. split; [exact Hrun|].
    apply (Hpost 0%nat); [vm_compute; reflexivity|reflexivity].
Defined.

(** ** A unit weight *)

Lemma unitPreserves_16 : allBelow 16 0 unitPreserves = true.
Proof. vm_compute. reflexivity. Qed.

(** A sample of at most 16 bits times [1.0f], added to zero and converted
    back, is the sample. *)
Lemma unit_weight_sample (v : Z) :
  0 ≤ v < 2 ^ 16 →
  int_of_float (weightedSum [v] [f32_one]) = Some v.
Proof.
  intros Hv.
  pose proof (allBelow_spec 16 0 unitPreserves v unitPreserves_16) as Hp.
  change (Z.of_nat 16) with 16 in Hp. specialize (Hp ltac:(lia)).
  unfold unitPreserves in Hp. unfold weightedSum. simpl.
  destruct (int_of_float _) as [a|]; [|done].
  apply Z.eqb_eq in Hp. by subst.
Qed.

(** X9. With the single weight 1.0 the blend is the identity: every sample
    inside the picture of the destination is the sample of the one source
    frame at that position (samples within the bit depth, of at most 16
    bits). *)
Theorem unit_weight_identity (T : SampleT) (d : FrameBlendData)
    (f dst : VSFrameRef) (plane : nat) (σ : store) (dpl : PlaneRef)
    (fmt : VSFormat) (buf dstbuf : list Z) :
  let stride := Z.quot (pl_stride dpl) (sizeof T) in
  let W := Z.to_nat (pl_width dpl) in
  let H := Z.to_nat (pl_height dpl) in
  weightPercents d = [f32_one] →
  f_planes dst !! plane = Some dpl →
  σ !! pl_buf dpl = Some dstbuf →
  format (vi d) = Some fmt →
  0 ≤ bitsPerSample fmt ≤ 8 * sizeof T →
  planeData σ plane f = Some buf →
  Forall (fun v => 0 ≤ v < 2 ^ bitsPerSample fmt) buf →
  Z.of_nat W ≤ stride →
  Z.of_nat H * stride ≤ Z.of_nat (length dstbuf) →
  Z.of_nat H * stride ≤ Z.of_nat (length buf) →
  ∃ out, frameBlend T d [f] dst plane σ = Ret (<[pl_buf dpl := out]> σ) ∧
    ∀ r c, (r < H)%nat → (c < W)%nat →
      out !! pos stride r c = buf !! pos stride r c.
Proof.
  intros stride W H Hws Hdpl Hdst Hfmt Hbits Hbuf Hrange Hstride HD HB.
  assert (8 * sizeof T ≤ 16) as HT by (destruct T; simpl; lia).
  assert (∀ r c, (r < H)%nat → (c < W)%nat →
            pixelOf T (maxVal fmt) [buf] [f32_one] (pos stride r c) =
            buf !! pos stride r c) as Hpx.
  { intros r c Hr Hc.
    assert (pos stride r c < length buf)%nat as Hlt by (unfold pos; nia).
    destruct (lookup_lt_is_Some_2 buf _ Hlt) as [v Hv].
    pose proof (Forall_lookup_1 _ _ _ _ Hrange Hv) as Hvr. simpl in Hvr.
    assert (2 ^ bitsPerSample fmt ≤ 2 ^ 16) as Hp
      by (apply Z.pow_le_mono_r; lia).
    unfold pixelOf, samplesAt. simpl.
    rewrite (list_lookup_total_correct _ _ _ Hv), Hv.
    pose proof (unit_weight_sample v ltac:(lia)) as Hint.
    rewrite (convertSample_clamp T fmt _ Hbits) by (rewrite Hint; eauto).
    rewrite (int_of_float_trunc _ _ Hint). simpl. f_equal.
    unfold clamp. repeat case_match; lia. }
  destruct (frameBlend_correct T d [f] dst plane σ dpl fmt [buf] dstbuf)
    as (out & Hrun & _ & Hout); try done.
  { lia. }
  { by repeat constructor. }
  { by rewrite Hws. }
  { rewrite Hws. simpl. unfold srcpp_capacity. lia. }
  { by repeat constructor. }
  { intros r c Hr Hc. rewrite Hws, Hpx by done.
    apply lookup_lt_is_Some_2. unfold pos. fold stride W H in HB. nia. }
  exists out. split; [done|]. intros r c Hr Hc.
  rewrite Hout by done. rewrite Hws. by apply Hpx.
Qed.

Lemma unit_weight_identity_witness :
  ∃ out, frameBlend U8 unitData [sampleFrame 3] sampleDst 0 sampleStore'
         = Ret (<[9%nat := out]> sampleStore') ∧
    out !! 0%nat = Some 20.
Proof.
  destruct (unit_weight_identity U8 unitData (sampleFrame 3) sampleDst 0%nat
              sampleStore'
              {| pl_buf := 9; pl_stride := 4; pl_width := 3; pl_height := 2 |}
              sampleFormat (replicate 8 20) (replicate 8 0))
    as (out & Hrun & Hout).
  - reflexivity.
  - reflexivity.
  - reflexivity.
  - reflexivity.
  - vm_compute. split; discriminate.
  - reflexivity.
  - repeat constructor; vm_compute; done.
  - vm_compute. discriminate.
  - vm_compute. discriminate.
  - vm_compute. discriminate.
  - exists out. split; [exact Hrun|].
    exact (Hout 0%nat 0%nat ltac:(simpl; lia) ltac:(simpl; lia)).
Defined.

(** ** Degenerate weights *)

Lemma for_loop_S {S : Type} (n i0 : nat) (body : nat → S → outcome S) (s : S) :
  for_loop (Datatypes.S n) i0 body s =
  s' ← body i0 s ; for_loop n (Datatypes.S i0) body s'.
Proof. reflexivity. Qed.

Lemma blendRow_eq (T : SampleT) (ws : list spec_float) (mv stride : Z)
    (W : nat) (arr : list (option ptr)) (D : list Z) (dstp : Z) :
  blendRow T ws mv stride W (arr, D, dstp) =
  D' ← for_loop W 0 (blendPixel T ws mv arr dstp) D ;
  arr' ← advance (length ws) stride arr ;
  Ret (arr', D', dstp + stride).
Proof. reflexivity. Qed.

Lemma blendPixel_eq (T : SampleT) (ws : list spec_float) (mv : Z)
    (arr : list (option ptr)) (dstp : Z) (w : nat) (D : list Z) :
  blendPixel T ws mv arr dstp w D =
  acc ← accumulate ws arr (Z.of_nat w) ;
  v ← of_option FloatToInt (convertSample T mv acc) ;
  store_sample D (dstp + Z.of_nat w) v.
Proof. reflexivity. Qed.


Lemma mul_nonfinite (x w : spec_float) :
  nonfinite w = true → nonfinite (F32.mul x w) = true.
Proof. by destruct x as [sx|sx| |sx mx ex], w as [sw|sw| |sw mw ew]. Qed.

Lemma add_nonfinite_r (acc x : spec_float) :
  nonfinite x = true → nonfinite (F32.add acc x) = true.
Proof.
  destruct acc as [sa|sa| |sa ma ea], x as [sx|sx| |sx mx ex]; try done.
  by destruct sa, sx.
Qed.

Lemma add_nonfinite_l (acc x : spec_float) :
  nonfinite acc = true → nonfinite (F32.add acc x) = true.
Proof.
  destruct acc as [sa|sa| |sa ma ea], x as [sx|sx| |sx mx ex]; try done.
  by destruct sa, sx.
Qed.

Lemma fold_nonfinite (l : list (Z * spec_float)) (acc : spec_float) :
  nonfinite acc = true ∨ (∃ vw, vw ∈ l ∧ nonfinite vw.2 = true) →
  nonfinite
    (fold_left (fun acc vw => F32.add acc (F32.mul (F32.of_int vw.1) vw.2))
       l acc) = true.
Proof.
  revert acc. induction l as [|vw l IH]; intros acc Hor; simpl.
  - destruct Hor as [|(vw & Hin & _)]; [done|]. by apply elem_of_nil in Hin.
  - apply IH. destruct Hor as [Hacc|(vw' & Hin & Hw)].
    + left. by apply add_nonfinite_l.
    + apply elem_of_cons in Hin as [->|Hin].
      * left. by apply add_nonfinite_r, mul_nonfinite.
      * right. eauto.
Qed.

(** A sum that has an infinite or NaN weight is infinite or NaN, so its
    conversion to [int] is undefined. *)
Lemma weightedSum_nonfinite (samples : list Z) (ws : list spec_float)
    (i : nat) (w : spec_float) :
  length samples = length ws →
  ws !! i = Some w → nonfinite w = true →
  int_of_float (weightedSum samples ws) = None.
Proof.
  intros Hlen Hw Hnf.
  destruct (lookup_lt_is_Some_2 samples i) as [v Hv].
  { rewrite Hlen. by apply lookup_lt_Some in Hw. }
  assert (nonfinite (weightedSum samples ws) = true) as Hsum.
  { apply fold_nonfinite. right. exists (v, w). split; [|done].
    apply list_elem_of_lookup. exists i.
    apply lookup_zip_with_Some. eauto. }
  unfold int_of_float. by destruct (weightedSum samples ws).
Qed.



(** X11. With a weight that is an infinity or a NaN, the blend of a plane
    with a non-empty picture is undefined: the very first sample converts a
    non-finite [float] to [int] (at a stored depth outside 0..31 the shift
    of [maxVal], which comes first, is undefined already). *)
Theorem nonfinite_weight_undefined (T : SampleT) (d : FrameBlendData)
    (srcs : list VSFrameRef) (dst : VSFrameRef) (plane : nat) (σ : store)
    (dpl : PlaneRef) (fmt : VSFormat) (bufs : list (list Z))
    (dstbuf : list Z) (i : nat) (w : spec_float) :
  let ws := weightPercents d in
  f_planes dst !! plane = Some dpl →
  σ !! pl_buf dpl = Some dstbuf →
  format (vi d) = Some fmt →
  Forall2 (fun f buf => planeData σ plane f = Some buf) srcs bufs →
  length srcs = length ws →
  (length ws ≤ srcpp_capacity)%nat →
  Forall (fun buf : list Z => (0 < length buf)%nat) bufs →
  0 < pl_width dpl → 0 < pl_height dpl →
  ws !! i = Some w → nonfinite w = true →
  frameBlend T d srcs dst plane σ =
    Undef (if shl_defined (bitsPerSample fmt) then FloatToInt else ShiftCount).
Proof.
  intros ws Hdpl Hdst Hfmt Hsrcs Hlen Hcap Hbufs HW HH Hw Hnf.
  assert (Forall2 (fun f buf =>
            getReadPtr σ f plane = Ret {| p_buf := buf; p_off := 0 |})
            srcs bufs) as Hptrs.
  { eapply Forall2_impl; [exact Hsrcs|]. intros f buf.
    apply getReadPtr_planeData. }
  unfold frameBlend. rewrite Hdpl. run.
  destruct (fill_ok σ plane srcs bufs ws Hptrs Hlen Hcap) as (arr & Hfill & Hat).
  fold ws. rewrite Hfill. run. rewrite Hdst. run. rewrite Hfmt. run.
  destruct (shl_defined (bitsPerSample fmt)); [|done]. run.
  destruct (Z.to_nat (pl_height dpl)) as [|H'] eqn:EH; [lia|].
  destruct (Z.to_nat (pl_width dpl)) as [|W'] eqn:EW; [lia|].
  rewrite for_loop_S, blendRow_eq, for_loop_S.
  rewrite (blendPixel_eq T ws (maxVal fmt) arr 0 0%nat dstbuf).
  rewrite (accumulate_ok σ plane srcs bufs ws Hptrs Hlen Hcap arr 0
             (Z.of_nat 0)); [|done|lia|].
  2:{ eapply Forall_impl; [exact Hbufs|]. intros buf Hb. simpl in *. lia. }
  run. unfold convertSample.
  rewrite (weightedSum_nonfinite _ ws i w); [done| |done|done].
  unfold samplesAt. rewrite length_fmap.
  by rewrite <- (Forall2_length _ _ _ Hsrcs).
Qed.

Lemma nonfinite_weight_undefined_witness :
  frameBlend U8
    {| node := sampleNode; vi := sampleInfo;
       weightPercents := [S754_infinity false]; process := [true; true; true] |}
    [sampleFrame 3] sampleDst 0 sampleStore' = Undef FloatToInt.
Proof.
  apply (nonfinite_weight_undefined U8 _ [sampleFrame 3] sampleDst 0%nat
           sampleStore'
           {| pl_buf := 9; pl_stride := 4; pl_width := 3; pl_height := 2 |}
           sampleFormat [replicate 8 20] (replicate 8 0) 0%nat
           (S754_infinity false)).
  - reflexivity.
  - reflexivity.
  - reflexivity.
  - repeat constructor.
  - reflexivity.
  - vm_compute. lia.
  - repeat constructor; vm_compute; lia.
  - reflexivity.
  - reflexivity.
  - reflexivity.
  - reflexivity.
Defined.

(** ** A single weight *)

Lemma div_eucl_exact (m : positive) (k : Z) :
  0 ≤ k → Z.div_eucl (Z.pos m * k) (Z.pos m) = (k, 0).
Proof.
  intros Hk.
  destruct (Z.div_eucl (Z.pos m * k) (Z.pos m)) as [q r] eqn:E.
  assert (q = Z.pos m * k / Z.pos m) as -> by (unfold Z.div; by rewrite E).
  assert (r = (Z.pos m * k) mod Z.pos m) as -> by (unfold Z.modulo; by rewrite E).
  rewrite Z.mul_comm, Z.div_mul, Z.mod_mul by lia. done.
Qed.

(** A finite double divided by itself is 1.0. *)
Lemma F64_div_self (s : bool) (m : positive) (e : Z) :
  F64.div (S754_finite s m e) (S754_finite s m e) = F64.of_int 1.
Proof.
  unfold F64.div, SFdiv, SFdiv_core_binary.
  rewrite !Z.sub_diag.
  change (Z.min (fexp F64.prec F64.emax 0) 0) with (-53).
  change (0 - -53) with 53.
  rewrite Z.shiftl_mul_pow2 by lia.
  rewrite div_eucl_exact by lia.
  rewrite xorb_nilpotent.
  assert (new_location (Z.pos m) 0 = loc_Exact) as ->.
  { unfold new_location. by destruct (Z.even (Z.pos m)). }
  reflexivity.
Qed.

(** X12. A filter is created from any single raw weight. When the weight
    is finite, not zero, and a value that [float] holds exactly, it is
    stored as exactly 1.0, whatever its magnitude and sign. When it is 0.0
    or -0.0, it is stored as NaN (zero divided by a zero total); nothing
    rejects it. *)
Theorem single_weight_normalizes (inm : VSMap) (nd : VSNodeRef)
    (p : list bool) (w : spec_float) :
  arg_clip inm = Some nd →
  arg_weights inm = Some [w] →
  getPlanesArg (arg_planes inm) = inr p →
  ∃ d, frameBlendCreate inm = Ret (CreateFilter registeredName d) ∧
       (∀ s m e, w = S754_finite s m e →
          F64.of_float (F32.of_double w) = w →
          weightPercents d = [f32_one]) ∧
       (∀ s, w = S754_zero s → weightPercents d = [S754_nan]).
Proof.
  intros Hclip Hws Hp. unfold frameBlendCreate, frameBlendCreate_try.
  rewrite Hws, Hclip, Hp. simpl propNumElements.
  change (negb (Z.rem (Z.of_nat 1) 2 =? 1)) with false.
  run. eexists. split; [reflexivity|].
  cbn [weightPercents elements default]. change (Z.to_nat (Z.of_nat 1)) with 1%nat.
  cbn [scaleWeights app].
  change (id [w] !!! 0%nat) with w.
  split.
  - intros s m e Hw Hexact. revert Hexact. rewrite Hw. intros Hexact.
    change (totalWeights (id [S754_finite s m e]))
      with (F32.of_double (S754_finite s m e)).
    rewrite Hexact, F64_div_self. reflexivity.
  - intros s ->. by destruct s.
Qed.

Lemma single_weight_normalizes_witness :
  ∃ d, frameBlendCreate {| arg_clip := Some sampleNode;
                           arg_weights := Some [F64.of_int (-3)];
                           arg_planes := None |}
       = Ret (CreateFilter registeredName d) ∧
       weightPercents d = [f32_one].
Proof.
  destruct (single_weight_normalizes
              {| arg_clip := Some sampleNode;
                 arg_weights := Some [F64.of_int (-3)];
                 arg_planes := None |}
              sampleNode [true; true; true] (F64.of_int (-3))
              eq_refl eq_refl eq_refl) as (d & Hd & Hone & _).
  exists d. split; [exact Hd|].
  exact (Hone true 6755399441055744%positive (-51) eq_refl eq_refl).
Defined.

(** ** What construction hands over *)

Lemma getPlanesArg_length (planes : option (list Z)) (p : list bool) :
  getPlanesArg planes = inr p → length p = 3%nat.
Proof.
  unfold getPlanesArg. intros Hp.
  pose proof (getPlanesArg_loop_spec (elements planes)
                (replicate 3 (propNumElements planes <=? 0))
                (length_replicate _ _)) as Hspec.
  rewrite Hp in Hspec. by destruct Hspec as (_ & _ & _ & Hlen & _).
Qed.

Lemma getPlanesArg_errors (planes : option (list Z)) (what : string) :
  getPlanesArg planes = inl (RuntimeError what) →
  what = "plane index out of range" ∨ what = "plane specified twice".
Proof.
  unfold getPlanesArg.
  generalize (replicate 3 (propNumElements planes <=? 0)).
  induction (elements planes) as [|x l IH]; intros P; simpl; [done|].
  repeat case_match; try (intros [= <-]; auto). apply IH.
Qed.

(** X13. Every filter that construction creates is named FrameBlend, keeps
    the clip it was given and that clip's video info, announces that video
    info for its one output, has an odd number of weights (as many as were
    given, so at least one) and a mask of exactly three flags, all set when
    no plane list was given. *)
Theorem created_filter_invariants (inm : VSMap) (name : string)
    (d : FrameBlendData) :
  frameBlendCreate inm = Ret (CreateFilter name d) →
  name = registeredName ∧
  arg_clip inm = Some (node d) ∧
  vi d = node_vi (node d) ∧
  frameBlendInit d = [node_vi (node d)] ∧
  Nat.odd (length (weightPercents d)) = true ∧
  (∃ ws, arg_weights inm = Some ws ∧
         length (weightPercents d) = length ws) ∧
  length (process d) = 3%nat ∧
  (arg_planes inm = None → process d = [true; true; true]).
Proof.
  unfold frameBlendCreate, frameBlendCreate_try. intros Hrun.
  destruct (arg_weights inm) as [ws|] eqn:Hws; [|done].
  simpl propNumElements in Hrun. rewrite rem2_of_nat in Hrun.
  destruct (Nat.odd (length ws)) eqn:Hodd; [|done].
  simpl negb in Hrun. cbv iota in Hrun.
  destruct (arg_clip inm) as [nd|] eqn:Hclip; [|done].
  run_in Hrun.
  destruct (getPlanesArg (arg_planes inm)) as [[what]|p] eqn:Hp; [done|].
  run_in Hrun. injection Hrun as <- <-.
  unfold frameBlendInit.
  cbn [node vi weightPercents process elements default].
  assert (length (scaleWeights ws (Z.to_nat (Z.of_nat (length ws))) 0
                    (totalWeights ws) []) = length ws) as Hlen.
  { rewrite Nat2Z.id, scaleWeights_spec by (simpl; lia).
    rewrite drop_0, firstn_all. simpl. by rewrite length_fmap. }
  split_and!; try done.
  - by rewrite Hlen.
  - exists ws. by rewrite Hlen.
  - by apply (getPlanesArg_length (arg_planes inm)).
  - intros Hnone. rewrite Hnone in Hp. by injection Hp as <-.
Qed.

Lemma created_filter_invariants_witness :
  ∃ d, frameBlendCreate {| arg_clip := Some sampleNode;
                           arg_weights := Some sampleWeights;
                           arg_planes := Some [2] |}
       = Ret (CreateFilter registeredName d) ∧
       frameBlendInit d = [sampleInfo] ∧
       length (process d) = 3%nat.
Proof.
  eexists. split; [vm_compute; reflexivity|].
  destruct (created_filter_invariants
              {| arg_clip := Some sampleNode;
                 arg_weights := Some sampleWeights;
                 arg_planes := Some [2] |} registeredName _
              ltac:(vm_compute; reflexivity))
    as (_ & _ & _ & Hinit & _ & _ & Hlen & _).
  split; [exact Hinit|exact Hlen].
Defined.

(** X14. The errors of construction: a missing weights key is reported as
    an even count; every error text is the filter's name, a colon and one of
    three messages; and a bad plane list is reported only after the count of
    weights was found odd and the clip was read. *)
Theorem create_errors (inm : VSMap) :
  (arg_weights inm = None →
     frameBlendCreate inm =
       Ret (SetError "FrameBlend: Number of weights must be odd")) ∧
  (∀ msg, frameBlendCreate inm = Ret (SetError msg) →
     (msg = "FrameBlend: Number of weights must be odd" ∧
      Z.rem (propNumElements (arg_weights inm)) 2 ≠ 1) ∨
     ((msg = "FrameBlend: plane index out of range" ∨
       msg = "FrameBlend: plane specified twice") ∧
      Z.rem (propNumElements (arg_weights inm)) 2 = 1 ∧
      is_Some (arg_clip inm) ∧ is_Some (arg_planes inm))).
Proof.
  split.
  - intros Hnone. unfold frameBlendCreate, frameBlendCreate_try.
    by rewrite Hnone.
  - intros msg. unfold frameBlendCreate, frameBlendCreate_try.
    destruct (Z.rem (propNumElements (arg_weights inm)) 2 =? 1) eqn:Hpar.
    + apply Z.eqb_eq in Hpar. simpl negb. cbv iota.
      destruct (arg_clip inm) as [nd|]; [|done]. run.
      destruct (getPlanesArg (arg_planes inm)) as [[what]|p] eqn:Hp;
        run; [|done].
      intros [= <-]. right.
      assert (is_Some (arg_planes inm)) as Hsome.
      { destruct (arg_planes inm); [eauto|done]. }
      destruct (getPlanesArg_errors _ _ Hp) as [-> | ->];
        (split; [auto|split_and!; eauto]).
    + apply Z.eqb_neq in Hpar. simpl negb. cbv iota. run.
      intros [= <-]. by left.
Qed.

Lemma create_errors_witness :
  frameBlendCreate {| arg_clip := Some sampleNode; arg_weights := None;
                      arg_planes := None |} =
    Ret (SetError "FrameBlend: Number of weights must be odd").
Proof.
  apply (proj1 (create_errors {| arg_clip := Some sampleNode;
                                 arg_weights := None;
                                 arg_planes := None |})).
  reflexivity.
Defined.

(** ** The order of the plane list *)

(** X15. The mask depends on which planes are named, not on their order:
    a reordering of a plane list is accepted exactly when the list is, and
    gives the same mask. *)
Theorem getPlanesArg_order (l l' : list Z) (mask : list bool) :
  l ≡ₚ l' →
  (getPlanesArg (Some l) = inr mask ↔ getPlanesArg (Some l') = inr mask).
Proof.
  assert (∀ l l' mask, l ≡ₚ l' →
            getPlanesArg (Some l) = inr mask →
            getPlanesArg (Some l') = inr mask) as Hdir.
  { clear. intros l l' mask Hperm. unfold getPlanesArg.
    assert ((propNumElements (Some l') <=? 0) =
            (propNumElements (Some l) <=? 0)) as ->.
    { unfold propNumElements. by rewrite (Permutation_length Hperm). }
    set (P := replicate 3 (propNumElements (Some l) <=? 0)).
    simpl elements.
    pose proof (getPlanesArg_loop_spec l P (length_replicate _ _)) as H1.
    pose proof (getPlanesArg_loop_spec l' P (length_replicate _ _)) as H2.
    intros Hl. rewrite Hl in H1.
    destruct H1 as (Hrange & Hnd & Hfalse & Hlen & Hmask).
    destruct (getPlanesArg_loop l' P) as [e|mask'].
    - exfalso. destruct H2 as [(x & Hx & Hbad)|[Hdup|(x & Hx & Hset)]].
      + rewrite <- Hperm in Hx. specialize (Hrange x Hx). lia.
      + apply Hdup. by rewrite <- Hperm.
      + rewrite <- Hperm in Hx. specialize (Hfalse x Hx). congruence.
    - destruct H2 as (_ & _ & _ & Hlen' & Hmask'). f_equal.
      apply list_eq. intros i.
      destruct (decide (i < 3)%nat) as [Hi|Hi].
      + rewrite Hmask, Hmask' by done. do 2 f_equal.
        apply bool_decide_ext. by rewrite Hperm.
      + rewrite !lookup_ge_None_2 by lia. done. }
  intros Hperm. split; apply Hdir; [done|by symmetry].
Qed.

Lemma getPlanesArg_order_witness :
  getPlanesArg (Some [2; 0]) = inr [true; false; true].
Proof.
  apply (getPlanesArg_order [0; 2] [2; 0] [true; false; true]).
  - apply Permutation_swap.
  - reflexivity.
Defined.

(** ** Requests that blend nothing, and filters with too many weights *)

Lemma newPlanes_reuse (d : FrameBlendData) (c : VSFrameRef) (n p : nat)
    (σ : store) :
  (∀ i, (i < n)%nat → process d !! (p + i)%nat = Some false) →
  (p + n ≤ 3)%nat →
  (p + n ≤ length (f_planes c))%nat →
  newPlanes n p
    ((fun p => if (process d !!! p : bool) then None else Some c)
       <$> [0; 1; 2]%nat)
    [0; 1; 2]%nat c σ = Ret (take n (drop p (f_planes c)), σ).
Proof.
  revert p. induction n as [|n IH]; intros p Hsel H3 Hlen; [done|].
  rewrite newPlanes_S, reuse_map_lookup, decide_True by lia. run.
  pose proof (Hsel 0%nat ltac:(lia)) as Hp. rewrite Nat.add_0_r in Hp.
  rewrite (list_lookup_total_correct _ _ _ Hp).
  rewrite plane_map_lookup by lia. run.
  destruct (lookup_lt_is_Some_2 (f_planes c) p ltac:(lia)) as [g Hg].
  rewrite Hg. run. rewrite IH; [|intros i Hi|lia|lia].
  - run. by rewrite (drop_S _ _ _ Hg).
  - replace (S p + i)%nat with (p + S i)%nat by lia. apply Hsel. lia.
Qed.

Lemma planeLoop_skip (count plane : nat) (d : FrameBlendData) (fi : VSFormat)
    (frames : list VSFrameRef) (dst : VSFrameRef) (h : host) :
  (∀ q, (plane ≤ q < plane + count)%nat → process d !! q = Some false) →
  planeLoop count plane d fi frames dst h = Ret (true, h).
Proof.
  revert plane. induction count as [|count IH]; intros plane Hsel; [done|].
  simpl. rewrite (Hsel plane) by lia. run. apply IH.
  intros q Hq. apply Hsel. lia.
Qed.

(** X16. A request in which none of the frame's planes is selected returns
    a frame made of the center frame's own planes; it allocates nothing and
    logs nothing, whatever the sample width and whether or not the filter
    has a stored format. *)
Theorem nothing_selected (n : Z) (d : FrameBlendData) (h : host)
    (c : VSFrameRef) :
  let frames := node_frame (node d) <$> fetchWindow n d in
  frames !! (length frames / 2)%nat = Some c →
  wellFormedFrame (buffers h) c →
  (∀ q, Z.of_nat q < numPlanes (f_format c) → process d !! q = Some false) →
  frameBlendGetFrame n arAllFramesReady d h =
    Ret (Some {| f_format := f_format c; f_planes := f_planes c |},
         freeFrames frames h).
Proof.
  intros frames Hcenter (H3 & Hlen & _) Hsel.
  unfold frameBlendGetFrame. fold frames. rewrite Hcenter. run.
  unfold newVideoFrame2.
  rewrite (newPlanes_reuse d c); [|intros i Hi; apply Hsel; lia|lia|lia].
  run. rewrite planeLoop_skip by (intros q Hq; apply Hsel; lia).
  run. rewrite drop_0, <- Hlen, firstn_all. by destruct h.
Qed.

Lemma nothing_selected_witness :
  frameBlendGetFrame 0 arAllFramesReady
    {| node := node floatData; vi := vi floatData;
       weightPercents := unitWeight; process := [false; false; false] |}
    sampleHost =
  Ret (Some floatFrame, freeFrames [floatFrame] sampleHost).
Proof.
  apply (nothing_selected 0
           {| node := node floatData; vi := vi floatData;
              weightPercents := unitWeight;
              process := [false; false; false] |} sampleHost floatFrame).
  - reflexivity.
  - split; [vm_compute; discriminate|]. split; [reflexivity|].
    repeat constructor.
  - intros q Hq. destruct q as [|[|[|q]]]; try reflexivity.
    change (numPlanes (f_format floatFrame)) with 3 in Hq. lia.
Defined.

Lemma planeLoop_overflow (T : SampleT) (count plane : nat)
    (d : FrameBlendData) (fi : VSFormat) (frames : list VSFrameRef)
    (dst : VSFrameRef) (h : host) (q : nat) :
  dispatch fi = Some T →
  length frames = length (weightPercents d) →
  (srcpp_capacity < length (weightPercents d))%nat →
  (plane + count ≤ length (process d))%nat →
  (plane ≤ q < plane + count)%nat →
  process d !! q = Some true →
  (∀ q', (plane ≤ q' < plane + count)%nat → process d !! q' = Some true →
     is_Some (f_planes dst !! q') ∧
     ∃ bufs, Forall2 (fun f buf => planeData (buffers h) q' f = Some buf)
               frames bufs) →
  planeLoop count plane d fi frames dst h = Undef SrcppOverflow.
Proof.
  intros Hdisp Hlen Hgt. revert plane.
  induction count as [|count IH]; intros plane Hproc Hq Hsel Hok; [lia|].
  destruct (lookup_lt_is_Some_2 (process d) plane ltac:(lia)) as [sel Hs].
  destruct sel.
  - rewrite (planeLoop_selected T) by done.
    destruct (Hok plane ltac:(lia) Hs) as ([dpl Hdpl] & bufs & Hbufs).
    unfold frameBlend. rewrite Hdpl. run. rewrite <- Hlen.
    rewrite (fill_overflow _ _ _ bufs Hbufs) by lia. done.
  - simpl. rewrite Hs. run. apply IH; [lia| |done|].
    + destruct (decide (q = plane)) as [->|Hne]; [congruence|lia].
    + intros q' Hq'. apply Hok. lia.
Qed.

Lemma Forall_is_Some_Forall2 {A B : Type} (P : A → option B) (l : list A) :
  Forall (fun a => is_Some (P a)) l →
  ∃ bs, Forall2 (fun a b => P a = Some b) l bs.
Proof.
  induction 1 as [|a l [b Hb] _ [bs IH]].
  - exists []. constructor.
  - exists (b :: bs). by constructor.
Qed.

(** X17. Construction puts no bound on the number of weights, but with
    more than 128 of them every request that has a plane to blend is
    undefined: the fill of the 128-entry pointer array runs past its end. *)
Theorem too_many_weights (n : Z) (d : FrameBlendData) (h : host)
    (c : VSFrameRef) (T : SampleT) (q : nat) :
  let frames := node_frame (node d) <$> fetchWindow n d in
  frames !! (length frames / 2)%nat = Some c →
  length (process d) = 3%nat →
  wellFormedFrame (buffers h) c →
  dispatch (f_format c) = Some T →
  (srcpp_capacity < length (weightPercents d))%nat →
  Z.of_nat q < numPlanes (f_format c) →
  process d !! q = Some true →
  (∀ q', Z.of_nat q' < numPlanes (f_format c) →
     Forall (fun f => is_Some (planeData (buffers h) q' f)) frames) →
  frameBlendGetFrame n arAllFramesReady d h = Undef SrcppOverflow.
Proof.
  intros frames Hcenter Hproc (H3 & Hlen & Halloc) Hdisp Hgt Hq Hsel Hread.
  unfold frameBlendGetFrame. fold frames. rewrite Hcenter. run.
  unfold newVideoFrame2.
  set (np := Z.to_nat (numPlanes (f_format c))).
  destruct (newPlanes_total d c np 0 (buffers h)) as (planes & σ1 & Hnew);
    [lia|lia|done|].
  fold np. rewrite Hnew. run.
  destruct (newPlanes_spec _ _ _ _ _ _ _ _ Hnew) as ((ext & ->) & Hpl & _).
  rewrite (planeLoop_overflow T _ _ _ _ _ _ _ q); try done.
  - unfold frames, fetchWindow. by rewrite length_fmap, fetchIndices_length.
  - lia.
  - lia.
  - intros q' Hq' Hsel'. simpl. split.
    + apply lookup_lt_is_Some_2. lia.
    + destruct (Forall_is_Some_Forall2 _ _ (Hread q' ltac:(lia)))
        as [bufs Hbufs].
      exists bufs. eapply Forall2_impl; [exact Hbufs|]. intros f buf.
      apply planeData_agree. intros i Hi. by apply lookup_app_l.
Qed.

Lemma too_many_weights_witness :
  frameBlendGetFrame 64 arAllFramesReady manyData sampleHost
  = Undef SrcppOverflow.
Proof.
  apply (too_many_weights 64 manyData sampleHost (sampleFrame 6) U8 0%nat).
  - reflexivity.
  - reflexivity.
  - split; [vm_compute; discriminate|]. split; [reflexivity|].
    repeat constructor.
  - reflexivity.
  - vm_compute. lia.
  - reflexivity.
  - reflexivity.
  - intros q' Hq'. change (numPlanes (f_format (sampleFrame 6))) with 3 in Hq'.
    apply Forall_fmap, Forall_forall. intros i _. simpl.
    destruct (Z.to_nat (Z.min i 2)) as [|[|[|k]]] eqn:Ei; [| | |lia];
      (destruct q' as [|[|[|q']]]; [| | |lia]); vm_compute; eauto.
Defined.
